(** * DropMind backend (backend/main.py): clipboards, messages, attachments

    A shallow embedding of the FastAPI + SQLite backend.  The relational
    store is a pair of tables (lists of rows in rowid order) with their
    AUTOINCREMENT counters, the attachments directory is a finite map from
    file names to contents, and every route handler is a function in a
    small state-and-exception monad over that world.  The clock reading and
    the random bytes a handler consumes are explicit inputs. *)

From Stdlib Require Import ZArith NArith Ascii String.
From Stdlib.Strings Require Import Byte.
From stdpp Require Import gmap strings list sorting.

Local Open Scope Z_scope.

(** ** Python library functions used by the handlers *)

Module Py.

(** Truth value of an [Optional[str]]: [None] and the empty string are falsy. *)
Definition truthy (s : option string) : bool :=
  match s with
  | Some (String _ _) => true
  | _ => false
  end.

(** [s[n:]] and [s[:n]] for a non-negative index. *)
Fixpoint drop (n : nat) (s : string) : string :=
  match n, s with
  | O, _ => s
  | S n', String _ r => drop n' r
  | S _, EmptyString => EmptyString
  end.

Fixpoint take (n : nat) (s : string) : string :=
  match n, s with
  | S n', String c r => String c (take n' r)
  | _, _ => EmptyString
  end.

(** [str.rfind(c)]: index of the last occurrence, [-1] when there is none. *)
Fixpoint rfind_from (c : ascii) (s : string) (i last : Z) : Z :=
  match s with
  | EmptyString => last
  | String a r => rfind_from c r (i + 1) (if Ascii.eqb a c then i else last)
  end.

Definition rfind (c : ascii) (s : string) : Z := rfind_from c s 0 (-1).

(** [posixpath.basename]: [i = p.rfind('/') + 1; return p[i:]]. *)
Definition basename (p : string) : string :=
  let i := rfind "/" p + 1 in
  drop (Z.to_nat i) p.

(** The scan of [genericpath._splitext] over the characters between the
    last separator and the last dot: [true] as soon as one of the first
    [n] characters is not a dot. *)
Fixpoint non_dot_within (n : nat) (s : string) : bool :=
  match n, s with
  | S n', String a r => if Ascii.eqb a "." then non_dot_within n' r else true
  | _, _ => false
  end.

(** [posixpath.splitext]: split at the last dot of the last path
    component, leading dots of the component not counting. *)
Definition splitext (p : string) : string * string :=
  let sepIndex := rfind "/" p in
  let dotIndex := rfind "." p in
  if (sepIndex <? dotIndex)
     && non_dot_within (Z.to_nat (dotIndex - (sepIndex + 1)))
                       (drop (Z.to_nat (sepIndex + 1)) p)
  then (take (Z.to_nat dotIndex) p, drop (Z.to_nat dotIndex) p)
  else (p, EmptyString).

(** [s.split(sep, 1)]: cut at the first occurrence of [sep], if any. *)
Fixpoint split_first (sep : ascii) (s : string) : string * option string :=
  match s with
  | EmptyString => (EmptyString, None)
  | String c r =>
      if Ascii.eqb c sep then (EmptyString, Some r)
      else let '(h, t) := split_first sep r in (String c h, t)
  end.

Definition split1 (sep : ascii) (s : string) : list string :=
  match split_first sep s with
  | (h, None) => [h]
  | (h, Some t) => [h; t]
  end.

(** [c in s] *)
Fixpoint occurs (c : ascii) (s : string) : bool :=
  match s with
  | EmptyString => false
  | String a r => Ascii.eqb a c || occurs c r
  end.

(** [uuid.uuid4().hex]: sixteen random bytes read as a 128-bit integer,
    the variant and version fields overwritten, printed with ['%032x']. *)
Definition hex_digit (d : N) : ascii :=
  match d with
  | 0 => "0" | 1 => "1" | 2 => "2" | 3 => "3" | 4 => "4" | 5 => "5"
  | 6 => "6" | 7 => "7" | 8 => "8" | 9 => "9" | 10 => "a" | 11 => "b"
  | 12 => "c" | 13 => "d" | 14 => "e" | _ => "f"
  end%N%char.

Fixpoint hex_digits (k : nat) (n : N) (acc : string) : string :=
  match k with
  | O => acc
  | S k' => hex_digits k' (n / 16)%N (String (hex_digit (n mod 16)%N) acc)
  end.

Definition uuid4_int (urandom : N) : N :=
  let i := (urandom mod 2 ^ 128)%N in
  let i := N.ldiff i (N.shiftl 0xc000 48) in
  let i := N.lor i (N.shiftl 0x8000 48) in
  let i := N.ldiff i (N.shiftl 0xf000 64) in
  N.lor i (N.shiftl 4 76).

Definition uuid4_hex (urandom : N) : string :=
  hex_digits 32 (uuid4_int urandom) EmptyString.

End Py.

(** ** Exceptions and results *)

Inductive exn :=
| HTTPException (status_code : Z) (detail : string)
| IntegrityError (msg : string)    (* sqlite3.IntegrityError *)
| OperationalError (msg : string)  (* sqlite3.OperationalError *)
| OverflowError (msg : string)
| TypeError (msg : string)
| NameError (msg : string)
| IndexError (msg : string)
| OSError (msg : string)
| ValueError (msg : string).

Inductive outcome (A : Type) :=
| Return (a : A)
| Raise (e : exn).
Arguments Return {A} a.
Arguments Raise {A} e.

(** ** The relational store

    The two tables of [startup]'s schema.  A table is the list of its rows
    in insertion order; [seq_*] is the table's entry in [sqlite_sequence]
    (the largest rowid AUTOINCREMENT has handed out, 0 before the first). *)

Module clipboards.
Record row := Row { id : Z; name : string; created_at : string }.
End clipboards.

Module messages.
Record row := Row {
  id : Z;
  text : option string;
  filename : option string;
  clipboard_id : Z;
  created_at : string;
  updated_at : string;
  pinned : Z
}.
End messages.

Record database := Database {
  tbl_clipboards : list clipboards.row;
  seq_clipboards : Z;
  tbl_messages : list messages.row;
  seq_messages : Z
}.

Definition empty_database : database := Database [] 0 [] 0.

Module Sql.

(** SQLite stores an INTEGER in 64 bits; the driver refuses to bind a
    Python int outside that range. *)
Definition int64 (z : Z) : bool := (- 2 ^ 63 <=? z) && (z <? 2 ^ 63).

Definition bind_ints {A} (params : list Z) (k : outcome A) : outcome A :=
  if forallb int64 params then k
  else Raise (OverflowError "Python int too large to convert to SQLite INTEGER").

(** Rowid of the next row of an AUTOINCREMENT table: one more than the
    largest rowid the table has ever held; none is left after 2^63-1. *)
Definition next_rowid (seq : Z) (ids : list Z) : outcome Z :=
  let top := foldr Z.max seq ids in
  if top <? 2 ^ 63 - 1 then Return (top + 1)
  else Raise (OperationalError "database or disk is full").

Definition has_clipboard (cid : Z) (d : database) : bool :=
  existsb (fun c => clipboards.id c =? cid) (tbl_clipboards d).

Definition has_message (mid : Z) (d : database) : bool :=
  existsb (fun m => messages.id m =? mid) (tbl_messages d).

(** [INSERT OR IGNORE INTO clipboards (id, name, created_at)
     VALUES (1, 'main', ?)]: skipped when the primary key or the UNIQUE
    name is taken. *)
Definition insert_or_ignore_main (now : string) (d : database)
  : outcome database :=
  if existsb (fun c => (clipboards.id c =? 1)
                       || String.eqb (clipboards.name c) "main")
             (tbl_clipboards d)
  then Return d
  else Return (Database (tbl_clipboards d ++ [clipboards.Row 1 "main" now])
                        (Z.max (seq_clipboards d) 1)
                        (tbl_messages d) (seq_messages d)).

(** [SELECT * FROM clipboards ORDER BY name]; TEXT compares bytewise. *)
Definition name_le (a b : clipboards.row) : Prop :=
  String.leb (clipboards.name a) (clipboards.name b) = true.

#[global] Instance name_le_dec : RelDecision name_le :=
  fun a b => decide (String.leb (clipboards.name a) (clipboards.name b) = true).

Definition select_clipboards_by_name (d : database) : list clipboards.row :=
  merge_sort name_le (tbl_clipboards d).

(** [INSERT INTO clipboards (name, created_at) VALUES (?, ?)].  The
    UNIQUE check is written first; SQLite allocates the rowid first, which
    shows only when both fail at once (a taken name and no rowid left). *)
Definition insert_clipboard (name now : string) (d : database)
  : outcome database :=
  if existsb (fun c => String.eqb (clipboards.name c) name) (tbl_clipboards d)
  then Raise (IntegrityError "UNIQUE constraint failed: clipboards.name")
  else
    match next_rowid (seq_clipboards d) (clipboards.id <$> tbl_clipboards d) with
    | Raise e => Raise e
    | Return new_id =>
        Return (Database (tbl_clipboards d ++ [clipboards.Row new_id name now])
                         new_id (tbl_messages d) (seq_messages d))
    end.

(** [UPDATE clipboards SET name = ? WHERE id = ?] *)
Definition update_clipboard_name (name : string) (cid : Z) (d : database)
  : outcome database :=
  bind_ints [cid]
    (if has_clipboard cid d
        && existsb (fun c => negb (clipboards.id c =? cid)
                             && String.eqb (clipboards.name c) name)
                   (tbl_clipboards d)
     then Raise (IntegrityError "UNIQUE constraint failed: clipboards.name")
     else
       Return (Database
                 ((fun c => if clipboards.id c =? cid
                            then clipboards.Row (clipboards.id c) name
                                                (clipboards.created_at c)
                            else c) <$> tbl_clipboards d)
                 (seq_clipboards d) (tbl_messages d) (seq_messages d))).

(** [DELETE FROM messages WHERE clipboard_id = ?] *)
Definition delete_messages_of_clipboard (cid : Z) (d : database)
  : outcome database :=
  bind_ints [cid]
    (Return (Database (tbl_clipboards d) (seq_clipboards d)
                      (filter (fun m => messages.clipboard_id m <> cid)
                              (tbl_messages d))
                      (seq_messages d))).

(** [DELETE FROM clipboards WHERE id = ?]; with [foreign_keys = ON] a
    clipboard that a message still references cannot go. *)
Definition delete_clipboard_row (cid : Z) (d : database) : outcome database :=
  bind_ints [cid]
    (if has_clipboard cid d
        && existsb (fun m => messages.clipboard_id m =? cid) (tbl_messages d)
     then Raise (IntegrityError "FOREIGN KEY constraint failed")
     else
       Return (Database (filter (fun c => clipboards.id c <> cid)
                                (tbl_clipboards d))
                        (seq_clipboards d) (tbl_messages d) (seq_messages d))).

Definition set_messages (rows : list messages.row) (d : database) : database :=
  Database (tbl_clipboards d) (seq_clipboards d) rows (seq_messages d).

(** [UPDATE messages SET text = ?, updated_at = ? WHERE id = ?] *)
Definition update_message_text (text now : string) (mid : Z) (d : database)
  : outcome database :=
  bind_ints [mid]
    (Return (set_messages
               ((fun m => if messages.id m =? mid
                          then messages.Row (messages.id m) (Some text)
                                 (messages.filename m) (messages.clipboard_id m)
                                 (messages.created_at m) now (messages.pinned m)
                          else m) <$> tbl_messages d) d)).

(** [SELECT * FROM messages WHERE id = ?], [fetchone()] *)
Definition select_message (mid : Z) (d : database)
  : outcome (option messages.row) :=
  bind_ints [mid]
    (Return (List.find (fun m => messages.id m =? mid) (tbl_messages d))).

(** [INSERT INTO messages (text, filename, clipboard_id, created_at,
     updated_at, pinned) VALUES (?, ?, ?, ?, ?, 0)]; returns the
    connection and [lastrowid]. *)
Definition insert_message (text filename : option string) (cid : Z)
    (now : string) (d : database) : outcome (database * Z) :=
  bind_ints [cid]
    (match next_rowid (seq_messages d) (messages.id <$> tbl_messages d) with
     | Raise e => Raise e
     | Return new_id =>
         if has_clipboard cid d
         then Return (Database (tbl_clipboards d) (seq_clipboards d)
                        (tbl_messages d
                           ++ [messages.Row new_id text filename cid now now 0])
                        new_id,
                      new_id)
         else Raise (IntegrityError "FOREIGN KEY constraint failed")
     end).

(** [UPDATE messages SET pinned = ?, updated_at = ? WHERE id = ?] *)
Definition update_message_pinned (pinned : Z) (now : string) (mid : Z)
    (d : database) : outcome database :=
  bind_ints [pinned; mid]
    (Return (set_messages
               ((fun m => if messages.id m =? mid
                          then messages.Row (messages.id m) (messages.text m)
                                 (messages.filename m) (messages.clipboard_id m)
                                 (messages.created_at m) now pinned
                          else m) <$> tbl_messages d) d)).

(** [DELETE FROM messages WHERE id = ?] *)
Definition delete_message_row (mid : Z) (d : database) : outcome database :=
  bind_ints [mid]
    (Return (set_messages
               (filter (fun m => messages.id m <> mid) (tbl_messages d)) d)).

(** [UPDATE messages SET clipboard_id = ?, updated_at = ? WHERE id = ?];
    the new [clipboard_id] of a row that is updated must satisfy the
    FOREIGN KEY of the schema. *)
Definition update_message_clipboard (cid : Z) (now : string) (mid : Z)
    (d : database) : outcome database :=
  bind_ints [cid; mid]
    (if has_message mid d && negb (has_clipboard cid d)
     then Raise (IntegrityError "FOREIGN KEY constraint failed")
     else
       Return (set_messages
                 ((fun m => if messages.id m =? mid
                            then messages.Row (messages.id m) (messages.text m)
                                   (messages.filename m) cid
                                   (messages.created_at m) now (messages.pinned m)
                            else m) <$> tbl_messages d) d)).

(** The three [ORDER BY] clauses of [list_messages]; TEXT columns compare
    bytewise.  [pinned DESC] is the primary key of each. *)
Inductive ordering := ByUpdatedDesc | ByCreatedAsc | ByCreatedDesc.

Definition secondary_leb (o : ordering) (a b : messages.row) : bool :=
  match o with
  | ByUpdatedDesc => String.leb (messages.updated_at b) (messages.updated_at a)
  | ByCreatedAsc => String.leb (messages.created_at a) (messages.created_at b)
  | ByCreatedDesc => String.leb (messages.created_at b) (messages.created_at a)
  end.

Definition order_leb (o : ordering) (a b : messages.row) : bool :=
  (messages.pinned b <? messages.pinned a)
  || ((messages.pinned b =? messages.pinned a) && secondary_leb o a b).

Definition order_le (o : ordering) (a b : messages.row) : Prop :=
  order_leb o a b = true.

#[global] Instance order_le_dec o : RelDecision (order_le o) :=
  fun a b => decide (order_leb o a b = true).

(** [SELECT * FROM messages [WHERE clipboard_id = ?] ORDER BY pinned DESC, ...] *)
Definition select_messages (cid : option Z) (o : ordering) (d : database)
  : outcome (list messages.row) :=
  let ordered := merge_sort (order_le o) in
  match cid with
  | None => Return (ordered (tbl_messages d))
  | Some c =>
      bind_ints [c]
        (Return (ordered (filter (fun m => messages.clipboard_id m = c)
                                 (tbl_messages d))))
  end.

End Sql.

(** ** The world and the handler monad

    A handler runs against the committed database and the attachments
    directory.  [get_db] hands out a connection: a private copy on which
    statements execute; [commit] publishes it.  An exception abandons the
    connection, so uncommitted statements are lost while files already
    written stay. *)

Record world := World {
  db : database;
  attachments : gmap string (list byte)
}.

Definition empty_world : world := World empty_database ∅.

Definition io (A : Type) : Type := world -> outcome A * world.

#[global] Instance io_ret : MRet io := fun A a w => (Return a, w).

#[global] Instance io_bind : MBind io := fun A B f m w =>
  match m w with
  | (Return a, w') => f a w'
  | (Raise e, w') => (Raise e, w')
  end.

Definition raise {A} (e : exn) : io A := fun w => (Raise e, w).

Definition lift {A} (o : outcome A) : io A := fun w => (o, w).

Definition get_db : io database := fun w => (Return (db w), w).

Definition execute {A} (stmt : database -> outcome A) (conn : database) : io A :=
  fun w => (stmt conn, w).

Definition commit (conn : database) : io unit :=
  fun w => (Return tt, World conn (attachments w)).

Definition close (conn : database) : io unit := mret tt.

(** [os.makedirs(..., exist_ok=True)] on the two data directories. *)
Definition makedirs : io unit := mret tt.

(** What [open("/data/attachments/" + filename, "wb")] raises, if anything.
    A [string] holds the UTF-8 bytes of the Python [str].  A NUL byte is
    refused by Python itself; a name of more than 255 bytes is refused by
    the file system (NAME_MAX); and since the directory holds regular files
    only, a name with a "/" asks for a subdirectory that is not there (the
    handlers pass names that begin with the 32-digit token, so the part
    before the first "/" is never ".", ".." or empty). *)
Definition open_error (files : gmap string (list byte)) (filename : string)
  : option exn :=
  if Py.occurs Ascii.zero filename
  then Some (ValueError "embedded null byte")
  else if Py.occurs "/" filename then
    let first := fst (Py.split_first "/" filename) in
    if (255 <? String.length first)%nat then Some (OSError "File name too long")
    else if bool_decide (is_Some (files !! first))
    then Some (OSError "Not a directory")
    else Some (OSError "No such file or directory")
  else if (255 <? String.length filename)%nat
  then Some (OSError "File name too long")
  else None.
#[global] Arguments open_error : simpl never.

(** The names under which a file can be created: no NUL byte, no "/", at
    most 255 bytes. *)
Definition writable (filename : string) : bool :=
  negb (Py.occurs Ascii.zero filename) && negb (Py.occurs "/" filename)
  && (String.length filename <=? 255)%nat.

(** [with open("/data/attachments/" + filename, "wb") as f: f.write(content)] *)
Definition write_file (filename : string) (content : list byte) : io unit :=
  fun w =>
    match open_error (attachments w) filename with
    | Some e => (Raise e, w)
    | None =>
        (Return tt, World (db w) (<[filename := content]> (attachments w)))
    end.
#[global] Arguments write_file : simpl never.

(** What [os.path.exists] and [os.path.getsize] see of the directory. *)
Definition stat_attachments : io (gmap string (list byte)) :=
  fun w => (Return (attachments w), w).

(** [os.path.exists("/data/attachments/" + filename)] for a name that is
    one path segment (the route parameter of [get_file] has no "/"): true
    for a file of the directory, and also for "", "." and "..", which name
    the directory itself and its parent. *)
Definition path_exists (filename : string) : io bool :=
  fun w =>
    (Return (String.eqb filename "" || String.eqb filename "."
             || String.eqb filename ".."
             || bool_decide (is_Some (attachments w !! filename))), w).

Definition getsize (filename : string) : io Z :=
  fun w =>
    match attachments w !! filename with
    | Some content => (Return (Z.of_nat (length content)), w)
    | None => (Raise (OSError "No such file or directory"), w)
    end.

(** ** Models (pydantic) and responses *)

Module MessageIn.
Record t := Make { text : option string; clipboard_id : Z }.
End MessageIn.

Module MessageOut.
Record t := Make {
  id : Z;
  text : option string;
  filename : option string;
  clipboard_id : Z;
  created_at : string;
  updated_at : string;
  pinned : Z;
  file_size : option Z;
  original_filename : option string
}.
End MessageOut.

Inductive pyvalue :=
| PyNone
| PyInt (z : Z)
| PyStr (s : string)
| PyBytes (b : list byte)
| PyObject (repr : string).

Inductive response :=
| JSON_status (status : string)                 (* {"status": ...} *)
| JSON_clipboards (rows : list clipboards.row)
| JSON_message (m : MessageOut.t)              (* response_model=MessageOut *)
| JSON_messages (l : list MessageOut.t)
| JSON_dict (d : list (string * pyvalue))      (* a dict returned as it is *)
| FileResponse (path : string).

(** [dict(row)] read through [MessageOut]: the two derived fields default
    to [None]. *)
Definition dict_row (r : messages.row) : MessageOut.t :=
  MessageOut.Make (messages.id r) (messages.text r) (messages.filename r)
    (messages.clipboard_id r) (messages.created_at r) (messages.updated_at r)
    (messages.pinned r) None None.

(** Name resolution of a function body: local names first, then the names
    bound at module level of main.py (no builtin is involved here). *)
Definition module_globals : list string :=
  ["os"; "sqlite3"; "uuid"; "mimetypes"; "datetime"; "Optional"; "FastAPI";
   "UploadFile"; "File"; "Form"; "HTTPException"; "Depends"; "Header"; "Query";
   "Request"; "APIRouter"; "FileResponse"; "BaseModel"; "DB_PATH"; "API_TOKEN";
   "verify_token"; "api_router"; "app"; "get_db"; "startup"; "MessageIn";
   "MessageOut"; "list_clipboards"; "create_clipboard"; "rename_clipboard";
   "delete_clipboard"; "update_message"; "list_messages"; "create_message";
   "pin_message"; "delete_message"; "move_message"; "create_message_file";
   "create_message_file_direct"; "get_file"].

Fixpoint assoc (x : string) (l : list (string * pyvalue)) : option pyvalue :=
  match l with
  | [] => None
  | (y, v) :: l' => if String.eqb x y then Some v else assoc x l'
  end.

Definition load_name (locals : list (string * pyvalue)) (x : string) : io pyvalue :=
  match assoc x locals with
  | Some v => mret v
  | None =>
      if existsb (String.eqb x) module_globals then mret (PyObject x)
      else raise (NameError ("name '" +:+ x +:+ "' is not defined"))
  end.

(** ** Route handlers *)

Section Handlers.

(** The configured secret ([DROPMIND_API_TOKEN]) and the table behind
    [mimetypes.guess_extension]. *)
Variable API_TOKEN : string.
Variable guess_extension : string -> option string.

Definition verify_token (authorization : option string) : outcome unit :=
  match authorization with
  | None => Raise (HTTPException 401 "Missing token")
  | Some a =>
      if negb (Py.truthy (Some a)) || negb (String.prefix "Bearer " a)
      then Raise (HTTPException 401 "Missing token")
      else
        match Py.split1 " " a !! 1%nat with
        | None => Raise (IndexError "list index out of range")
        | Some token =>
            if negb (String.eqb token API_TOKEN)
            then Raise (HTTPException 403 "Invalid token")
            else Return tt
        end
  end.

Definition startup (now : string) : io unit :=
  makedirs;;
  conn ← get_db;
  conn ← execute (Sql.insert_or_ignore_main now) conn;
  commit conn;;
  close conn.

Definition list_clipboards : io response :=
  conn ← get_db;
  let rows := Sql.select_clipboards_by_name conn in
  close conn;;
  mret (JSON_clipboards rows).

Definition create_clipboard (now : string) (name : string) : io response :=
  conn ← get_db;
  conn ← execute (Sql.insert_clipboard name now) conn;
  commit conn;;
  close conn;;
  mret (JSON_status "created").

Definition rename_clipboard (clipboard_id : Z) (name : string) : io response :=
  conn ← get_db;
  conn ← execute (Sql.update_clipboard_name name clipboard_id) conn;
  commit conn;;
  close conn;;
  mret (JSON_status "renamed").

Definition delete_clipboard (clipboard_id : Z) : io response :=
  if clipboard_id =? 1
  then raise (HTTPException 400 "Cannot delete main clipboard")
  else
    conn ← get_db;
    conn ← execute (Sql.delete_messages_of_clipboard clipboard_id) conn;
    conn ← execute (Sql.delete_clipboard_row clipboard_id) conn;
    commit conn;;
    close conn;;
    mret (JSON_status "deleted").

Definition update_message (now : string) (message_id : Z) (text : string)
  : io response :=
  conn ← get_db;
  conn ← execute (Sql.update_message_text text now message_id) conn;
  commit conn;;
  row ← execute (Sql.select_message message_id) conn;
  close conn;;
  match row with
  | None => raise (TypeError "'NoneType' object is not iterable")
  | Some r => mret (JSON_message (dict_row r))
  end.

(** The sorting logic of [list_messages]. *)
Definition ordering_of (order : string) : Sql.ordering :=
  if String.eqb order "activity" then Sql.ByUpdatedDesc
  else if String.eqb order "asc" || String.eqb order "oldest" then Sql.ByCreatedAsc
  else Sql.ByCreatedDesc.

(** The display name of a stored attachment (the loop body of
    [list_messages], first half). *)
Definition original_filename_of (filename : option string) : option string :=
  if Py.truthy filename then
    match filename with
    | Some fn =>
        match Py.split1 "_" fn with
        | [_; part] => Some part
        | _ => Some fn
        end
    | None => None
    end
  else None.

(** The size of a stored attachment (second half). *)
Definition file_size_of (files : gmap string (list byte))
    (filename : option string) : option Z :=
  if Py.truthy filename then
    match filename with
    | Some fn => (fun content => Z.of_nat (length content)) <$> files !! fn
    | None => None
    end
  else None.

Definition list_item (files : gmap string (list byte)) (r : messages.row)
  : MessageOut.t :=
  MessageOut.Make (messages.id r) (messages.text r) (messages.filename r)
    (messages.clipboard_id r) (messages.created_at r) (messages.updated_at r)
    (messages.pinned r)
    (file_size_of files (messages.filename r))
    (original_filename_of (messages.filename r)).

Definition list_messages (clipboard_id : option Z) (order : string)
  : io response :=
  conn ← get_db;
  rows ← execute (Sql.select_messages clipboard_id (ordering_of order)) conn;
  close conn;;
  files ← stat_attachments;
  mret (JSON_messages (list_item files <$> rows)).

Definition create_message (now : string) (msg : MessageIn.t) : io response :=
  conn ← get_db;
  '(conn, msg_id) ← execute (Sql.insert_message (MessageIn.text msg) None
                               (MessageIn.clipboard_id msg) now) conn;
  commit conn;;
  close conn;;
  mret (JSON_message
          (MessageOut.Make msg_id (MessageIn.text msg) None
             (MessageIn.clipboard_id msg) now now 0 None None)).

Definition pin_message (now : string) (message_id : Z) (pinned : bool)
  : io response :=
  conn ← get_db;
  conn ← execute (Sql.update_message_pinned (if pinned then 1 else 0) now
                    message_id) conn;
  commit conn;;
  close conn;;
  mret (JSON_status "ok").

Definition delete_message (message_id : Z) : io response :=
  conn ← get_db;
  conn ← execute (Sql.delete_message_row message_id) conn;
  commit conn;;
  close conn;;
  mret (JSON_status "deleted").

Definition move_message (now : string) (message_id clipboard_id : Z)
  : io response :=
  conn ← get_db;
  conn ← execute (Sql.update_message_clipboard clipboard_id now message_id) conn;
  commit conn;;
  close conn;;
  mret (JSON_status "ok").

(** The stored name chosen by [create_message_file]:
    [original_name = x_filename if x_filename else file.filename], its
    basename, prefixed by the token. *)
Definition upload_original_name (x_filename file_filename : option string)
  : outcome string :=
  match (if Py.truthy x_filename then x_filename else file_filename) with
  | Some original_name => Return (Py.basename original_name)
  | None => Raise (TypeError "expected str, bytes or os.PathLike object, not NoneType")
  end.

Definition upload_filename (unique_id original_name : string) : string :=
  unique_id +:+ "_" +:+ original_name.

Definition create_message_file (now : string) (urandom : N)
    (file_filename : option string) (file_content : list byte)
    (text : option string) (clipboard_id : Z) (x_filename : option string)
  : io response :=
  let text := if Py.truthy text then default "" text else "" in
  makedirs;;
  conn ← get_db;
  original_name ← lift (upload_original_name x_filename file_filename);
  let unique_id := Py.uuid4_hex urandom in
  let filename := upload_filename unique_id original_name in
  write_file filename file_content;;
  '(conn, msg_id) ← execute (Sql.insert_message (Some text) (Some filename)
                               clipboard_id now) conn;
  commit conn;;
  close conn;;
  file_size ← getsize filename;
  mret (JSON_message
          (MessageOut.Make msg_id (Some text) (Some filename) clipboard_id
             now now 0 (Some file_size) (Some original_name))).

(** [mimetypes.guess_extension(content_type) or ""], with [.jpe] read
    as [.jpg]. *)
Definition guessed_ext (content_type : string) : string :=
  let ext := match guess_extension content_type with
             | Some e => if Py.truthy (Some e) then e else ""
             | None => ""
             end in
  if String.eqb ext ".jpe" then ".jpg" else ext.

(** The stored name chosen by [create_message_file_direct]. *)
Definition direct_filename (unique_id : string)
    (original_filename : option string) (content_type : string) : string :=
  if Py.truthy original_filename then
    let safe_name := Py.basename (default "" original_filename) in
    let '(base, ext) := Py.splitext safe_name in
    let ext := if negb (Py.truthy (Some ext)) then guessed_ext content_type
               else ext in
    unique_id +:+ "_" +:+ base +:+ ext
  else
    let ext := guessed_ext content_type in
    unique_id +:+ ext.

Definition create_message_file_direct (now : string) (urandom : N)
    (clipboard_id : Z) (body : list byte) (headers : gmap string string)
  : io response :=
  makedirs;;
  let content := body in
  if bool_decide (content = [])
  then raise (HTTPException 400 "Empty file body")
  else
    let content_type := default "" (headers !! "content-type") in
    let content_disposition := default "" (headers !! "content-disposition") in
    let original_filename := headers !! "x-filename" in
    let filename :=
      direct_filename (Py.uuid4_hex urandom) original_filename content_type in
    write_file filename content;;
    conn ← get_db;
    '(conn, msg_id) ← execute (Sql.insert_message (Some "") (Some filename)
                                 clipboard_id now) conn;
    commit conn;;
    close conn;;
    let original_filename :=
      if Py.truthy original_filename then default "" original_filename
      else filename in
    let locals :=
      [("clipboard_id", PyInt clipboard_id); ("request", PyObject "request");
       ("content", PyBytes content); ("now", PyStr now);
       ("content_type", PyStr content_type);
       ("content_disposition", PyStr content_disposition);
       ("original_filename", PyStr original_filename);
       ("filename", PyStr filename); ("save_path", PyObject "save_path");
       ("f", PyObject "f"); ("conn", PyObject "conn"); ("cur", PyObject "cur");
       ("msg_id", PyInt msg_id); ("ext", PyObject "ext")]
      ++ (if Py.truthy (headers !! "x-filename")
          then [("safe_name", PyObject "safe_name"); ("base", PyObject "base")]
          else []) in
    text ← load_name locals "text";
    mret (JSON_dict
            [("id", PyInt msg_id); ("text", text); ("filename", PyStr filename);
             ("original_filename", PyStr original_filename);
             ("clipboard_id", PyInt clipboard_id); ("created_at", PyStr now);
             ("updated_at", PyStr now); ("pinned", PyInt 0)]).

Definition get_file (filename : string) (token authorization : option string)
  : io response :=
  if negb (Py.truthy (Some API_TOKEN))
  then raise (HTTPException 500 "API token not configured")
  else
    (if Py.truthy token
     then (if negb (String.eqb (default "" token) API_TOKEN)
           then raise (HTTPException 403 "Invalid token")
           else mret tt)
     else lift (verify_token authorization));;
    found ← path_exists filename;
    if negb found
    then raise (HTTPException 404 "File not found")
    else mret (FileResponse ("/data/attachments/" +:+ filename)).

(** ** The application: one request against the running process *)

Inductive request :=
| GET_clipboards
| POST_clipboards (name : string)
| PUT_clipboard (clipboard_id : Z) (name : string)
| DELETE_clipboard (clipboard_id : Z)
| PUT_message (message_id : Z) (text : string)
| GET_messages (clipboard_id : option Z) (order : string)
| POST_messages (msg : MessageIn.t)
| POST_message_pin (message_id : Z) (pinned : bool)
| DELETE_message (message_id : Z)
| POST_message_move (message_id clipboard_id : Z)
| POST_messages_file (file_filename : option string) (file_content : list byte)
    (text : option string) (clipboard_id : Z) (x_filename : option string)
| POST_messages_file_direct (clipboard_id : Z) (body : list byte)
    (headers : gmap string string)
| GET_file (filename : string) (token : option string).

(** Routes of [api_router] run [verify_token] first; [get_file] is
    mounted on the app itself and authenticates on its own. *)
Definition serve (now : string) (urandom : N) (authorization : option string)
    (r : request) : io response :=
  let api (h : io response) : io response :=
    lift (verify_token authorization);; h in
  match r with
  | GET_clipboards => api list_clipboards
  | POST_clipboards name => api (create_clipboard now name)
  | PUT_clipboard cid name => api (rename_clipboard cid name)
  | DELETE_clipboard cid => api (delete_clipboard cid)
  | PUT_message mid text => api (update_message now mid text)
  | GET_messages cid order => api (list_messages cid order)
  | POST_messages msg => api (create_message now msg)
  | POST_message_pin mid pinned => api (pin_message now mid pinned)
  | DELETE_message mid => api (delete_message mid)
  | POST_message_move mid cid => api (move_message now mid cid)
  | POST_messages_file fn content text cid xfn =>
      api (create_message_file now urandom fn content text cid xfn)
  | POST_messages_file_direct cid body headers =>
      api (create_message_file_direct now urandom cid body headers)
  | GET_file filename token => get_file filename token authorization
  end.

(** States the system can be in: the first start on an empty data
    directory, then any sequence of requests and restarts. *)
Inductive reachable : world -> Prop :=
| reach_start now :
    reachable (snd (startup now empty_world))
| reach_restart now w :
    reachable w -> reachable (snd (startup now w))
| reach_request now urandom authorization r w :
    reachable w -> reachable (snd (serve now urandom authorization r w)).

End Handlers.

(** ** Well-formed stores and the states of the examples *)

(** Every rowid in the store is a value SQLite can hold. *)
Definition db_wf (d : database) : Prop :=
  Forall (fun c => Sql.int64 (clipboards.id c) = true) (tbl_clipboards d)
  /\ Forall (fun m => Sql.int64 (messages.id m) = true) (tbl_messages d).

Definition has_clipboard_1 (w : world) : Prop :=
  exists c, c ∈ tbl_clipboards (db w) /\ clipboards.id c = 1.

(** The constraints of the schema: primary keys, the UNIQUE name, and the
    FOREIGN KEY of [messages.clipboard_id]. *)
Definition schema_ok (d : database) : Prop :=
  NoDup (clipboards.id <$> tbl_clipboards d)
  /\ NoDup (clipboards.name <$> tbl_clipboards d)
  /\ NoDup (messages.id <$> tbl_messages d)
  /\ Forall (fun m => messages.clipboard_id m ∈ clipboards.id <$> tbl_clipboards d)
            (tbl_messages d).

(** The errors the store itself raises. *)
Definition sql_error (e : exn) : Prop :=
  match e with
  | IntegrityError _ | OperationalError _ | OverflowError _ => True
  | _ => False
  end.

(** The two requests that write a file. *)
Definition is_upload (r : request) : bool :=
  match r with
  | POST_messages_file _ _ _ _ _ | POST_messages_file_direct _ _ _ => true
  | _ => false
  end.

(** Every id in a table is at most the table's AUTOINCREMENT counter. *)
Definition seq_covers (d : database) : Prop :=
  Forall (fun c => clipboards.id c <= seq_clipboards d) (tbl_clipboards d)
  /\ Forall (fun m => messages.id m <= seq_messages d) (tbl_messages d).

(** One store follows another without reusing ids: the counters do not
    go down, and a row of the later store carries an id of the earlier one
    or an id above the earlier counter. *)
Definition no_id_reuse (d d' : database) : Prop :=
  seq_clipboards d <= seq_clipboards d'
  /\ seq_messages d <= seq_messages d'
  /\ (forall c, c ∈ tbl_clipboards d' ->
                clipboards.id c ∈ clipboards.id <$> tbl_clipboards d
                \/ seq_clipboards d < clipboards.id c)
  /\ (forall m, m ∈ tbl_messages d' ->
                messages.id m ∈ messages.id <$> tbl_messages d
                \/ seq_messages d < messages.id m).

(** [1 if pinned else 0] *)
Definition pinned_value (pinned : bool) : Z := if pinned then 1 else 0.

(** Rows in [pinned DESC] order. *)
Definition pinned_ge (a b : messages.row) : Prop :=
  messages.pinned b <= messages.pinned a.

(** The statements that write, by name, and the ones each request runs
    on its connection before it commits. *)
Inductive stmt :=
| InsertOrIgnoreMain (now : string)
| InsertClipboard (name now : string)
| UpdateClipboardName (name : string) (cid : Z)
| DeleteMessagesOfClipboard (cid : Z)
| DeleteClipboardRow (cid : Z)
| UpdateMessageText (text now : string) (mid : Z)
| InsertMessage (text filename : option string) (cid : Z) (now : string)
| UpdateMessagePinned (pinned : Z) (now : string) (mid : Z)
| DeleteMessageRow (mid : Z)
| UpdateMessageClipboard (cid : Z) (now : string) (mid : Z).

Definition run_stmt (s : stmt) (d : database) : outcome database :=
  match s with
  | InsertOrIgnoreMain now => Sql.insert_or_ignore_main now d
  | InsertClipboard name now => Sql.insert_clipboard name now d
  | UpdateClipboardName name cid => Sql.update_clipboard_name name cid d
  | DeleteMessagesOfClipboard cid => Sql.delete_messages_of_clipboard cid d
  | DeleteClipboardRow cid => Sql.delete_clipboard_row cid d
  | UpdateMessageText text now mid => Sql.update_message_text text now mid d
  | InsertMessage text filename cid now =>
      match Sql.insert_message text filename cid now d with
      | Return (d', _) => Return d'
      | Raise e => Raise e
      end
  | UpdateMessagePinned pinned now mid => Sql.update_message_pinned pinned now mid d
  | DeleteMessageRow mid => Sql.delete_message_row mid d
  | UpdateMessageClipboard cid now mid => Sql.update_message_clipboard cid now mid d
  end.

Fixpoint run_stmts (l : list stmt) (d : database) : outcome database :=
  match l with
  | [] => Return d
  | s :: l' =>
      match run_stmt s d with
      | Return d' => run_stmts l' d'
      | Raise e => Raise e
      end
  end.

Definition writes_of (guess_extension : string -> option string) (now : string)
    (urandom : N) (r : request) : list stmt :=
  match r with
  | GET_clipboards | GET_messages _ _ | GET_file _ _ => []
  | POST_clipboards name => [InsertClipboard name now]
  | PUT_clipboard cid name => [UpdateClipboardName name cid]
  | DELETE_clipboard cid =>
      if cid =? 1 then []
      else [DeleteMessagesOfClipboard cid; DeleteClipboardRow cid]
  | PUT_message mid text => [UpdateMessageText text now mid]
  | POST_messages msg =>
      [InsertMessage (MessageIn.text msg) None (MessageIn.clipboard_id msg) now]
  | POST_message_pin mid pinned => [UpdateMessagePinned (pinned_value pinned) now mid]
  | DELETE_message mid => [DeleteMessageRow mid]
  | POST_message_move mid cid => [UpdateMessageClipboard cid now mid]
  | POST_messages_file fn _ text cid xfn =>
      match upload_original_name xfn fn with
      | Return original_name =>
          [InsertMessage (Some (if Py.truthy text then default "" text else ""))
             (Some (upload_filename (Py.uuid4_hex urandom) original_name)) cid now]
      | Raise _ => []
      end
  | POST_messages_file_direct cid body headers =>
      if bool_decide (body = []) then []
      else [InsertMessage (Some "")
              (Some (direct_filename guess_extension (Py.uuid4_hex urandom)
                       (headers !! "x-filename")
                       (default "" (headers !! "content-type"))))
              cid now]
  end.

(** What every reachable store satisfies: rowids that SQLite can hold,
    non-negative AUTOINCREMENT counters, and a clipboard 1. *)
Definition store_ok (d : database) : Prop :=
  db_wf d
  /\ 0 <= seq_clipboards d /\ 0 <= seq_messages d
  /\ exists c, c ∈ tbl_clipboards d /\ clipboards.id c = 1.

(** A few entries of the table of Python's [mimetypes] module. *)
Definition mimetypes_excerpt (content_type : string) : option string :=
  if String.eqb content_type "text/plain" then Some ".txt"
  else if String.eqb content_type "image/png" then Some ".png"
  else if String.eqb content_type "image/jpeg" then Some ".jpg"
  else if String.eqb content_type "application/pdf" then Some ".pdf"
  else None.

(** The state after the first start at time "t0". *)
Definition world_started : world := snd (startup "t0" empty_world).

(** ... after a clipboard "work" (id 2) has been added, *)
Definition world_work : world :=
  snd (create_clipboard "t1" "work" world_started).

(** ... and a text message "hello" (id 1) put into it. *)
Definition world_hello : world :=
  snd (create_message "t2" (MessageIn.Make (Some "hello") 2) world_work).

(** ... and "report.pdf" (two bytes) uploaded to clipboard 1 as message 2. *)
Definition world_report : world :=
  snd (create_message_file "t3" 77 (Some "report.pdf") [x00; x01]%byte None 1
         None world_hello).

(** ... and message 1, the older of the two, pinned. *)
Definition world_pinned : world := snd (pin_message "t4" 1 true world_report).

(** The state after clipboard 1 has been renamed right after the first
    start. *)
Definition world_renamed : world :=
  snd (serve "secret" mimetypes_excerpt "t1" 0 (Some "Bearer secret")
         (PUT_clipboard 1 "inbox") world_started).

(** A declared name of 230 bytes: with the token and the underscore the
    stored name has 263. *)
Definition name_of_230_bytes : string := Nat.iter 230 (String "a") "".

(** ** Proof support *)

Ltac run_io :=
  unfold mbind, io_bind, mret, io_ret, raise, lift, get_db, execute, commit,
    close, makedirs, stat_attachments; simpl.

(** The same unfolding, stopping at the first call that is not a
    constructor (the attempt to create a file). *)
Ltac step_io :=
  unfold lift, get_db, execute, commit, close, makedirs, stat_attachments;
  unfold mbind, io_bind, mret, io_ret, raise; cbv beta iota zeta.

Lemma int64_of_clipboard d c :
  db_wf d -> c ∈ tbl_clipboards d -> Sql.int64 (clipboards.id c) = true.
Proof.
  intros [Hc _] Hin. rewrite Forall_forall in Hc. by apply Hc.
Qed.

Lemma int64_of_message d m :
  db_wf d -> m ∈ tbl_messages d -> Sql.int64 (messages.id m) = true.
Proof.
  intros [_ Hm] Hin. rewrite Forall_forall in Hm. by apply Hm.
Qed.

Lemma bind_ints_1 {A} z (k : outcome A) :
  Sql.int64 z = true -> Sql.bind_ints [z] k = k.
Proof. intros H. unfold Sql.bind_ints. simpl. by rewrite H. Qed.

Lemma existsb_filter_out (cid : Z) (l : list messages.row) :
  existsb (fun m => messages.clipboard_id m =? cid)
          (filter (fun m => messages.clipboard_id m <> cid) l) = false.
Proof.
  apply not_true_is_false. intros H.
  apply existsb_exists in H as (m & Hin & Heq).
  apply list_elem_of_In, list_elem_of_filter in Hin as [Hne _].
  apply Z.eqb_eq in Heq. done.
Qed.

Lemma open_error_writable files filename :
  writable filename = true -> open_error files filename = None.
Proof.
  unfold writable, open_error.
  intros [[Hz Hs]%andb_true_iff Hl]%andb_true_iff.
  apply negb_true_iff in Hz, Hs. rewrite Hz, Hs.
  apply Nat.leb_le in Hl.
  destruct (Nat.ltb_spec 255 (String.length filename)); [lia | done].
Qed.

Lemma open_error_not_writable files filename :
  writable filename = false ->
  exists e msg,
    (e = OSError msg \/ e = ValueError msg)
    /\ open_error files filename = Some e.
Proof.
  unfold writable, open_error. intros H.
  destruct (Py.occurs Ascii.zero filename); [by eauto 6 |].
  destruct (Py.occurs "/" filename).
  - destruct (_ <? _)%nat; [by eauto 6 |].
    destruct (bool_decide _); by eauto 6.
  - simpl in H. apply Nat.leb_gt in H.
    destruct (Nat.ltb_spec 255 (String.length filename)); [by eauto 6 | lia].
Qed.

(** ** Deleting clipboards *)

(** C8. Deleting clipboard 1 is refused with HTTP 400 "Cannot delete main
    clipboard" and changes nothing.  Deleting any other clipboard of a
    well-formed store succeeds: the clipboards that remain are those with
    another id, the messages that remain are those of other clipboards
    (same rows, same order), and nothing else changes. *)
Theorem delete_clipboard_spec :
  (forall w,
      delete_clipboard 1 w
      = (Raise (HTTPException 400 "Cannot delete main clipboard"), w))
  /\ (forall w c,
        db_wf (db w) ->
        c ∈ tbl_clipboards (db w) ->
        clipboards.id c <> 1 ->
        exists w',
          delete_clipboard (clipboards.id c) w = (Return (JSON_status "deleted"), w')
          /\ tbl_clipboards (db w')
             = filter (fun c' => clipboards.id c' <> clipboards.id c)
                      (tbl_clipboards (db w))
          /\ tbl_messages (db w')
             = filter (fun m => messages.clipboard_id m <> clipboards.id c)
                      (tbl_messages (db w))
          /\ (c ∉ tbl_clipboards (db w'))
          /\ (forall m, m ∈ tbl_messages (db w') ->
                        messages.clipboard_id m <> clipboards.id c)
          /\ (forall m, m ∈ tbl_messages (db w) ->
                        messages.clipboard_id m <> clipboards.id c ->
                        m ∈ tbl_messages (db w'))
          /\ attachments w' = attachments w).
Proof.
  split; [done |].
  intros w c Hwf Hin Hne.
  pose proof (int64_of_clipboard _ _ Hwf Hin) as H64.
  unfold delete_clipboard.
  destruct (clipboards.id c =? 1) eqn:E; [apply Z.eqb_eq in E; done |].
  run_io.
  unfold Sql.delete_messages_of_clipboard, Sql.delete_clipboard_row.
  rewrite !bind_ints_1 by done. simpl.
  rewrite existsb_filter_out, andb_false_r.
  eexists. split; [reflexivity |]. simpl.
  repeat split.
  - rewrite list_elem_of_filter. intros [? _]. done.
  - intros m Hm. by apply list_elem_of_filter in Hm as [? _].
  - intros m Hm Hc. by apply list_elem_of_filter.
Qed.

Lemma delete_clipboard_spec_witness :
  db_wf (db world_hello)
  /\ clipboards.Row 2 "work" "t1" ∈ tbl_clipboards (db world_hello)
  /\ exists w',
      delete_clipboard 2 world_hello = (Return (JSON_status "deleted"), w')
      /\ tbl_clipboards (db w') = [clipboards.Row 1 "main" "t0"]
      /\ tbl_messages (db w') = [].
Proof.
  assert (Hwf : db_wf (db world_hello)).
  { split; repeat constructor. }
  assert (Hin : clipboards.Row 2 "work" "t1" ∈ tbl_clipboards (db world_hello)).
  { vm_compute. apply list_elem_of_further, list_elem_of_here. }
  split; [exact Hwf |]. split; [exact Hin |].
  destruct delete_clipboard_spec as [_ Hdel].
  destruct (Hdel world_hello _ Hwf Hin) as (w' & Hrun & Hc & Hm & _);
    [discriminate |].
  exists w'. split; [exact Hrun |]. split; [exact Hc | exact Hm].
Defined.

(** ** Editing the text of a message *)

Lemma fmap_no_match (f : messages.row -> messages.row) mid
    (l : list messages.row) :
  existsb (fun m => messages.id m =? mid) l = false ->
  (fun m => if messages.id m =? mid then f m else m) <$> l = l.
Proof.
  induction l as [| m l IH]; simpl; [done |].
  intros H. apply orb_false_elim in H as [Hm Hl].
  rewrite Hm. f_equal. by apply IH.
Qed.

Lemma find_no_match mid (l : list messages.row) :
  existsb (fun m => messages.id m =? mid) l = false ->
  List.find (fun m => messages.id m =? mid) l = None.
Proof.
  induction l as [| m l IH]; simpl; [done |].
  intros H. apply orb_false_elim in H as [Hm Hl].
  rewrite Hm. by apply IH.
Qed.

(** C3. For a message id that is not in the store, [update_message] does
    leave the store as it was, but it does not succeed: the row read back
    after the UPDATE is [None] and [dict(row)] raises. *)
Theorem update_message_missing_id now w message_id text :
  Sql.has_message message_id (db w) = false ->
  (exists e, fst (update_message now message_id text w) = Raise e)
  /\ snd (update_message now message_id text w) = w.
Proof.
  intros Hno. unfold update_message. run_io.
  unfold Sql.update_message_text, Sql.select_message, Sql.bind_ints. simpl.
  destruct (Sql.int64 message_id); simpl; [| by eauto].
  unfold Sql.has_message in Hno.
  rewrite fmap_no_match by done.
  rewrite find_no_match by done. simpl.
  split; [by eauto |]. by destruct w as [[] ?].
Qed.

Lemma update_message_missing_id_witness :
  Sql.has_message 42 (db world_hello) = false
  /\ (exists e, fst (update_message "t3" 42 "x" world_hello) = Raise e)
  /\ snd (update_message "t3" 42 "x" world_hello) = world_hello.
Proof.
  split; [reflexivity |].
  apply (update_message_missing_id "t3" world_hello 42 "x"). reflexivity.
Defined.

(** The failing request of C3: the only message has id 1, the request
    edits message 42. *)
Lemma update_message_example :
  update_message "t3" 42 "x" world_hello
  = (Raise (TypeError "'NoneType' object is not iterable"), world_hello).
Proof. reflexivity. Qed.

(** ** Raw-body upload *)

(** C2. [create_message_file_direct] never returns a message: an empty
    body is refused, a file that cannot be created or a failing INSERT
    raises, and after a successful INSERT the [return] statement reads the
    unbound name [text]. *)
Theorem create_message_file_direct_raises guess_extension now urandom
    clipboard_id body headers w :
  exists e,
    fst (create_message_file_direct guess_extension now urandom clipboard_id
           body headers w) = Raise e.
Proof.
  unfold create_message_file_direct. run_io.
  case_bool_decide; [by eauto |].
  unfold write_file.
  destruct (open_error _ _) as [eo |]; simpl; [by eauto |].
  destruct (Sql.insert_message _ _ _ _ _) as [[conn msg_id] | e]; simpl;
    [| by eauto].
  unfold load_name.
  destruct (Py.truthy (headers !! "x-filename")); simpl; by eauto.
Qed.

(** The failing request of C2: one byte posted to clipboard 1 right after
    the first start.  The file is written and the row committed, then the
    handler raises [NameError]. *)
Lemma create_message_file_direct_example :
  let r := create_message_file_direct mimetypes_excerpt "t1" 5 1 [x00]%byte
             {[ "content-type" := "image/png" ]} world_started in
  fst r = Raise (NameError "name 'text' is not defined")
  /\ tbl_messages (db (snd r))
     = [messages.Row 1 (Some "")
          (Some "00000000000040008000000000000005.png") 1 "t1" "t1" 0]
  /\ attachments (snd r) !! "00000000000040008000000000000005.png"
     = Some [x00]%byte.
Proof. vm_compute. done. Qed.

(** ** Pinning and moving messages *)

(** Rows of [UPDATE messages SET ... WHERE id = ?] when the assignment
    keeps the id: the rows with that id are rewritten, the others stay. *)
Lemma elem_of_updated_rows (f : messages.row -> messages.row) mid
    (l : list messages.row) m' :
  (forall r, messages.id (f r) = messages.id r) ->
  m' ∈ ((fun m => if messages.id m =? mid then f m else m) <$> l)
  <-> (exists r, r ∈ l /\ messages.id r = mid /\ m' = f r)
      \/ (m' ∈ l /\ messages.id m' <> mid).
Proof.
  intros Hid. rewrite list_elem_of_fmap. split.
  - intros (r & -> & Hr).
    destruct (messages.id r =? mid) eqn:E.
    + left. apply Z.eqb_eq in E. eauto.
    + right. apply Z.eqb_neq in E. eauto.
  - intros [(r & Hr & E & ->) | [Hin E]].
    + exists r. apply Z.eqb_eq in E. by rewrite E.
    + exists m'. apply Z.eqb_neq in E. by rewrite E.
Qed.

Lemma existsb_has_message d m :
  m ∈ tbl_messages d -> Sql.has_message (messages.id m) d = true.
Proof.
  intros Hin. apply existsb_exists. exists m.
  split; [by apply list_elem_of_In | apply Z.eqb_refl].
Qed.

Lemma existsb_has_clipboard d c :
  c ∈ tbl_clipboards d -> Sql.has_clipboard (clipboards.id c) d = true.
Proof.
  intros Hin. apply existsb_exists. exists c.
  split; [by apply list_elem_of_In | apply Z.eqb_refl].
Qed.

(** C4 (as the code has it). Pinning or unpinning an existing message
    succeeds and writes both the flag and [updated_at = now]; the other
    columns of the row, all other rows, the clipboards and the files are
    left alone. *)
Theorem pin_message_refreshes_updated_at now w m pinned :
  db_wf (db w) ->
  m ∈ tbl_messages (db w) ->
  exists w',
    pin_message now (messages.id m) pinned w = (Return (JSON_status "ok"), w')
    /\ messages.Row (messages.id m) (messages.text m) (messages.filename m)
         (messages.clipboard_id m) (messages.created_at m) now
         (pinned_value pinned) ∈ tbl_messages (db w')
    /\ (forall m', m' ∈ tbl_messages (db w') ->
                   messages.id m' = messages.id m ->
                   messages.updated_at m' = now
                   /\ messages.pinned m' = pinned_value pinned)
    /\ (forall m', messages.id m' <> messages.id m ->
                   m' ∈ tbl_messages (db w') <-> m' ∈ tbl_messages (db w))
    /\ tbl_clipboards (db w') = tbl_clipboards (db w)
    /\ attachments w' = attachments w.
Proof.
  intros Hwf Hin.
  pose proof (int64_of_message _ _ Hwf Hin) as H64.
  unfold pin_message. run_io.
  unfold Sql.update_message_pinned, Sql.bind_ints. simpl.
  rewrite H64. replace (Sql.int64 (if pinned then 1 else 0)) with true
    by (by destruct pinned).
  simpl. eexists. split; [reflexivity |]. simpl.
  split; [| split; [| split; [| done]]].
  - apply elem_of_updated_rows; [done |]. left. by exists m.
  - intros m' Hm' Hid.
    apply elem_of_updated_rows in Hm' as [(r & _ & _ & ->) | [_ ?]]; done.
  - intros m' Hne. rewrite elem_of_updated_rows by done. split.
    + intros [(r & _ & E & ->) | [? _]]; [| done]. simpl in Hne. done.
    + intros ?. by right.
Qed.

Lemma pin_message_refreshes_updated_at_witness :
  db_wf (db world_hello)
  /\ messages.Row 1 (Some "hello") None 2 "t2" "t2" 0 ∈ tbl_messages (db world_hello)
  /\ exists w',
      pin_message "t3" 1 true world_hello = (Return (JSON_status "ok"), w')
      /\ messages.Row 1 (Some "hello") None 2 "t2" "t3" 1 ∈ tbl_messages (db w').
Proof.
  assert (Hwf : db_wf (db world_hello)).
  { split; repeat constructor. }
  assert (Hin : messages.Row 1 (Some "hello") None 2 "t2" "t2" 0
                ∈ tbl_messages (db world_hello)).
  { vm_compute. apply list_elem_of_here. }
  split; [exact Hwf |]. split; [exact Hin |].
  destruct (pin_message_refreshes_updated_at "t3" world_hello _ true Hwf Hin)
    as (w' & Hrun & Hrow & _).
  exists w'. split; [exact Hrun | exact Hrow].
Defined.

(** C4 as stated fails: message 1 was last updated at "t2"; pinning it at
    "t3" moves its [updated_at] to "t3". *)
Lemma pin_message_changes_updated_at :
  exists m m',
    Sql.select_message 1 (db world_hello) = Return (Some m)
    /\ Sql.select_message 1 (db (snd (pin_message "t3" 1 true world_hello)))
       = Return (Some m')
    /\ messages.updated_at m = "t2"
    /\ messages.updated_at m' = "t3"
    /\ messages.updated_at m' <> messages.updated_at m.
Proof.
  eexists _, _. split; [reflexivity |]. split; [reflexivity |].
  simpl. done.
Qed.

(** C6 (as the code has it). Moving an existing message to an existing
    clipboard succeeds, overwrites [clipboard_id] and sets
    [updated_at = now], leaving the other columns and rows alone.  A
    target id that no clipboard carries is refused and the world stays as
    it was: with an integrity error when the id fits in 64 bits (the
    schema's FOREIGN KEY is enforced on every connection), and with the
    driver's overflow error when it does not. *)
Theorem move_message_checks_target now w m :
  db_wf (db w) ->
  m ∈ tbl_messages (db w) ->
  (forall c, c ∈ tbl_clipboards (db w) ->
     exists w',
       move_message now (messages.id m) (clipboards.id c) w
       = (Return (JSON_status "ok"), w')
       /\ messages.Row (messages.id m) (messages.text m) (messages.filename m)
            (clipboards.id c) (messages.created_at m) now (messages.pinned m)
          ∈ tbl_messages (db w')
       /\ (forall m', m' ∈ tbl_messages (db w') ->
                      messages.id m' = messages.id m ->
                      messages.clipboard_id m' = clipboards.id c
                      /\ messages.updated_at m' = now)
       /\ (forall m', messages.id m' <> messages.id m ->
                      m' ∈ tbl_messages (db w') <-> m' ∈ tbl_messages (db w))
       /\ tbl_clipboards (db w') = tbl_clipboards (db w)
       /\ attachments w' = attachments w)
  /\ (forall clipboard_id,
        Sql.has_clipboard clipboard_id (db w) = false ->
        (Sql.int64 clipboard_id = true ->
         move_message now (messages.id m) clipboard_id w
         = (Raise (IntegrityError "FOREIGN KEY constraint failed"), w))
        /\ (Sql.int64 clipboard_id = false ->
            move_message now (messages.id m) clipboard_id w
            = (Raise (OverflowError
                        "Python int too large to convert to SQLite INTEGER"),
               w))).
Proof.
  intros Hwf Hin.
  pose proof (int64_of_message _ _ Hwf Hin) as H64.
  pose proof (existsb_has_message _ _ Hin) as Hm.
  split.
  - intros c Hc.
    pose proof (int64_of_clipboard _ _ Hwf Hc) as Hc64.
    pose proof (existsb_has_clipboard _ _ Hc) as Hhas.
    unfold move_message. run_io.
    unfold Sql.update_message_clipboard, Sql.bind_ints. simpl.
    rewrite H64, Hc64, Hm, Hhas. simpl.
    eexists. split; [reflexivity |]. simpl.
    split; [| split; [| split; [| done]]].
    + apply elem_of_updated_rows; [done |]. left. by exists m.
    + intros m' Hm' Hid.
      apply elem_of_updated_rows in Hm' as [(r & _ & _ & ->) | [_ ?]]; done.
    + intros m' Hne. rewrite elem_of_updated_rows by done. split.
      * intros [(r & _ & E & ->) | [? _]]; [| done]. simpl in Hne. done.
      * intros ?. by right.
  - intros cid Hno.
    unfold move_message. run_io.
    unfold Sql.update_message_clipboard, Sql.bind_ints. simpl.
    rewrite H64, Hm, Hno.
    split; intros ->; reflexivity.
Qed.

Lemma move_message_checks_target_witness :
  db_wf (db world_hello)
  /\ messages.Row 1 (Some "hello") None 2 "t2" "t2" 0 ∈ tbl_messages (db world_hello)
  /\ (exists w',
        move_message "t3" 1 1 world_hello = (Return (JSON_status "ok"), w')
        /\ messages.Row 1 (Some "hello") None 1 "t2" "t3" 0 ∈ tbl_messages (db w'))
  /\ move_message "t3" 1 99 world_hello
     = (Raise (IntegrityError "FOREIGN KEY constraint failed"), world_hello)
  /\ move_message "t3" 1 (2 ^ 63) world_hello
     = (Raise (OverflowError "Python int too large to convert to SQLite INTEGER"),
        world_hello).
Proof.
  assert (Hwf : db_wf (db world_hello)).
  { split; repeat constructor. }
  assert (Hin : messages.Row 1 (Some "hello") None 2 "t2" "t2" 0
                ∈ tbl_messages (db world_hello)).
  { vm_compute. apply list_elem_of_here. }
  split; [exact Hwf |]. split; [exact Hin |].
  destruct (move_message_checks_target "t3" world_hello _ Hwf Hin)
    as [Hok Hbad].
  split.
  - destruct (Hok (clipboards.Row 1 "main" "t0")) as (w' & Hrun & Hrow & _).
    { vm_compute. apply list_elem_of_here. }
    exists w'. split; [exact Hrun | exact Hrow].
  - split.
    + apply (Hbad 99); reflexivity.
    + apply (Hbad (2 ^ 63)); reflexivity.
Defined.

(** C6 as stated fails: message 1 exists, clipboard 99 does not, and the
    move is refused with an integrity error; nothing is written. *)
Lemma move_message_to_missing_clipboard :
  Sql.has_message 1 (db world_hello) = true
  /\ Sql.has_clipboard 99 (db world_hello) = false
  /\ move_message "t3" 1 99 world_hello
     = (Raise (IntegrityError "FOREIGN KEY constraint failed"), world_hello).
Proof. repeat split; reflexivity. Qed.

(** ** Downloading a file *)

Lemma truthy_Some s : s <> "" -> Py.truthy (Some s) = true.
Proof. by destruct s. Qed.

(** C10 (as the code has it). With a configured secret and a non-empty
    [token] query parameter, [get_file] never looks at the Authorization
    header: its result is the same for every header, and a token other
    than the secret is answered 403 "Invalid token" whatever the header.
    When the parameter is absent, or present but empty, the header decides:
    what [verify_token] raises is what [get_file] raises. *)
Theorem get_file_query_token_first API_TOKEN filename token w :
  API_TOKEN <> "" ->
  token <> "" ->
  (forall a1 a2,
      get_file API_TOKEN filename (Some token) a1 w
      = get_file API_TOKEN filename (Some token) a2 w)
  /\ (token <> API_TOKEN ->
      forall a,
        get_file API_TOKEN filename (Some token) a w
        = (Raise (HTTPException 403 "Invalid token"), w))
  /\ (forall a e,
        verify_token API_TOKEN a = Raise e ->
        get_file API_TOKEN filename None a w = (Raise e, w)
        /\ get_file API_TOKEN filename (Some "") a w = (Raise e, w))
  /\ (forall a,
        verify_token API_TOKEN a = Return tt ->
        get_file API_TOKEN filename None a w
        = get_file API_TOKEN filename (Some API_TOKEN) a w
        /\ get_file API_TOKEN filename (Some "") a w
           = get_file API_TOKEN filename (Some API_TOKEN) a w).
Proof.
  intros Hsecret Htoken.
  unfold get_file.
  rewrite !truthy_Some by done.
  unfold mbind, io_bind, mret, io_ret, raise, lift. cbn [negb].
  change (default "" (Some token)) with token.
  split; [done |]. split; [| split].
  - intros Hne a. apply String.eqb_neq in Hne. by rewrite Hne.
  - intros a e ->. done.
  - intros a ->.
    change (default "" (Some API_TOKEN)) with API_TOKEN.
    by rewrite String.eqb_refl.
Qed.

Lemma get_file_query_token_first_witness :
  "secret" <> "" /\ "guess" <> ""
  /\ (get_file "secret" "x.pdf" (Some "guess") (Some "Bearer secret") world_report
      = (Raise (HTTPException 403 "Invalid token"), world_report))
  /\ (get_file "secret" "x.pdf" None None world_report
      = (Raise (HTTPException 401 "Missing token"), world_report)).
Proof.
  assert (H1 : "secret" <> "") by done.
  assert (H2 : "guess" <> "") by done.
  split; [exact H1 |]. split; [exact H2 |].
  destruct (get_file_query_token_first "secret" "x.pdf" "guess" world_report
              H1 H2) as (_ & Hbad & Hhdr & _).
  split.
  - apply Hbad. done.
  - apply (Hhdr None). reflexivity.
Defined.

(** C10 as stated fails for a query parameter that is present but empty
    ([?token=]): the header is consulted, and decides. *)
Lemma get_file_empty_token_uses_header :
  get_file "secret" "0000000000004000800000000000004d_report.pdf" (Some "")
    (Some "Bearer secret") world_report
  = (Return (FileResponse
               "/data/attachments/0000000000004000800000000000004d_report.pdf"),
     world_report)
  /\ get_file "secret" "0000000000004000800000000000004d_report.pdf" (Some "")
       (Some "Bearer wrong") world_report
     = (Raise (HTTPException 403 "Invalid token"), world_report)
  /\ get_file "secret" "0000000000004000800000000000004d_report.pdf" (Some "")
       None world_report
     = (Raise (HTTPException 401 "Missing token"), world_report).
Proof. repeat split; vm_compute; reflexivity. Qed.

(** ** Attachment names *)

Lemma rfind_from_spec c s : forall i last,
  Py.rfind_from c s i last = last
  \/ (i <= Py.rfind_from c s i last
      /\ exists rest,
          Py.drop (Z.to_nat (Py.rfind_from c s i last - i)) s = String c rest).
Proof.
  induction s as [| a s IH]; intros i last; simpl; [by left |].
  destruct (IH (i + 1) (if Ascii.eqb a c then i else last))
    as [-> | (Hle & rest & Hrest)].
  - destruct (Ascii.eqb_spec a c) as [-> | _]; [| by left].
    right. split; [lia |]. exists s. by rewrite Z.sub_diag.
  - right. split; [lia |]. exists rest.
    set (r := Py.rfind_from c s (i + 1) _) in *.
    replace (Z.to_nat (r - i)) with (S (Z.to_nat (r - (i + 1)))) by lia.
    done.
Qed.

Lemma rfind_spec c s :
  Py.rfind c s = -1
  \/ (0 <= Py.rfind c s
      /\ exists rest, Py.drop (Z.to_nat (Py.rfind c s)) s = String c rest).
Proof.
  unfold Py.rfind.
  destruct (rfind_from_spec c s 0 (-1)) as [? | (? & rest & Hrest)];
    [by left | right].
  split; [done |]. exists rest. by rewrite Z.sub_0_r in Hrest.
Qed.

(** A name without extension is its own base. *)
Lemma splitext_no_ext p :
  snd (Py.splitext p) = "" -> fst (Py.splitext p) = p.
Proof.
  unfold Py.splitext.
  destruct (_ && _) eqn:E; simpl; [| done].
  apply andb_prop in E as [Hlt _]. apply Z.ltb_lt in Hlt.
  destruct (rfind_spec "." p) as [Hdot | (_ & rest & ->)]; [| done].
  destruct (rfind_spec "/" p) as [Hsep | (Hsep & _)]; lia.
Qed.

Lemma hex_digit_not_underscore d : Ascii.eqb (Py.hex_digit d) "_" = false.
Proof.
  unfold Py.hex_digit.
  repeat match goal with
         | |- context [match ?x with _ => _ end] => destruct x
         end; reflexivity.
Qed.

Lemma hex_digits_no_underscore k : forall n acc,
  Py.occurs "_" (Py.hex_digits k n acc) = Py.occurs "_" acc.
Proof.
  induction k as [| k IH]; intros n acc; simpl; [done |].
  rewrite IH. simpl. by rewrite hex_digit_not_underscore.
Qed.

Lemma uuid4_hex_no_underscore urandom :
  Py.occurs "_" (Py.uuid4_hex urandom) = false.
Proof. unfold Py.uuid4_hex. by rewrite hex_digits_no_underscore. Qed.

Lemma split_first_at_separator sep h t :
  Py.occurs sep h = false ->
  Py.split_first sep (h +:+ String sep t) = (h, Some t).
Proof.
  induction h as [| a h IH]; simpl.
  - intros _. by rewrite Ascii.eqb_refl.
  - intros H. apply orb_false_elim in H as [Ha Hh].
    rewrite Ha, IH by done. done.
Qed.

Lemma load_name_world locals x w : snd (load_name locals x w) = w.
Proof.
  unfold load_name. destruct (assoc x locals); [done |].
  by destruct (existsb _ _).
Qed.

Lemma guessed_ext_cases guess_extension content_type :
  (guess_extension content_type = None ->
   guessed_ext guess_extension content_type = "")
  /\ (guess_extension content_type = Some ".jpe" ->
      guessed_ext guess_extension content_type = ".jpg")
  /\ (forall e, guess_extension content_type = Some e -> e <> ".jpe" ->
                guessed_ext guess_extension content_type = e).
Proof.
  unfold guessed_ext. repeat split.
  - by intros ->.
  - by intros ->.
  - intros e -> Hne. apply String.eqb_neq in Hne.
    destruct e; [done |]. simpl Py.truthy. cbv iota. by rewrite Hne.
Qed.

(** C5 (as the code has it). For an original name whose bare filename has
    no extension, the raw-body entry point names the upload
    "{token}_{base}{extension}": the base is the bare name and the
    extension is looked up from the content type ([.jpe] read as [.jpg],
    empty without a mapping).  The multipart entry point looks nothing
    up: it names the upload "{token}_{bare name}".  On either entry point
    the content is written under that name when a file of that name can be
    created (no NUL byte, no "/", at most 255 bytes); when it cannot, the
    handler ends in the [OSError] or [ValueError] of [open] and nothing is
    stored. *)
Theorem extension_from_content_type guess_extension now urandom name content :
  name <> "" ->
  snd (Py.splitext (Py.basename name)) = "" ->
  (forall content_type,
      direct_filename guess_extension (Py.uuid4_hex urandom) (Some name)
        content_type
      = Py.uuid4_hex urandom +:+ "_" +:+ Py.basename name
        +:+ guessed_ext guess_extension content_type)
  /\ (forall content_type,
         (guess_extension content_type = None ->
          guessed_ext guess_extension content_type = "")
         /\ (guess_extension content_type = Some ".jpe" ->
             guessed_ext guess_extension content_type = ".jpg")
         /\ (forall e, guess_extension content_type = Some e -> e <> ".jpe" ->
                       guessed_ext guess_extension content_type = e))
  /\ (forall clipboard_id headers w,
         content <> [] ->
         headers !! "x-filename" = Some name ->
         (writable (Py.uuid4_hex urandom +:+ "_" +:+ Py.basename name
                    +:+ guessed_ext guess_extension
                          (default "" (headers !! "content-type"))) = true ->
          attachments
            (snd (create_message_file_direct guess_extension now urandom
                    clipboard_id content headers w))
          !! (Py.uuid4_hex urandom +:+ "_" +:+ Py.basename name
              +:+ guessed_ext guess_extension
                    (default "" (headers !! "content-type")))
          = Some content)
         /\ (writable (Py.uuid4_hex urandom +:+ "_" +:+ Py.basename name
                       +:+ guessed_ext guess_extension
                             (default "" (headers !! "content-type"))) = false ->
             exists e msg,
               (e = OSError msg \/ e = ValueError msg)
               /\ create_message_file_direct guess_extension now urandom
                    clipboard_id content headers w = (Raise e, w)))
  /\ (forall x_filename file_filename text clipboard_id w,
         (if Py.truthy x_filename then x_filename else file_filename)
         = Some name ->
         (writable (Py.uuid4_hex urandom +:+ "_" +:+ Py.basename name) = true ->
          attachments
            (snd (create_message_file now urandom file_filename content text
                    clipboard_id x_filename w))
          !! (Py.uuid4_hex urandom +:+ "_" +:+ Py.basename name)
          = Some content)
         /\ (writable (Py.uuid4_hex urandom +:+ "_" +:+ Py.basename name) = false ->
             exists e msg,
               (e = OSError msg \/ e = ValueError msg)
               /\ create_message_file now urandom file_filename content text
                    clipboard_id x_filename w = (Raise e, w))).
Proof.
  intros Hname Hext.
  assert (Hdirect : forall content_type,
             direct_filename guess_extension (Py.uuid4_hex urandom) (Some name)
               content_type
             = Py.uuid4_hex urandom +:+ "_" +:+ Py.basename name
               +:+ guessed_ext guess_extension content_type).
  { intros ct. unfold direct_filename.
    rewrite truthy_Some by done.
    change (default "" (Some name)) with name.
    pose proof (splitext_no_ext _ Hext) as Hbase.
    destruct (Py.splitext (Py.basename name)) as [base ext].
    simpl in Hext, Hbase. subst. done. }
  split; [exact Hdirect |].
  split; [intros ct; apply guessed_ext_cases |].
  split.
  - intros cid headers w Hcontent Hx.
    unfold create_message_file_direct. run_io.
    case_bool_decide; [done |].
    rewrite Hx, Hdirect. unfold write_file. split.
    + intros Hok. rewrite (open_error_writable _ _ Hok). simpl.
      destruct (Sql.insert_message _ _ _ _ _) as [[conn msg_id] | e]; simpl;
        [| by rewrite lookup_insert_eq].
      destruct (load_name _ _ _) as [o w'] eqn:E.
      apply (f_equal snd) in E. rewrite load_name_world in E. simpl in E.
      subst w'. destruct o; simpl; by rewrite lookup_insert_eq.
    + intros Hbad.
      destruct (open_error_not_writable (attachments w) _ Hbad)
        as (e & msg & Hkind & ->).
      by exists e, msg.
  - intros xf ff text cid w Hsel.
    unfold create_message_file, upload_original_name.
    rewrite Hsel. step_io.
    unfold write_file, upload_filename. split.
    + intros Hok. rewrite (open_error_writable _ _ Hok). simpl.
      destruct (Sql.insert_message _ _ _ _ _) as [[conn msg_id] | e]; simpl;
        [| by rewrite lookup_insert_eq].
      unfold getsize. simpl. rewrite lookup_insert_eq. simpl.
      by rewrite lookup_insert_eq.
    + intros Hbad.
      destruct (open_error_not_writable (attachments w) _ Hbad)
        as (e & msg & Hkind & ->).
      by exists e, msg.
Qed.

Lemma extension_from_content_type_witness :
  "notes" <> ""
  /\ snd (Py.splitext (Py.basename "notes")) = ""
  /\ direct_filename mimetypes_excerpt (Py.uuid4_hex 5) (Some "notes") "text/plain"
     = Py.uuid4_hex 5 +:+ "_" +:+ Py.basename "notes"
       +:+ guessed_ext mimetypes_excerpt "text/plain".
Proof.
  assert (H1 : "notes" <> "") by done.
  assert (H2 : snd (Py.splitext (Py.basename "notes")) = "") by reflexivity.
  split; [exact H1 |]. split; [exact H2 |].
  destruct (extension_from_content_type mimetypes_excerpt "t1" 5 "notes"
              [x00]%byte H1 H2) as [Hname _].
  apply Hname.
Defined.

(** An upload whose stored name exceeds 255 bytes is refused by [open];
    no file and no row are left. *)
Example long_name_is_refused :
  writable (Py.uuid4_hex 9 +:+ "_" +:+ Py.basename name_of_230_bytes) = false
  /\ create_message_file "t5" 9 (Some name_of_230_bytes) [x41]%byte None 1
       None world_hello
     = (Raise (OSError "File name too long"), world_hello)
  /\ create_message_file_direct mimetypes_excerpt "t5" 9 1 [x41]%byte
       {[ "x-filename" := name_of_230_bytes; "content-type" := "text/plain" ]}
       world_hello
     = (Raise (OSError "File name too long"), world_hello).
Proof. repeat split; vm_compute; reflexivity. Qed.

(** C5 as stated fails on the multipart entry point: "notes" has no
    extension and text/plain maps to ".txt", yet the upload is stored as
    "{token}_notes"; posted as a raw body it is stored as
    "{token}_notes.txt". *)
Lemma multipart_upload_keeps_bare_name :
  snd (Py.splitext (Py.basename "notes")) = ""
  /\ guessed_ext mimetypes_excerpt "text/plain" = ".txt"
  /\ tbl_messages
       (db (snd (create_message_file "t1" 5 (Some "notes") [x00]%byte None 1
                   None world_started)))
     = [messages.Row 1 (Some "")
          (Some "00000000000040008000000000000005_notes") 1 "t1" "t1" 0]
  /\ attachments
       (snd (create_message_file "t1" 5 (Some "notes") [x00]%byte None 1
               None world_started))
     !! "00000000000040008000000000000005_notes" = Some [x00]%byte
  /\ attachments
       (snd (create_message_file "t1" 5 (Some "notes") [x00]%byte None 1
               None world_started))
     !! "00000000000040008000000000000005_notes.txt" = None
  /\ direct_filename mimetypes_excerpt (Py.uuid4_hex 5) (Some "notes")
       "text/plain"
     = "00000000000040008000000000000005_notes.txt".
Proof. repeat split; vm_compute; reflexivity. Qed.

(** ** Listing messages *)

Lemma JSON_messages_inj l l' (w w' : world) :
  (Return (JSON_messages l), w) = (Return (JSON_messages l'), w') -> l = l'.
Proof. by intros [= -> _]. Qed.

Lemma list_messages_run clipboard_id order w :
  (clipboard_id = None
   \/ exists c, clipboard_id = Some c /\ Sql.int64 c = true) ->
  list_messages clipboard_id order w
  = (Return
       (JSON_messages
          (list_item (attachments w)
           <$> merge_sort (Sql.order_le (ordering_of order))
                 (match clipboard_id with
                  | None => tbl_messages (db w)
                  | Some c => filter (fun m => messages.clipboard_id m = c)
                                     (tbl_messages (db w))
                  end))),
     w).
Proof.
  intros [-> | (c & -> & Hc)]; unfold list_messages; run_io; [done |].
  unfold Sql.bind_ints. simpl. by rewrite Hc.
Qed.

Lemma insert_message_success text filename cid now d d' new_id :
  Sql.insert_message text filename cid now d = Return (d', new_id) ->
  Sql.int64 cid = true
  /\ tbl_messages d'
     = tbl_messages d ++ [messages.Row new_id text filename cid now now 0].
Proof.
  unfold Sql.insert_message, Sql.bind_ints. simpl.
  destruct (Sql.int64 cid); simpl; [| done].
  destruct (Sql.next_rowid _ _) as [i | e]; [| done].
  destruct (Sql.has_clipboard cid d); [| done].
  intros [= <- <-]. done.
Qed.

(** C9. The upload "report.pdf" is stored as "{token}_report.pdf"; the
    token is 32 hex digits, so the split at the first underscore gives
    exactly the token and "report.pdf", and "report.pdf" is the
    [original_filename] derived from the stored name.  Whenever
    [create_message_file] returns for that upload, every listing that
    covers the target clipboard contains the new message with
    [original_filename = "report.pdf"]. *)
Theorem report_pdf_round_trip urandom :
  Py.split1 "_" (upload_filename (Py.uuid4_hex urandom) "report.pdf")
     = [Py.uuid4_hex urandom; "report.pdf"]
  /\ original_filename_of
       (Some (upload_filename (Py.uuid4_hex urandom) "report.pdf"))
     = Some "report.pdf"
  /\ (forall now content text clipboard_id x_filename file_filename w m w',
         (if Py.truthy x_filename then x_filename else file_filename)
         = Some "report.pdf" ->
         create_message_file now urandom file_filename content text
           clipboard_id x_filename w
         = (Return (JSON_message m), w') ->
         MessageOut.filename m
         = Some (upload_filename (Py.uuid4_hex urandom) "report.pdf")
         /\ MessageOut.original_filename m = Some "report.pdf"
         /\ forall order filter,
             filter = None \/ filter = Some clipboard_id ->
             exists l item,
               list_messages filter order w' = (Return (JSON_messages l), w')
               /\ item ∈ l
               /\ MessageOut.id item = MessageOut.id m
               /\ MessageOut.filename item = MessageOut.filename m
               /\ MessageOut.original_filename item = Some "report.pdf").
Proof.
  assert (Hsplit : Py.split1 "_" (upload_filename (Py.uuid4_hex urandom) "report.pdf")
                   = [Py.uuid4_hex urandom; "report.pdf"]).
  { unfold Py.split1, upload_filename.
    change ("_" +:+ "report.pdf") with (String "_" "report.pdf").
    by rewrite split_first_at_separator by apply uuid4_hex_no_underscore. }
  assert (Horig : original_filename_of
                    (Some (upload_filename (Py.uuid4_hex urandom) "report.pdf"))
                  = Some "report.pdf").
  { unfold original_filename_of. rewrite Hsplit.
    by destruct (Py.truthy _) eqn:E;
      [| unfold upload_filename in E; destruct (Py.uuid4_hex urandom)]. }
  split; [exact Hsplit |]. split; [exact Horig |].
  intros now content text cid xf ff w m w' Hsel.
  unfold create_message_file, upload_original_name. rewrite Hsel.
  step_io. unfold write_file.
  destruct (open_error _ _) as [eo |]; simpl; [done |].
  destruct (Sql.insert_message _ _ _ _ _) as [[conn msg_id] | e] eqn:Hins;
    simpl; [| done].
  unfold getsize. simpl. rewrite lookup_insert_eq. simpl.
  intros [= <- <-]. simpl.
  split; [done |]. split; [done |].
  apply insert_message_success in Hins as [H64 Hrows].
  intros order filter Hfilter.
  rewrite list_messages_run by (destruct Hfilter as [-> | ->]; eauto).
  eexists _, (list_item _
                (messages.Row msg_id _ _ cid now now 0)).
  split; [reflexivity |]. simpl.
  split; [| split; [done | split; [done | exact Horig]]].
  apply list_elem_of_fmap_2.
  rewrite merge_sort_Permutation. rewrite Hrows.
  destruct Hfilter as [-> | ->].
  - apply elem_of_app. right. apply list_elem_of_here.
  - apply list_elem_of_filter. split; [done |].
    apply elem_of_app. right. apply list_elem_of_here.
Qed.

Lemma report_pdf_round_trip_witness :
  create_message_file "t3" 77 (Some "report.pdf") [x00; x01]%byte None 1 None
    world_hello
  = (Return
       (JSON_message
          (MessageOut.Make 2 (Some "")
             (Some "0000000000004000800000000000004d_report.pdf") 1 "t3" "t3" 0
             (Some 2) (Some "report.pdf"))),
     world_report)
  /\ exists l item,
      list_messages None "desc" world_report = (Return (JSON_messages l), world_report)
      /\ item ∈ l
      /\ MessageOut.id item = 2
      /\ MessageOut.original_filename item = Some "report.pdf".
Proof.
  assert (Hrun : create_message_file "t3" 77 (Some "report.pdf") [x00; x01]%byte
                   None 1 None world_hello
                 = (Return
                      (JSON_message
                         (MessageOut.Make 2 (Some "")
                            (Some "0000000000004000800000000000004d_report.pdf")
                            1 "t3" "t3" 0 (Some 2) (Some "report.pdf"))),
                    world_report)) by reflexivity.
  split; [exact Hrun |].
  destruct (report_pdf_round_trip 77) as (_ & _ & Hlist).
  destruct (Hlist _ _ _ _ None (Some "report.pdf") _ _ _ eq_refl Hrun)
    as (_ & _ & Hall).
  destruct (Hall "desc" None (or_introl eq_refl))
    as (l & item & Hl & Hin & Hid & _ & Ho).
  exists l, item.
  split; [exact Hl |]. split; [exact Hin |]. split; [exact Hid | exact Ho].
Defined.

(** *** Pinned rows first *)

#[local] Instance order_le_total o : Total (Sql.order_le o).
Proof.
  intros a b. unfold Sql.order_le, Sql.order_leb.
  destruct (Z.lt_trichotomy (messages.pinned a) (messages.pinned b))
    as [Hlt | [Heq | Hgt]].
  - right. apply orb_true_iff. left. by apply Z.ltb_lt.
  - rewrite Heq, Z.eqb_refl, !andb_true_l.
    destruct o; simpl;
      match goal with
      | |- context [String.leb ?x ?y] => destruct (String.leb_total x y) as [E | E]
      end; rewrite E; rewrite ?orb_true_r; auto.
  - left. apply orb_true_iff. left. by apply Z.ltb_lt.
Qed.

Lemma order_le_pinned o a b : Sql.order_le o a b -> pinned_ge a b.
Proof.
  unfold Sql.order_le, Sql.order_leb, pinned_ge.
  intros H. apply orb_true_iff in H as [H | H].
  - apply Z.ltb_lt in H. lia.
  - apply andb_true_iff in H as [H _]. apply Z.eqb_eq in H. lia.
Qed.

#[local] Instance pinned_ge_trans : Transitive pinned_ge.
Proof. unfold pinned_ge. intros a b c ? ?. lia. Qed.

Lemma Sorted_weaken {A} (R R' : relation A) l :
  (forall x y, R x y -> R' x y) -> Sorted R l -> Sorted R' l.
Proof.
  intros Himp. induction 1 as [| x l _ IH Hhd]; constructor; [done |].
  destruct Hhd; constructor. by apply Himp.
Qed.

Lemma StronglySorted_lookup {A} (R : relation A) l i j x y :
  StronglySorted R l -> (i < j)%nat ->
  l !! i = Some x -> l !! j = Some y -> R x y.
Proof.
  intros Hs. revert i j x y.
  induction Hs as [| a l _ IH Hall]; intros i j x y Hij Hi Hj; [done |].
  destruct j as [| j]; [lia |]. simpl in Hj.
  destruct i as [| i]; simpl in Hi.
  - injection Hi as <-. rewrite Forall_forall in Hall.
    apply Hall. by eapply list_elem_of_lookup_2.
  - apply (IH i j); [lia | done | done].
Qed.

Lemma select_rows_pinned_first o (rows : list messages.row) i j a b :
  merge_sort (Sql.order_le o) rows !! i = Some a ->
  merge_sort (Sql.order_le o) rows !! j = Some b ->
  messages.pinned b < messages.pinned a ->
  (i < j)%nat.
Proof.
  intros Hi Hj Hlt.
  assert (Hs : StronglySorted pinned_ge (merge_sort (Sql.order_le o) rows)).
  { apply Sorted_StronglySorted; [apply _ |].
    eapply Sorted_weaken; [apply order_le_pinned |].
    apply Sorted_merge_sort, _. }
  destruct (lt_eq_lt_dec i j) as [[? | ->] | Hgt]; [done | |].
  - rewrite Hi in Hj. injection Hj as ->. lia.
  - pose proof (StronglySorted_lookup _ _ _ _ _ _ Hs Hgt Hj Hi) as Hge.
    unfold pinned_ge in Hge. lia.
Qed.

(** C7. Whatever the [order] string, and with or without a clipboard
    filter, [list_messages] returns the selected messages (each exactly
    once) with every row of a larger [pinned] value before every row of a
    smaller one: each pinned message (1) comes before each unpinned one
    (0), whatever their timestamps. *)
Theorem list_messages_pinned_first clipboard_id order w :
  (clipboard_id = None
   \/ exists c, clipboard_id = Some c /\ Sql.int64 c = true) ->
  exists l,
    list_messages clipboard_id order w = (Return (JSON_messages l), w)
    /\ l ≡ₚ list_item (attachments w)
            <$> match clipboard_id with
                | None => tbl_messages (db w)
                | Some c => filter (fun m => messages.clipboard_id m = c)
                                   (tbl_messages (db w))
                end
    /\ (forall i j mi mj,
           l !! i = Some mi -> l !! j = Some mj ->
           MessageOut.pinned mj < MessageOut.pinned mi ->
           (i < j)%nat)
    /\ (forall i j mi mj,
           l !! i = Some mi -> l !! j = Some mj ->
           MessageOut.pinned mi = 1 -> MessageOut.pinned mj = 0 ->
           (i < j)%nat).
Proof.
  intros Hfilter. rewrite list_messages_run by done.
  eexists. split; [reflexivity |].
  split; [by rewrite merge_sort_Permutation |].
  assert (Hgen : forall i j mi mj,
             (list_item (attachments w)
              <$> merge_sort (Sql.order_le (ordering_of order))
                    match clipboard_id with
                    | None => tbl_messages (db w)
                    | Some c => filter (fun m => messages.clipboard_id m = c)
                                       (tbl_messages (db w))
                    end) !! i = Some mi ->
             (list_item (attachments w)
              <$> merge_sort (Sql.order_le (ordering_of order))
                    match clipboard_id with
                    | None => tbl_messages (db w)
                    | Some c => filter (fun m => messages.clipboard_id m = c)
                                       (tbl_messages (db w))
                    end) !! j = Some mj ->
             MessageOut.pinned mj < MessageOut.pinned mi -> (i < j)%nat).
  { intros i j mi mj Hi Hj Hlt.
    rewrite list_lookup_fmap in Hi, Hj.
    apply fmap_Some in Hi as (a & Hi & ->).
    apply fmap_Some in Hj as (b & Hj & ->).
    simpl in Hlt. by eapply select_rows_pinned_first. }
  split; [exact Hgen |].
  intros i j mi mj Hi Hj Hp Hu. apply (Hgen i j mi mj Hi Hj). lia.
Qed.

Lemma list_messages_pinned_first_witness :
  (@None Z = None \/ exists c, @None Z = Some c /\ Sql.int64 c = true)
  /\ exists l,
      list_messages None "desc" world_pinned = (Return (JSON_messages l), world_pinned)
      /\ MessageOut.id <$> l = [1; 2]
      /\ MessageOut.pinned <$> l = [1; 0]
      /\ MessageOut.created_at <$> l = ["t2"; "t3"]
      /\ (forall i j mi mj,
             l !! i = Some mi -> l !! j = Some mj ->
             MessageOut.pinned mi = 1 -> MessageOut.pinned mj = 0 ->
             (i < j)%nat).
Proof.
  split; [by left |].
  destruct (list_messages_pinned_first None "desc" world_pinned
              (or_introl eq_refl)) as (l & Hl & _ & _ & Hfirst).
  exists l. split; [exact Hl |].
  assert (El : l = list_item (attachments world_pinned)
                   <$> merge_sort (Sql.order_le Sql.ByCreatedDesc)
                         (tbl_messages (db world_pinned))).
  { pose proof (eq_trans (eq_sym Hl)
                  (list_messages_run None "desc" world_pinned (or_introl eq_refl)))
      as E.
    exact (JSON_messages_inj _ _ _ _ E). }
  split; [| split; [| split; [| exact Hfirst]]];
    rewrite El; vm_compute; reflexivity.
Defined.

(** ** Reachable states *)

Lemma get_file_world API_TOKEN filename token authorization w :
  snd (get_file API_TOKEN filename token authorization w) = w.
Proof.
  unfold get_file, path_exists, mbind, io_bind, mret, io_ret, raise, lift.
  destruct (negb (Py.truthy (Some API_TOKEN))); [done |].
  destruct (Py.truthy token).
  - destruct (negb (String.eqb _ _)); [done |].
    by destruct (negb (_ || _)).
  - destruct (verify_token _ _); [| done].
    by destruct (negb (_ || _)).
Qed.

(** A request commits all the statements it runs, or none. *)
Lemma serve_commits API_TOKEN guess_extension now urandom authorization r w :
  db (snd (serve API_TOKEN guess_extension now urandom authorization r w)) = db w
  \/ run_stmts (writes_of guess_extension now urandom r) (db w)
     = Return (db (snd (serve API_TOKEN guess_extension now urandom
                          authorization r w))).
Proof.
  destruct r; unfold serve; run_io;
    (destruct (verify_token API_TOKEN authorization); simpl; [| by left]) || idtac.
  - by left.
  - unfold create_clipboard. run_io.
    destruct (Sql.insert_clipboard _ _ _); simpl; auto.
  - unfold rename_clipboard. run_io.
    destruct (Sql.update_clipboard_name _ _ _); simpl; auto.
  - unfold delete_clipboard.
    destruct (clipboard_id =? 1); run_io; [by left |].
    destruct (Sql.delete_messages_of_clipboard _ _); simpl; [| by left].
    destruct (Sql.delete_clipboard_row _ _); simpl; auto.
  - unfold update_message. run_io.
    destruct (Sql.update_message_text _ _ _ _) as [d' |]; simpl; [| by left].
    right. destruct (Sql.select_message _ _) as [[r |] |]; done.
  - unfold list_messages. run_io.
    destruct (Sql.select_messages _ _ _); simpl; auto.
  - unfold create_message. run_io.
    destruct (Sql.insert_message _ _ _ _ _) as [[d' i] |]; simpl; auto.
  - unfold pin_message, pinned_value. run_io.
    destruct (Sql.update_message_pinned _ _ _ _); simpl; auto.
  - unfold delete_message. run_io.
    destruct (Sql.delete_message_row _ _); simpl; auto.
  - unfold move_message. run_io.
    destruct (Sql.update_message_clipboard _ _ _ _); simpl; auto.
  - unfold create_message_file. step_io.
    destruct (upload_original_name _ _); cbv beta iota zeta; [| by left].
    unfold write_file.
    destruct (open_error _ _) as [eo |]; simpl; [by left |].
    destruct (Sql.insert_message _ _ _ _ _) as [[d' i] |]; simpl; [| by left].
    right. unfold getsize. simpl. by rewrite lookup_insert_eq.
  - unfold create_message_file_direct. step_io.
    case_bool_decide; [by left |].
    unfold write_file.
    destruct (open_error _ _) as [eo |]; simpl; [by left |].
    destruct (Sql.insert_message _ _ _ _ _) as [[d' i] |]; simpl; [| by left].
    right.
    destruct (load_name _ _ _) as [o w'] eqn:E.
    apply (f_equal snd) in E. rewrite load_name_world in E. simpl in E.
    subst w'. by destruct o.
  - left. by rewrite get_file_world.
Qed.

Lemma startup_commits now w :
  Sql.insert_or_ignore_main now (db w) = Return (db (snd (startup now w)))
  /\ attachments (snd (startup now w)) = attachments w.
Proof.
  unfold startup. run_io. unfold Sql.insert_or_ignore_main.
  by destruct (existsb _ _).
Qed.

(** What a statement does to the clipboards table. *)
Lemma run_stmt_clipboards s d d' :
  run_stmt s d = Return d' ->
  match s with
  | InsertOrIgnoreMain now =>
      tbl_clipboards d' = tbl_clipboards d
      \/ tbl_clipboards d' = tbl_clipboards d ++ [clipboards.Row 1 "main" now]
  | InsertClipboard name now =>
      exists new_id,
        Sql.next_rowid (seq_clipboards d) (clipboards.id <$> tbl_clipboards d)
        = Return new_id
        /\ tbl_clipboards d' = tbl_clipboards d ++ [clipboards.Row new_id name now]
  | UpdateClipboardName name cid =>
      tbl_clipboards d'
      = (fun c => if clipboards.id c =? cid
                  then clipboards.Row (clipboards.id c) name (clipboards.created_at c)
                  else c) <$> tbl_clipboards d
  | DeleteClipboardRow cid =>
      tbl_clipboards d'
      = filter (fun c => clipboards.id c <> cid) (tbl_clipboards d)
  | _ => tbl_clipboards d' = tbl_clipboards d
  end.
Proof.
  destruct s; simpl;
    unfold Sql.insert_or_ignore_main, Sql.insert_clipboard,
      Sql.update_clipboard_name, Sql.delete_messages_of_clipboard,
      Sql.delete_clipboard_row, Sql.update_message_text, Sql.insert_message,
      Sql.update_message_pinned, Sql.delete_message_row,
      Sql.update_message_clipboard, Sql.bind_ints;
    repeat match goal with
           | |- context [if ?b then _ else _] => destruct b
           | |- context [match Sql.next_rowid ?a ?b with _ => _ end] =>
               destruct (Sql.next_rowid a b) eqn:?
           end;
    intros [= <-]; simpl; eauto.
Qed.

Lemma run_stmt_keeps_clipboard_1 s d d' :
  run_stmt s d = Return d' ->
  s <> DeleteClipboardRow 1 ->
  (exists c, c ∈ tbl_clipboards d /\ clipboards.id c = 1) ->
  exists c, c ∈ tbl_clipboards d' /\ clipboards.id c = 1.
Proof.
  intros Hrun Hs (c & Hin & Hid).
  apply run_stmt_clipboards in Hrun.
  destruct s; try (rewrite Hrun; by eauto).
  - destruct Hrun as [-> | ->]; [by eauto |].
    exists c. split; [| done]. apply elem_of_app. by left.
  - destruct Hrun as (i & _ & ->).
    exists c. split; [| done]. apply elem_of_app. by left.
  - rewrite Hrun.
    destruct (clipboards.id c =? cid) eqn:E.
    + exists (clipboards.Row (clipboards.id c) name (clipboards.created_at c)).
      split; [| done]. apply list_elem_of_fmap. exists c. by rewrite E.
    + exists c. split; [| done]. apply list_elem_of_fmap. exists c. by rewrite E.
  - rewrite Hrun. exists c. split; [| done].
    apply list_elem_of_filter. split; [| done]. congruence.
Qed.

Lemma run_stmt_keeps_clipboard_row s d d' c :
  run_stmt s d = Return d' ->
  s <> DeleteClipboardRow 1 ->
  (forall name, s <> UpdateClipboardName name 1) ->
  c ∈ tbl_clipboards d -> clipboards.id c = 1 ->
  c ∈ tbl_clipboards d'.
Proof.
  intros Hrun Hdel Hren Hin Hid.
  apply run_stmt_clipboards in Hrun.
  destruct s; try (by rewrite Hrun).
  - destruct Hrun as [-> | ->]; [done |]. apply elem_of_app. by left.
  - destruct Hrun as (i & _ & ->). apply elem_of_app. by left.
  - rewrite Hrun. apply list_elem_of_fmap. exists c. split; [| done].
    destruct (Z.eqb_spec (clipboards.id c) cid) as [E | _]; [| done].
    exfalso. apply (Hren name). congruence.
  - rewrite Hrun. apply list_elem_of_filter. split; [| done]. congruence.
Qed.

Lemma run_stmts_preserve (P : database -> Prop) (ok : stmt -> Prop) :
  (forall s d d', run_stmt s d = Return d' -> ok s -> P d -> P d') ->
  forall l d d',
    run_stmts l d = Return d' -> Forall ok l -> P d -> P d'.
Proof.
  intros Hstep. induction l as [| s l IH]; simpl; intros d d' Hrun Hok HP.
  - by injection Hrun as <-.
  - apply Forall_cons in Hok as [Hs Hl].
    destruct (run_stmt s d) as [d1 |] eqn:E; [| done].
    eapply IH; [done | done |]. by eapply Hstep.
Qed.

Lemma writes_of_never_delete_main guess_extension now urandom r :
  Forall (fun s => s <> DeleteClipboardRow 1)
         (writes_of guess_extension now urandom r).
Proof.
  destruct r; simpl; repeat constructor; try done.
  - destruct (Z.eqb_spec clipboard_id 1); repeat constructor; congruence.
  - destruct (upload_original_name _ _); repeat constructor; done.
  - case_bool_decide; repeat constructor; done.
Qed.

Lemma writes_of_never_rename_main guess_extension now urandom r :
  (forall name, r <> PUT_clipboard 1 name) ->
  Forall (fun s => forall name, s <> UpdateClipboardName name 1)
         (writes_of guess_extension now urandom r).
Proof.
  intros Hr.
  destruct r; simpl; repeat constructor; try done.
  - intros n. specialize (Hr name). congruence.
  - destruct (Z.eqb_spec clipboard_id 1); repeat constructor; congruence.
  - destruct (upload_original_name _ _); repeat constructor; done.
  - case_bool_decide; repeat constructor; done.
Qed.

Lemma reachable_has_clipboard_1 API_TOKEN guess_extension w :
  reachable API_TOKEN guess_extension w -> has_clipboard_1 w.
Proof.
  unfold has_clipboard_1.
  induction 1 as [now | now w _ IH | now urandom authorization r w _ IH].
  - exists (clipboards.Row 1 "main" now). split; [| done].
    apply list_elem_of_here.
  - destruct (startup_commits now w) as [Hrun _].
    by apply (run_stmt_keeps_clipboard_1 (InsertOrIgnoreMain now) _ _ Hrun).
  - destruct (serve_commits API_TOKEN guess_extension now urandom
                authorization r w) as [-> | Hrun]; [done |].
    eapply (run_stmts_preserve _ _ run_stmt_keeps_clipboard_1);
      [exact Hrun | apply writes_of_never_delete_main | exact IH].
Qed.

(** C1 (as the code has it). The first start creates clipboard 1 under
    the name "main".  From then on every reachable state has a clipboard
    with id 1: a restart keeps every clipboard row, and every request
    other than a rename of clipboard 1 keeps the very row of clipboard 1
    (id, name and creation time), a delete of clipboard 1 being refused. *)
Theorem main_clipboard_invariant API_TOKEN guess_extension :
  (forall now,
      tbl_clipboards (db (snd (startup now empty_world)))
      = [clipboards.Row 1 "main" now])
  /\ (forall w,
         reachable API_TOKEN guess_extension w ->
         exists c, c ∈ tbl_clipboards (db w) /\ clipboards.id c = 1)
  /\ (forall now w c,
         c ∈ tbl_clipboards (db w) ->
         c ∈ tbl_clipboards (db (snd (startup now w))))
  /\ (forall now urandom authorization r w c,
         c ∈ tbl_clipboards (db w) ->
         clipboards.id c = 1 ->
         (forall name, r <> PUT_clipboard 1 name) ->
         c ∈ tbl_clipboards
               (db (snd (serve API_TOKEN guess_extension now urandom
                           authorization r w))))
  /\ (forall now urandom authorization w,
         serve API_TOKEN guess_extension now urandom authorization
           (DELETE_clipboard 1) w
         = (Raise (HTTPException 400 "Cannot delete main clipboard"), w)
         \/ exists e,
             verify_token API_TOKEN authorization = Raise e
             /\ serve API_TOKEN guess_extension now urandom authorization
                  (DELETE_clipboard 1) w = (Raise e, w)).
Proof.
  split; [done |].
  split; [apply reachable_has_clipboard_1 |].
  split; [| split].
  - intros now w c Hin.
    destruct (startup_commits now w) as [Hrun _].
    apply (run_stmt_clipboards (InsertOrIgnoreMain now)) in Hrun
      as [-> | ->]; [done |].
    apply elem_of_app. by left.
  - intros now urandom authorization r w c Hin Hid Hr.
    destruct (serve_commits API_TOKEN guess_extension now urandom
                authorization r w) as [-> | Hrun]; [done |].
    eapply (run_stmts_preserve
              (fun d => c ∈ tbl_clipboards d)
              (fun s => s <> DeleteClipboardRow 1
                        /\ forall name, s <> UpdateClipboardName name 1));
      [| exact Hrun | | exact Hin].
    + intros s d d' Hs [Hdel Hren] Hc.
      by apply (run_stmt_keeps_clipboard_row s d d' c).
    + apply Forall_and. split;
        [apply writes_of_never_delete_main
        | by apply writes_of_never_rename_main].
  - intros now urandom authorization w. unfold serve. run_io.
    destruct (verify_token API_TOKEN authorization) as [[] | e]; simpl.
    + by left.
    + right. by exists e.
Qed.

Lemma main_clipboard_invariant_witness :
  reachable "secret" mimetypes_excerpt world_renamed
  /\ (exists c, c ∈ tbl_clipboards (db world_renamed) /\ clipboards.id c = 1)
  /\ clipboards.Row 1 "main" "t0"
     ∈ tbl_clipboards
         (db (snd (serve "secret" mimetypes_excerpt "t1" 0 (Some "Bearer secret")
                     (POST_clipboards "work") world_started))).
Proof.
  assert (Hreach : reachable "secret" mimetypes_excerpt world_renamed).
  { apply reach_request, reach_start. }
  split; [exact Hreach |].
  destruct (main_clipboard_invariant "secret" mimetypes_excerpt)
    as (_ & Hinv & _ & Hkeep & _).
  split; [exact (Hinv _ Hreach) |].
  apply Hkeep; [apply list_elem_of_here | reflexivity | discriminate].
Defined.

(** C1 as stated fails: renaming clipboard 1 is an ordinary request, and
    after it no clipboard is both number 1 and called "main". *)
Lemma main_clipboard_can_be_renamed :
  reachable "secret" mimetypes_excerpt world_renamed
  /\ tbl_clipboards (db world_renamed) = [clipboards.Row 1 "inbox" "t0"]
  /\ ~ (exists c, c ∈ tbl_clipboards (db world_renamed)
                  /\ clipboards.id c = 1 /\ clipboards.name c = "main").
Proof.
  split; [apply reach_request, reach_start |].
  split; [reflexivity |].
  intros (c & Hin & _ & Hname).
  change (tbl_clipboards (db world_renamed))
    with [clipboards.Row 1 "inbox" "t0"] in Hin.
  apply list_elem_of_singleton in Hin. subst c. discriminate.
Qed.

(** *** Reachable stores are well-formed *)

Lemma foldr_max_ge seq (ids : list Z) : seq <= foldr Z.max seq ids.
Proof. induction ids as [| i ids IH]; simpl; lia. Qed.

Lemma next_rowid_bounds seq ids new_id :
  Sql.next_rowid seq ids = Return new_id ->
  0 <= seq ->
  Sql.int64 new_id = true /\ 0 <= new_id.
Proof.
  unfold Sql.next_rowid, Sql.int64.
  pose proof (foldr_max_ge seq ids) as Hge.
  destruct (Z.ltb_spec (foldr Z.max seq ids) (2 ^ 63 - 1)) as [Hlt | _];
    [| done].
  intros [= <-] Hseq. split; [| lia].
  apply andb_true_iff. split; [apply Z.leb_le | apply Z.ltb_lt]; lia.
Qed.

Lemma Forall_updated_rows (P : messages.row -> Prop)
    (f : messages.row -> messages.row) mid (l : list messages.row) :
  (forall r, P r -> P (f r)) ->
  Forall P l ->
  Forall P ((fun m => if messages.id m =? mid then f m else m) <$> l).
Proof.
  intros Hf Hl. apply Forall_fmap. eapply Forall_impl; [exact Hl |].
  intros r Hr. simpl. destruct (messages.id r =? mid); auto.
Qed.

Lemma Forall_filtered {A} (P Q : A -> Prop) `{forall x, Decision (Q x)}
    (l : list A) :
  Forall P l -> Forall P (filter Q l).
Proof.
  rewrite !Forall_forall. intros Hl x Hx.
  apply list_elem_of_filter in Hx as [_ Hx]. by apply Hl.
Qed.

Lemma run_stmt_store_ok s d d' :
  run_stmt s d = Return d' ->
  s <> DeleteClipboardRow 1 ->
  store_ok d -> store_ok d'.
Proof.
  intros Hrun Hs Hok.
  pose proof Hok as ([Hc Hm] & Hsc & Hsm & H1).
  split; [| split; [| split]];
    [| | | by apply (run_stmt_keeps_clipboard_1 s d d')].
  - clear H1 Hok Hs. destruct s; simpl in Hrun;
      unfold Sql.insert_or_ignore_main, Sql.insert_clipboard,
        Sql.update_clipboard_name, Sql.delete_messages_of_clipboard,
        Sql.delete_clipboard_row, Sql.update_message_text, Sql.insert_message,
        Sql.update_message_pinned, Sql.delete_message_row,
        Sql.update_message_clipboard, Sql.bind_ints in Hrun;
      repeat match type of Hrun with
             | context [match Sql.next_rowid ?a ?b with _ => _ end] =>
                 destruct (Sql.next_rowid a b) as [new_id |] eqn:Hnext
             | context [if ?b then _ else _] => destruct b
             end;
      try discriminate; injection Hrun as <-; split; simpl;
      try assumption;
      try (apply Forall_app; split; [assumption |]; repeat constructor;
           by eapply next_rowid_bounds);
      try (by apply Forall_filtered);
      try (by apply Forall_updated_rows).
    apply Forall_fmap. eapply Forall_impl; [exact Hc |].
    intros c Hc'. simpl. by destruct (clipboards.id c =? cid).
  - clear H1 Hok Hs Hc Hm. destruct s; simpl in Hrun;
      unfold Sql.insert_or_ignore_main, Sql.insert_clipboard,
        Sql.update_clipboard_name, Sql.delete_messages_of_clipboard,
        Sql.delete_clipboard_row, Sql.update_message_text, Sql.insert_message,
        Sql.update_message_pinned, Sql.delete_message_row,
        Sql.update_message_clipboard, Sql.bind_ints in Hrun;
      repeat match type of Hrun with
             | context [match Sql.next_rowid ?a ?b with _ => _ end] =>
                 destruct (Sql.next_rowid a b) as [new_id |] eqn:Hnext
             | context [if ?b then _ else _] => destruct b
             end;
      try discriminate; injection Hrun as <-; simpl; try lia.
    by eapply next_rowid_bounds.
  - clear H1 Hok Hs Hc Hm. destruct s; simpl in Hrun;
      unfold Sql.insert_or_ignore_main, Sql.insert_clipboard,
        Sql.update_clipboard_name, Sql.delete_messages_of_clipboard,
        Sql.delete_clipboard_row, Sql.update_message_text, Sql.insert_message,
        Sql.update_message_pinned, Sql.delete_message_row,
        Sql.update_message_clipboard, Sql.bind_ints in Hrun;
      repeat match type of Hrun with
             | context [match Sql.next_rowid ?a ?b with _ => _ end] =>
                 destruct (Sql.next_rowid a b) as [new_id |] eqn:Hnext
             | context [if ?b then _ else _] => destruct b
             end;
      try discriminate; injection Hrun as <-; simpl; try lia.
    by eapply next_rowid_bounds.
Qed.

(** Every state the system can reach satisfies [store_ok], and with it
    the well-formedness that the theorems above assume. *)
Lemma reachable_store_ok API_TOKEN guess_extension w :
  reachable API_TOKEN guess_extension w -> store_ok (db w).
Proof.
  induction 1 as [now | now w _ IH | now urandom authorization r w _ IH].
  - repeat split; simpl; try lia; try (by repeat constructor).
    exists (clipboards.Row 1 "main" now). split; [apply list_elem_of_here | done].
  - destruct (startup_commits now w) as [Hrun _].
    by apply (run_stmt_store_ok (InsertOrIgnoreMain now) _ _ Hrun).
  - destruct (serve_commits API_TOKEN guess_extension now urandom
                authorization r w) as [-> | Hrun]; [done |].
    eapply (run_stmts_preserve _ _ run_stmt_store_ok);
      [exact Hrun | apply writes_of_never_delete_main | exact IH].
Qed.

Lemma reachable_db_wf API_TOKEN guess_extension w :
  reachable API_TOKEN guess_extension w -> db_wf (db w).
Proof. intros H. by apply reachable_store_ok in H as [? _]. Qed.

(** *** Reachable stores satisfy the schema *)

Lemma NoDup_fmap_filter {A B} (f : A -> B) (P : A -> Prop)
    `{forall x, Decision (P x)} (l : list A) :
  NoDup (f <$> l) -> NoDup (f <$> filter P l).
Proof.
  intros Hl. eapply sublist_NoDup; [exact Hl |].
  apply fmap_sublist, sublist_filter.
Qed.

Lemma fmap_if_preserved {A B} (g : A -> B) (c : A -> bool) (f : A -> A)
    (l : list A) :
  (forall r, g (f r) = g r) ->
  g <$> ((fun r => if c r then f r else r) <$> l) = g <$> l.
Proof.
  intros Hg. rewrite <- list_fmap_compose. apply list_fmap_ext.
  intros i r _. simpl. destruct (c r); auto.
Qed.

Lemma foldr_max_ge_elem seq (ids : list Z) x :
  x ∈ ids -> x <= foldr Z.max seq ids.
Proof.
  induction ids as [| i ids IH]; [by intros ?%elem_of_nil |].
  intros [-> | Hin]%elem_of_cons; simpl; [lia |].
  specialize (IH Hin). lia.
Qed.

Lemma next_rowid_fresh seq ids new_id :
  Sql.next_rowid seq ids = Return new_id -> new_id ∉ ids.
Proof.
  unfold Sql.next_rowid.
  destruct (_ <? _); [| done]. intros [= <-] Hin.
  apply (foldr_max_ge_elem seq) in Hin. lia.
Qed.

Lemma existsb_false_Forall {A} (p : A -> bool) (l : list A) :
  existsb p l = false -> Forall (fun x => p x = false) l.
Proof.
  induction l as [| x l IH]; simpl; [by constructor |].
  intros [? ?]%orb_false_elim. constructor; auto.
Qed.

Lemma has_clipboard_elem cid d :
  Sql.has_clipboard cid d = true <-> cid ∈ clipboards.id <$> tbl_clipboards d.
Proof.
  unfold Sql.has_clipboard. rewrite existsb_exists, list_elem_of_fmap.
  split.
  - intros (c & Hin & E). exists c. apply Z.eqb_eq in E.
    split; [done | by apply list_elem_of_In].
  - intros (c & -> & Hin). exists c.
    split; [by apply list_elem_of_In | apply Z.eqb_refl].
Qed.

(** [UPDATE clipboards SET name] keeps the names distinct when no other
    row carries the new name. *)
Lemma rename_keeps_names_distinct name cid (l : list clipboards.row) :
  NoDup (clipboards.id <$> l) ->
  NoDup (clipboards.name <$> l) ->
  (forall c, c ∈ l -> clipboards.id c <> cid -> clipboards.name c <> name) ->
  NoDup (clipboards.name
         <$> ((fun c => if clipboards.id c =? cid
                        then clipboards.Row (clipboards.id c) name
                                            (clipboards.created_at c)
                        else c) <$> l)).
Proof.
  induction l as [| c l IH]; simpl; [constructor |].
  intros [Hid Hids]%NoDup_cons [Hname Hnames]%NoDup_cons Hother.
  apply NoDup_cons. split.
  - rewrite <- list_fmap_compose, list_elem_of_fmap.
    intros (c0 & E & Hin0). simpl in E.
    assert (Hne : clipboards.id c0 <> clipboards.id c).
    { intros Heq. apply Hid. rewrite <- Heq. by apply list_elem_of_fmap_2. }
    destruct (Z.eqb_spec (clipboards.id c) cid) as [Hc | Hc];
      destruct (Z.eqb_spec (clipboards.id c0) cid) as [Hc0 | Hc0];
      simpl in E.
    + congruence.
    + apply (Hother c0); [by apply elem_of_cons; right | done | done].
    + apply (Hother c); [by apply elem_of_cons; left | done | done].
    + apply Hname. rewrite E. by apply list_elem_of_fmap_2.
  - apply IH; [done | done |].
    intros c0 Hin0. apply Hother. apply elem_of_cons. by right.
Qed.

Lemma run_stmt_schema_ok s d d' :
  run_stmt s d = Return d' -> schema_ok d -> schema_ok d'.
Proof.
  intros Hrun (Hids & Hnames & Hmids & Hfk).
  destruct s; simpl in Hrun.
  - (* INSERT OR IGNORE main *)
    unfold Sql.insert_or_ignore_main in Hrun.
    destruct (existsb _ _) eqn:E; injection Hrun as <-; [done |].
    apply existsb_false_Forall in E. rewrite Forall_forall in E.
    repeat split; simpl; try done.
    + rewrite fmap_app. apply NoDup_app. split; [done |]. split.
      * intros i (c & -> & Hc)%list_elem_of_fmap Hi.
        apply list_elem_of_singleton in Hi. simpl in Hi.
        specialize (E c Hc). apply orb_false_elim in E as [E _].
        apply Z.eqb_neq in E. done.
      * apply NoDup_singleton.
    + rewrite fmap_app. apply NoDup_app. split; [done |]. split.
      * intros n (c & -> & Hc)%list_elem_of_fmap Hn.
        apply list_elem_of_singleton in Hn. simpl in Hn.
        specialize (E c Hc). apply orb_false_elim in E as [_ E].
        apply String.eqb_neq in E. done.
      * apply NoDup_singleton.
    + eapply Forall_impl; [exact Hfk |].
      intros m Hm. rewrite fmap_app. apply elem_of_app. by left.
  - (* INSERT INTO clipboards *)
    unfold Sql.insert_clipboard in Hrun.
    destruct (existsb _ _) eqn:E; [done |].
    destruct (Sql.next_rowid _ _) as [new_id |] eqn:Hnext; [| done].
    injection Hrun as <-.
    apply existsb_false_Forall in E. rewrite Forall_forall in E.
    apply next_rowid_fresh in Hnext.
    repeat split; simpl; try done.
    + rewrite fmap_app. apply NoDup_app. split; [done |]. split.
      * intros i Hi Hi'. apply list_elem_of_singleton in Hi'. simpl in Hi'.
        by subst i.
      * apply NoDup_singleton.
    + rewrite fmap_app. apply NoDup_app. split; [done |]. split.
      * intros n (c & -> & Hc)%list_elem_of_fmap Hn.
        apply list_elem_of_singleton in Hn. simpl in Hn.
        specialize (E c Hc). apply String.eqb_neq in E. done.
      * apply NoDup_singleton.
    + eapply Forall_impl; [exact Hfk |].
      intros m Hm. rewrite fmap_app. apply elem_of_app. by left.
  - (* UPDATE clipboards SET name *)
    unfold Sql.update_clipboard_name, Sql.bind_ints in Hrun.
    destruct (forallb _ _); [| done].
    destruct (Sql.has_clipboard cid d && _) eqn:E; [done |].
    injection Hrun as <-.
    assert (Hsame : clipboards.id
                    <$> ((fun c => if clipboards.id c =? cid
                                   then clipboards.Row (clipboards.id c) name
                                          (clipboards.created_at c)
                                   else c) <$> tbl_clipboards d)
                    = clipboards.id <$> tbl_clipboards d).
    { by apply (fmap_if_preserved clipboards.id
                  (fun c => clipboards.id c =? cid)). }
    repeat split; simpl; rewrite ?Hsame; try done.
    apply andb_false_iff in E as [E | E].
    + rewrite (list_fmap_ext _ id (tbl_clipboards d)), list_fmap_id; [done |].
      intros i c Hc. simpl.
      destruct (Z.eqb_spec (clipboards.id c) cid) as [Hc' | _]; [| done].
      assert (Sql.has_clipboard cid d = true); [| congruence].
      apply has_clipboard_elem. rewrite <- Hc'. apply list_elem_of_fmap_2.
      by eapply list_elem_of_lookup_2.
    + apply rename_keeps_names_distinct; [done | done |].
      apply existsb_false_Forall in E. rewrite Forall_forall in E.
      intros c Hc Hne Hn. specialize (E c Hc).
      apply andb_false_iff in E as [E | E].
      * apply negb_false_iff, Z.eqb_eq in E. done.
      * apply String.eqb_neq in E. done.
  - (* DELETE FROM messages WHERE clipboard_id *)
    unfold Sql.delete_messages_of_clipboard, Sql.bind_ints in Hrun.
    destruct (forallb _ _); [| done]. injection Hrun as <-.
    repeat split; simpl; try done.
    + by apply NoDup_fmap_filter.
    + by apply Forall_filtered.
  - (* DELETE FROM clipboards *)
    unfold Sql.delete_clipboard_row, Sql.bind_ints in Hrun.
    destruct (forallb _ _); [| done].
    destruct (Sql.has_clipboard cid d && _) eqn:E; [done |].
    injection Hrun as <-.
    repeat split; simpl; try done; try (by apply NoDup_fmap_filter).
    rewrite Forall_forall in Hfk |- *. intros m Hm.
    specialize (Hfk m Hm).
    apply list_elem_of_fmap in Hfk as (c & Hc & Hin).
    apply list_elem_of_fmap. exists c. split; [done |].
    apply list_elem_of_filter. split; [| done].
    intros Heq. apply andb_false_iff in E as [E | E].
    + assert (Sql.has_clipboard cid d = true); [| congruence].
      apply has_clipboard_elem. rewrite <- Heq. by apply list_elem_of_fmap_2.
    + apply existsb_false_Forall in E. rewrite Forall_forall in E.
      specialize (E m Hm). apply Z.eqb_neq in E. congruence.
  - (* UPDATE messages SET text *)
    unfold Sql.update_message_text, Sql.bind_ints in Hrun.
    destruct (forallb _ _); [| done]. injection Hrun as <-.
    repeat split; simpl; try done.
    + by rewrite (fmap_if_preserved messages.id (fun m => messages.id m =? mid)).
    + by apply Forall_updated_rows.
  - (* INSERT INTO messages *)
    destruct (Sql.insert_message _ _ _ _ _) as [[d1 i] |] eqn:Hins; [| done].
    injection Hrun as ->.
    unfold Sql.insert_message, Sql.bind_ints in Hins.
    destruct (forallb _ _); [| done].
    destruct (Sql.next_rowid _ _) as [new_id |] eqn:Hnext; [| done].
    destruct (Sql.has_clipboard cid d) eqn:Hhas; [| done].
    injection Hins as <- <-.
    apply next_rowid_fresh in Hnext. apply has_clipboard_elem in Hhas.
    repeat split; simpl; try done.
    + rewrite fmap_app. apply NoDup_app. split; [done |]. split.
      * intros i Hi Hi'. apply list_elem_of_singleton in Hi'. simpl in Hi'.
        by subst i.
      * apply NoDup_singleton.
    + apply Forall_app. split; [done |]. by repeat constructor.
  - (* UPDATE messages SET pinned *)
    unfold Sql.update_message_pinned, Sql.bind_ints in Hrun.
    destruct (forallb _ _); [| done]. injection Hrun as <-.
    repeat split; simpl; try done.
    + by rewrite (fmap_if_preserved messages.id (fun m => messages.id m =? mid)).
    + by apply Forall_updated_rows.
  - (* DELETE FROM messages WHERE id *)
    unfold Sql.delete_message_row, Sql.bind_ints in Hrun.
    destruct (forallb _ _); [| done]. injection Hrun as <-.
    repeat split; simpl; try done.
    + by apply NoDup_fmap_filter.
    + by apply Forall_filtered.
  - (* UPDATE messages SET clipboard_id *)
    unfold Sql.update_message_clipboard, Sql.bind_ints in Hrun.
    destruct (forallb _ _); [| done].
    destruct (Sql.has_message mid d && _) eqn:E; [done |].
    injection Hrun as <-.
    repeat split; simpl; try done.
    + by rewrite (fmap_if_preserved messages.id (fun m => messages.id m =? mid)).
    + apply Forall_fmap. rewrite Forall_forall in Hfk |- *.
      intros m Hm. simpl.
      destruct (Z.eqb_spec (messages.id m) mid) as [Hmid | _];
        [| by apply Hfk]. simpl.
      apply andb_false_iff in E as [E | E].
      * assert (Sql.has_message mid d = true); [| congruence].
        rewrite <- Hmid. by apply existsb_has_message.
      * apply negb_false_iff in E. by apply has_clipboard_elem.
Qed.

(** Every reachable store satisfies the constraints of its schema. *)
Lemma reachable_schema_ok API_TOKEN guess_extension w :
  reachable API_TOKEN guess_extension w -> schema_ok (db w).
Proof.
  induction 1 as [now | now w _ IH | now urandom authorization r w _ IH].
  - repeat split; simpl; try apply NoDup_singleton; constructor.
  - destruct (startup_commits now w) as [Hrun _].
    by apply (run_stmt_schema_ok (InsertOrIgnoreMain now) _ _ Hrun).
  - destruct (serve_commits API_TOKEN guess_extension now urandom
                authorization r w) as [-> | Hrun]; [done |].
    eapply (run_stmts_preserve _ (fun _ => True));
      [| exact Hrun | | exact IH].
    + intros s d d' Hs _. by apply (run_stmt_schema_ok s).
    + by apply Forall_forall.
Qed.

(** * Further properties of the handlers *)

(** ** Authentication *)

Lemma prefix_app p : forall s,
  String.prefix p s = true <-> exists t, s = p +:+ t.
Proof.
  induction p as [| a p IH]; intros s; simpl.
  - destruct s; (split; [by eauto | done]).
  - destruct s as [| b s]; simpl.
    + split; [done | by intros (t & ?)].
    + destruct (ascii_dec a b) as [-> | Hne].
      * rewrite IH. split; intros (t & E); exists t.
        -- by rewrite E.
        -- by injection E.
      * split; [done | intros (t & E); by injection E].
Qed.

Lemma prefix_bearer t : String.prefix "Bearer " ("Bearer " +:+ t) = true.
Proof. apply prefix_app. by exists t. Qed.

(** X1. [verify_token] accepts exactly one header value, "Bearer "
    followed by the secret.  A missing header or one that does not start
    with "Bearer " is answered 401 "Missing token"; a bearer token other
    than the secret is answered 403 "Invalid token"; nothing else is ever
    raised. *)
Theorem verify_token_accepts_only_secret API_TOKEN authorization :
  (verify_token API_TOKEN authorization = Return tt
   <-> authorization = Some ("Bearer " +:+ API_TOKEN))
  /\ (verify_token API_TOKEN authorization
      = Raise (HTTPException 401 "Missing token")
      <-> authorization = None
          \/ exists s, authorization = Some s
                       /\ String.prefix "Bearer " s = false)
  /\ (verify_token API_TOKEN authorization
      = Raise (HTTPException 403 "Invalid token")
      <-> exists t, authorization = Some ("Bearer " +:+ t) /\ t <> API_TOKEN).
Proof.
  destruct authorization as [s |]; simpl.
  2: { split; [by split |]. split; [split; [by left | done] |].
       split; [done | by intros (t & ? & _)]. }
  destruct (String.prefix "Bearer " s) eqn:Hp.
  - apply prefix_app in Hp as (t & ->).
    change (Py.split1 " " ("Bearer " +:+ t) !! 1%nat) with (Some t).
    rewrite orb_false_r. simpl negb.
    destruct (String.eqb_spec t API_TOKEN) as [-> | Hne]; simpl.
    + split; [by split |]. split; split; try done.
      * intros [? | (s & [= <-] & Hs)]; [done |].
        by rewrite prefix_bearer in Hs.
      * intros (t & [= E] & Hne). done.
    + split; [split; [done | by intros [= E]] |].
      split; split; try done.
      * intros [? | (s & [= <-] & Hs)]; [done |].
        by rewrite prefix_bearer in Hs.
      * intros _. by exists t.
  - rewrite orb_true_r.
    split; [split; [done |] |]; [| split; split; try done].
    + intros [= ->]. by rewrite prefix_bearer in Hp.
    + intros _. right. by exists s.
    + intros (t & [= ->] & _). by rewrite prefix_bearer in Hp.
Qed.

(** X2. A request to a route of the API router that fails authentication
    is answered with the error of [verify_token] and leaves the database
    and the attachments as they were, whatever the request. *)
Theorem unauthorized_request_changes_nothing API_TOKEN guess_extension now
    urandom authorization r w e :
  verify_token API_TOKEN authorization = Raise e ->
  (forall filename token, r <> GET_file filename token) ->
  serve API_TOKEN guess_extension now urandom authorization r w = (Raise e, w).
Proof.
  intros Hauth Hr.
  destruct r; unfold serve, mbind, io_bind, lift; rewrite ?Hauth; try done.
  by destruct (Hr filename token).
Qed.

Lemma unauthorized_request_changes_nothing_witness :
  verify_token "secret" (Some "Bearer guess")
  = Raise (HTTPException 403 "Invalid token")
  /\ serve "secret" mimetypes_excerpt "t5" 0 (Some "Bearer guess")
       (DELETE_message 1) world_hello
     = (Raise (HTTPException 403 "Invalid token"), world_hello).
Proof.
  assert (H : verify_token "secret" (Some "Bearer guess")
              = Raise (HTTPException 403 "Invalid token")) by reflexivity.
  split; [exact H |].
  apply unauthorized_request_changes_nothing; [exact H | discriminate].
Defined.

(** ** Clipboards *)

Lemma string_compare_trans s1 : forall s2 s3,
  String.compare s1 s2 <> Gt -> String.compare s2 s3 <> Gt ->
  String.compare s1 s3 <> Gt.
Proof.
  induction s1 as [| c1 s1 IH]; intros [| c2 s2] [| c3 s3]; simpl; try done.
  unfold Ascii.compare.
  destruct (N.compare_spec (N_of_ascii c1) (N_of_ascii c2)) as [E12 | L12 | G12];
    destruct (N.compare_spec (N_of_ascii c2) (N_of_ascii c3)) as [E23 | L23 | G23];
    destruct (N.compare_spec (N_of_ascii c1) (N_of_ascii c3)) as [E13 | L13 | G13];
    try done; try (exfalso; lia).
  apply IH.
Qed.

Lemma string_leb_trans s1 s2 s3 :
  String.leb s1 s2 = true -> String.leb s2 s3 = true -> String.leb s1 s3 = true.
Proof.
  unfold String.leb. intros H12 H23.
  pose proof (string_compare_trans s1 s2 s3) as H.
  destruct (String.compare s1 s2); destruct (String.compare s2 s3);
    destruct (String.compare s1 s3); try done; exfalso; by apply H.
Qed.

#[local] Instance name_le_total : Total Sql.name_le.
Proof. intros a b. apply String.leb_total. Qed.

#[local] Instance name_le_trans : Transitive Sql.name_le.
Proof. intros a b c. apply string_leb_trans. Qed.

(** X3. [list_clipboards] returns every clipboard exactly once, in
    ascending bytewise order of the names, whatever the order in which they
    were created; it changes nothing. *)
Theorem list_clipboards_sorted_by_name w :
  exists l,
    list_clipboards w = (Return (JSON_clipboards l), w)
    /\ l ≡ₚ tbl_clipboards (db w)
    /\ (forall i j a b,
           l !! i = Some a -> l !! j = Some b -> (i < j)%nat ->
           String.leb (clipboards.name a) (clipboards.name b) = true).
Proof.
  eexists. split; [reflexivity |].
  split; [apply merge_sort_Permutation |].
  intros i j a b Hi Hj Hij.
  eapply (StronglySorted_lookup Sql.name_le); [| exact Hij | exact Hi | exact Hj].
  apply StronglySorted_merge_sort; apply _.
Qed.

Lemma name_taken_iff name (l : list clipboards.row) :
  existsb (fun c => String.eqb (clipboards.name c) name) l = true
  <-> name ∈ clipboards.name <$> l.
Proof.
  rewrite existsb_exists, list_elem_of_fmap. split.
  - intros (c & Hin & E). apply String.eqb_eq in E.
    exists c. split; [done | by apply list_elem_of_In].
  - intros (c & -> & Hin). exists c.
    split; [by apply list_elem_of_In | apply String.eqb_refl].
Qed.

Lemma foldr_max_lt bound seq (ids : list Z) :
  seq < bound -> Forall (fun i => i < bound) ids -> foldr Z.max seq ids < bound.
Proof. intros Hs. induction 1; simpl; lia. Qed.

(** X4. [create_clipboard] refuses a name that a clipboard already
    carries (the UNIQUE constraint) and changes nothing.  A new name is
    appended as a row created now, under an id that is larger than every
    id in the table and than every id AUTOINCREMENT has handed out
    before; messages and files are untouched. *)
Theorem create_clipboard_unique_name now name w :
  (name ∈ clipboards.name <$> tbl_clipboards (db w) ->
   create_clipboard now name w
   = (Raise (IntegrityError "UNIQUE constraint failed: clipboards.name"), w))
  /\ (name ∉ clipboards.name <$> tbl_clipboards (db w) ->
      seq_clipboards (db w) < 2 ^ 63 - 1 ->
      Forall (fun c => clipboards.id c < 2 ^ 63 - 1) (tbl_clipboards (db w)) ->
      exists new_id w',
        create_clipboard now name w = (Return (JSON_status "created"), w')
        /\ tbl_clipboards (db w')
           = tbl_clipboards (db w) ++ [clipboards.Row new_id name now]
        /\ seq_clipboards (db w) < new_id
        /\ (forall c, c ∈ tbl_clipboards (db w) -> clipboards.id c < new_id)
        /\ seq_clipboards (db w') = new_id
        /\ tbl_messages (db w') = tbl_messages (db w)
        /\ attachments w' = attachments w).
Proof.
  split.
  - intros Hin. apply name_taken_iff in Hin.
    unfold create_clipboard, Sql.insert_clipboard. run_io. by rewrite Hin.
  - intros Hnew Hseq Hids.
    assert (Hfree : existsb (fun c => String.eqb (clipboards.name c) name)
                            (tbl_clipboards (db w)) = false).
    { apply not_true_is_false. by rewrite name_taken_iff. }
    unfold create_clipboard, Sql.insert_clipboard, Sql.next_rowid. run_io.
    rewrite Hfree.
    assert (Htop : foldr Z.max (seq_clipboards (db w))
                     (clipboards.id <$> tbl_clipboards (db w)) < 2 ^ 63 - 1).
    { apply foldr_max_lt; [done |]. by apply Forall_fmap. }
    apply Z.ltb_lt in Htop as Htop'. rewrite Htop'. simpl.
    eexists _, _. split; [reflexivity |]. simpl.
    split; [done |].
    pose proof (foldr_max_ge (seq_clipboards (db w))
                  (clipboards.id <$> tbl_clipboards (db w))).
    split; [lia |]. split; [| done].
    intros c Hc.
    pose proof (foldr_max_ge_elem (seq_clipboards (db w))
                  (clipboards.id <$> tbl_clipboards (db w)) (clipboards.id c)
                  (list_elem_of_fmap_2 _ _ _ Hc)).
    lia.
Qed.

Lemma create_clipboard_unique_name_witness :
  create_clipboard "t5" "work" world_hello
  = (Raise (IntegrityError "UNIQUE constraint failed: clipboards.name"),
     world_hello)
  /\ exists new_id w',
      create_clipboard "t5" "notes" world_hello
      = (Return (JSON_status "created"), w')
      /\ tbl_clipboards (db w')
         = tbl_clipboards (db world_hello) ++ [clipboards.Row new_id "notes" "t5"]
      /\ seq_clipboards (db world_hello) < new_id.
Proof.
  destruct (create_clipboard_unique_name "t5" "work" world_hello) as [Hdup _].
  destruct (create_clipboard_unique_name "t5" "notes" world_hello) as [_ Hnew].
  split.
  - apply Hdup. vm_compute. apply list_elem_of_further, list_elem_of_here.
  - destruct Hnew as (new_id & w' & Hrun & Hrows & Hlt & _).
    + vm_compute. intros Hin.
      apply elem_of_cons in Hin as [Hin | Hin]; [discriminate |].
      apply list_elem_of_singleton in Hin. discriminate.
    + reflexivity.
    + repeat constructor.
    + exists new_id, w'. split; [exact Hrun |]. split; [exact Hrows | exact Hlt].
Defined.

(** X5. [rename_clipboard] of an existing clipboard to a name that no
    other clipboard carries rewrites the name and nothing else: id and
    creation time stay, the other clipboards stay.  A name carried by
    another clipboard is refused (UNIQUE) and nothing changes.  An id that
    no clipboard carries and that fits in 64 bits is answered "renamed"
    all the same, and nothing changes.  An id that does not fit in 64
    bits is refused with the driver's overflow error, and nothing
    changes. *)
Theorem rename_clipboard_cases name w :
  db_wf (db w) ->
  (forall c, c ∈ tbl_clipboards (db w) ->
     (forall c', c' ∈ tbl_clipboards (db w) ->
                 clipboards.id c' <> clipboards.id c ->
                 clipboards.name c' <> name) ->
     exists w',
       rename_clipboard (clipboards.id c) name w
       = (Return (JSON_status "renamed"), w')
       /\ clipboards.Row (clipboards.id c) name (clipboards.created_at c)
          ∈ tbl_clipboards (db w')
       /\ (forall c', clipboards.id c' <> clipboards.id c ->
                      c' ∈ tbl_clipboards (db w') <-> c' ∈ tbl_clipboards (db w))
       /\ clipboards.id <$> tbl_clipboards (db w')
          = clipboards.id <$> tbl_clipboards (db w)
       /\ tbl_messages (db w') = tbl_messages (db w)
       /\ attachments w' = attachments w)
  /\ (forall c c', c ∈ tbl_clipboards (db w) -> c' ∈ tbl_clipboards (db w) ->
        clipboards.id c' <> clipboards.id c ->
        clipboards.name c' = name ->
        rename_clipboard (clipboards.id c) name w
        = (Raise (IntegrityError "UNIQUE constraint failed: clipboards.name"), w))
  /\ (forall clipboard_id,
        Sql.int64 clipboard_id = true ->
        Sql.has_clipboard clipboard_id (db w) = false ->
        rename_clipboard clipboard_id name w = (Return (JSON_status "renamed"), w))
  /\ (forall clipboard_id,
        Sql.int64 clipboard_id = false ->
        rename_clipboard clipboard_id name w
        = (Raise (OverflowError
                    "Python int too large to convert to SQLite INTEGER"), w)).
Proof.
  intros Hwf. split; [| split; [| split]].
  - intros c Hc Hfree.
    pose proof (int64_of_clipboard _ _ Hwf Hc) as H64.
    unfold rename_clipboard, Sql.update_clipboard_name. run_io.
    rewrite bind_ints_1 by done.
    assert (Hno : existsb (fun c0 => negb (clipboards.id c0 =? clipboards.id c)
                                     && String.eqb (clipboards.name c0) name)
                          (tbl_clipboards (db w)) = false).
    { apply not_true_is_false. intros (c0 & Hin & E)%existsb_exists.
      apply andb_true_iff in E as [E1 E2].
      apply negb_true_iff, Z.eqb_neq in E1. apply String.eqb_eq in E2.
      apply (Hfree c0); [by apply list_elem_of_In | done | done]. }
    rewrite Hno, andb_false_r. simpl.
    eexists. split; [reflexivity |]. simpl.
    split; [| split; [| split; [| done]]].
    + apply list_elem_of_fmap. exists c. by rewrite Z.eqb_refl.
    + intros c' Hne. rewrite list_elem_of_fmap. split.
      * intros (c0 & -> & Hin).
        destruct (Z.eqb_spec (clipboards.id c0) (clipboards.id c)) as [E | _];
          [| done].
        simpl in Hne. done.
      * intros Hin. exists c'. apply Z.eqb_neq in Hne. by rewrite Hne.
    + by apply (fmap_if_preserved clipboards.id
                  (fun c0 => clipboards.id c0 =? clipboards.id c)).
  - intros c c' Hc Hc' Hne Hname.
    pose proof (int64_of_clipboard _ _ Hwf Hc) as H64.
    unfold rename_clipboard, Sql.update_clipboard_name. run_io.
    rewrite bind_ints_1 by done.
    rewrite (existsb_has_clipboard _ _ Hc).
    assert (Hyes : existsb (fun c0 => negb (clipboards.id c0 =? clipboards.id c)
                                      && String.eqb (clipboards.name c0) name)
                           (tbl_clipboards (db w)) = true).
    { apply existsb_exists. exists c'. split; [by apply list_elem_of_In |].
      apply andb_true_iff. split.
      - by apply negb_true_iff, Z.eqb_neq.
      - by apply String.eqb_eq. }
    by rewrite Hyes.
  - intros cid H64 Hno.
    unfold rename_clipboard, Sql.update_clipboard_name. run_io.
    rewrite bind_ints_1 by done. rewrite Hno. simpl.
    rewrite (list_fmap_ext _ id (tbl_clipboards (db w))), list_fmap_id.
    + by destruct w as [[] ?].
    + intros i c Hc. simpl.
      destruct (Z.eqb_spec (clipboards.id c) cid) as [E | _]; [| done].
      assert (Sql.has_clipboard cid (db w) = true); [| congruence].
      rewrite <- E. apply existsb_has_clipboard. by eapply list_elem_of_lookup_2.
  - intros cid H64.
    unfold rename_clipboard, Sql.update_clipboard_name, Sql.bind_ints. run_io.
    by rewrite H64.
Qed.

Lemma rename_clipboard_cases_witness :
  db_wf (db world_hello)
  /\ (exists w',
        rename_clipboard 2 "office" world_hello = (Return (JSON_status "renamed"), w')
        /\ clipboards.Row 2 "office" "t1" ∈ tbl_clipboards (db w'))
  /\ rename_clipboard 2 "main" world_hello
     = (Raise (IntegrityError "UNIQUE constraint failed: clipboards.name"),
        world_hello)
  /\ rename_clipboard 7 "office" world_hello
     = (Return (JSON_status "renamed"), world_hello)
  /\ rename_clipboard (2 ^ 63) "office" world_hello
     = (Raise (OverflowError "Python int too large to convert to SQLite INTEGER"),
        world_hello).
Proof.
  assert (Hwf : db_wf (db world_hello)).
  { split; repeat constructor. }
  assert (H1 : clipboards.Row 1 "main" "t0" ∈ tbl_clipboards (db world_hello)).
  { vm_compute. apply list_elem_of_here. }
  assert (H2 : clipboards.Row 2 "work" "t1" ∈ tbl_clipboards (db world_hello)).
  { vm_compute. apply list_elem_of_further, list_elem_of_here. }
  split; [exact Hwf |].
  destruct (rename_clipboard_cases "office" world_hello Hwf)
    as (Hok & _ & Hnone & Hbig).
  destruct (rename_clipboard_cases "main" world_hello Hwf) as (_ & Hdup & _).
  split; [| split; [| split]].
  - destruct (Hok _ H2) as (w' & Hrun & Hrow & _).
    + intros c' Hc'. vm_compute in Hc'.
      apply elem_of_cons in Hc' as [-> | Hc']; [discriminate |].
      apply list_elem_of_singleton in Hc' as ->. discriminate.
    + exists w'. split; [exact Hrun | exact Hrow].
  - apply (Hdup _ _ H2 H1); [discriminate | reflexivity].
  - apply Hnone; reflexivity.
  - apply Hbig; reflexivity.
Defined.

(** ** Messages *)

Lemma find_updated_row (g : messages.row -> messages.row) (l : list messages.row) m :
  (forall r, messages.id (g r) = messages.id r) ->
  NoDup (messages.id <$> l) ->
  m ∈ l ->
  List.find (fun r => messages.id r =? messages.id m) (g <$> l) = Some (g m).
Proof.
  intros Hg. induction l as [| a l IH]; [by intros _ ?%elem_of_nil |].
  intros [Ha Hl]%NoDup_cons Hin. simpl. rewrite Hg.
  apply elem_of_cons in Hin as [-> | Hin].
  - by rewrite Z.eqb_refl.
  - destruct (Z.eqb_spec (messages.id a) (messages.id m)) as [E | _]; [| auto].
    exfalso. apply Ha. rewrite E. by apply list_elem_of_fmap_2.
Qed.

(** X6. [create_message] into a clipboard that does not exist fails and
    changes nothing.  When it returns, the message it returns is text-only
    (no filename, unpinned, both timestamps now, no derived fields), its id
    is larger than every id in the table, the row is appended, no file is
    touched, and every listing that covers the clipboard contains exactly
    the message that was returned. *)
Theorem create_message_then_list now msg w :
  (Sql.has_clipboard (MessageIn.clipboard_id msg) (db w) = false ->
   exists e, create_message now msg w = (Raise e, w))
  /\ (forall m w',
         create_message now msg w = (Return (JSON_message m), w') ->
         m = MessageOut.Make (MessageOut.id m) (MessageIn.text msg) None
               (MessageIn.clipboard_id msg) now now 0 None None
         /\ (forall m0, m0 ∈ tbl_messages (db w) ->
                        messages.id m0 < MessageOut.id m)
         /\ tbl_messages (db w')
            = tbl_messages (db w)
              ++ [messages.Row (MessageOut.id m) (MessageIn.text msg) None
                    (MessageIn.clipboard_id msg) now now 0]
         /\ tbl_clipboards (db w') = tbl_clipboards (db w)
         /\ attachments w' = attachments w
         /\ forall order filter,
             filter = None \/ filter = Some (MessageIn.clipboard_id msg) ->
             exists l,
               list_messages filter order w' = (Return (JSON_messages l), w')
               /\ m ∈ l).
Proof.
  split.
  - intros Hno. unfold create_message, Sql.insert_message, Sql.bind_ints.
    run_io. rewrite Hno.
    destruct (Sql.int64 _); simpl; [| by eauto].
    destruct (Sql.next_rowid _ _); simpl; by eauto.
  - intros m w'. unfold create_message. run_io.
    destruct (Sql.insert_message _ _ _ _ _) as [[conn msg_id] |] eqn:Hins;
      simpl; [| done].
    intros [= <- <-]. simpl. split; [done |].
    pose proof Hins as Hins'.
    apply insert_message_success in Hins' as [H64 Hrows].
    unfold Sql.insert_message, Sql.bind_ints in Hins. simpl in Hins.
    rewrite H64 in Hins. simpl in Hins.
    destruct (Sql.next_rowid _ _) as [new_id |] eqn:Hnext; [| done].
    destruct (Sql.has_clipboard _ _); [| done].
    injection Hins as <- <-. simpl.
    split; [| split; [done | split; [done | split; [done |]]]].
    + intros m0 Hm0. unfold Sql.next_rowid in Hnext.
      destruct (_ <? _); [| done]. injection Hnext as <-.
      pose proof (foldr_max_ge_elem (seq_messages (db w))
                    (messages.id <$> tbl_messages (db w)) (messages.id m0)
                    (list_elem_of_fmap_2 _ _ _ Hm0)).
      lia.
    + intros order filter Hfilter.
      rewrite list_messages_run by (destruct Hfilter as [-> | ->]; eauto).
      eexists. split; [reflexivity |]. simpl.
      apply (list_elem_of_fmap_2' _ _
               (messages.Row new_id (MessageIn.text msg) None
                  (MessageIn.clipboard_id msg) now now 0)); [| done].
      rewrite merge_sort_Permutation.
      destruct Hfilter as [-> | ->].
      * apply elem_of_app. right. apply list_elem_of_here.
      * apply list_elem_of_filter. split; [done |].
        apply elem_of_app. right. apply list_elem_of_here.
Qed.

Lemma create_message_then_list_witness :
  create_message "t5" (MessageIn.Make (Some "note") 9) world_hello
  = (Raise (IntegrityError "FOREIGN KEY constraint failed"), world_hello)
  /\ exists w' l,
      create_message "t5" (MessageIn.Make (Some "note") 2) world_hello
      = (Return (JSON_message
                   (MessageOut.Make 2 (Some "note") None 2 "t5" "t5" 0 None None)),
         w')
      /\ list_messages (Some 2) "asc" w' = (Return (JSON_messages l), w')
      /\ MessageOut.Make 2 (Some "note") None 2 "t5" "t5" 0 None None ∈ l.
Proof.
  split; [reflexivity |].
  destruct (create_message_then_list "t5" (MessageIn.Make (Some "note") 2)
              world_hello) as [_ Hok].
  eexists. 
  destruct (Hok (MessageOut.Make 2 (Some "note") None 2 "t5" "t5" 0 None None)
              _ eq_refl) as (_ & _ & _ & _ & _ & Hlist).
  destruct (Hlist "asc" (Some 2) (or_intror eq_refl)) as (l & Hl & Hin).
  exists l. split; [reflexivity |]. split; [exact Hl | exact Hin].
Defined.

(** X7. [delete_message] removes the rows with the given id and no other
    row; it never touches the attachments directory, so the file of a
    deleted message stays on disk. *)
Theorem delete_message_keeps_file message_id w :
  Sql.int64 message_id = true ->
  exists w',
    delete_message message_id w = (Return (JSON_status "deleted"), w')
    /\ (forall m, m ∈ tbl_messages (db w')
                  <-> m ∈ tbl_messages (db w) /\ messages.id m <> message_id)
    /\ tbl_clipboards (db w') = tbl_clipboards (db w)
    /\ attachments w' = attachments w
    /\ (forall m fn content,
           m ∈ tbl_messages (db w) -> messages.id m = message_id ->
           messages.filename m = Some fn ->
           attachments w !! fn = Some content ->
           (m ∉ tbl_messages (db w')) /\ attachments w' !! fn = Some content).
Proof.
  intros H64. unfold delete_message, Sql.delete_message_row. run_io.
  rewrite bind_ints_1 by done. simpl.
  eexists. split; [reflexivity |]. simpl.
  split; [| split; [done | split; [done |]]].
  - intros m. rewrite list_elem_of_filter. tauto.
  - intros m fn content Hm Hid _ Hfile. split; [| done].
    rewrite list_elem_of_filter. tauto.
Qed.

Lemma delete_message_keeps_file_witness :
  Sql.int64 2 = true
  /\ exists w',
      delete_message 2 world_report = (Return (JSON_status "deleted"), w')
      /\ MessageOut.id <$> (dict_row <$> tbl_messages (db w')) = [1]
      /\ attachments w' !! "0000000000004000800000000000004d_report.pdf"
         = Some [x00; x01]%byte.
Proof.
  split; [reflexivity |].
  destruct (delete_message_keeps_file 2 world_report eq_refl)
    as (w' & Hrun & _ & _ & Hfiles & _).
  exists w'. split; [exact Hrun |].
  assert (E : w' = snd (delete_message 2 world_report)) by (by rewrite Hrun).
  split; [by rewrite E |].
  rewrite Hfiles. reflexivity.
Defined.

(** X8. [update_message] of an existing message (ids being unique)
    overwrites the text, sets [updated_at] to now and keeps every other
    column; it returns that row, always without [file_size] and
    [original_filename], also for a message that has an attachment. *)
Theorem update_message_returns_row now w m text :
  db_wf (db w) ->
  NoDup (messages.id <$> tbl_messages (db w)) ->
  m ∈ tbl_messages (db w) ->
  exists w',
    update_message now (messages.id m) text w
    = (Return (JSON_message
                 (MessageOut.Make (messages.id m) (Some text)
                    (messages.filename m) (messages.clipboard_id m)
                    (messages.created_at m) now (messages.pinned m) None None)),
       w')
    /\ messages.Row (messages.id m) (Some text) (messages.filename m)
         (messages.clipboard_id m) (messages.created_at m) now
         (messages.pinned m) ∈ tbl_messages (db w')
    /\ (forall m', messages.id m' <> messages.id m ->
                   m' ∈ tbl_messages (db w') <-> m' ∈ tbl_messages (db w))
    /\ tbl_clipboards (db w') = tbl_clipboards (db w)
    /\ attachments w' = attachments w.
Proof.
  intros Hwf Hdup Hin.
  pose proof (int64_of_message _ _ Hwf Hin) as H64.
  unfold update_message, Sql.update_message_text, Sql.select_message. run_io.
  rewrite !bind_ints_1 by done. simpl.
  rewrite (find_updated_row
             (fun r => if messages.id r =? messages.id m
                       then messages.Row (messages.id r) (Some text)
                              (messages.filename r) (messages.clipboard_id r)
                              (messages.created_at r) now (messages.pinned r)
                       else r) _ m); [| | done | done].
  2: { intros r. by destruct (messages.id r =? messages.id m). }
  rewrite Z.eqb_refl. simpl.
  eexists. split; [reflexivity |]. simpl.
  split; [| split; [| done]].
  - apply elem_of_updated_rows; [done |]. left. by exists m.
  - intros m' Hne. rewrite elem_of_updated_rows by done. split.
    + intros [(r & _ & E & ->) | [? _]]; [| done]. simpl in Hne. done.
    + intros ?. by right.
Qed.

Lemma update_message_returns_row_witness :
  db_wf (db world_report)
  /\ NoDup (messages.id <$> tbl_messages (db world_report))
  /\ exists w',
      update_message "t9" 2 "final" world_report
      = (Return (JSON_message
                   (MessageOut.Make 2 (Some "final")
                      (Some "0000000000004000800000000000004d_report.pdf") 1
                      "t3" "t9" 0 None None)), w').
Proof.
  assert (Hwf : db_wf (db world_report)).
  { split; repeat constructor. }
  assert (Hdup : NoDup (messages.id <$> tbl_messages (db world_report))).
  { vm_compute. apply (NoDup_ListNoDup [1; 2]). repeat constructor; simpl; lia. }
  split; [exact Hwf |]. split; [exact Hdup |].
  destruct (update_message_returns_row "t9" world_report
              (messages.Row 2 (Some "")
                 (Some "0000000000004000800000000000004d_report.pdf") 1
                 "t3" "t3" 0) "final" Hwf Hdup) as (w' & Hrun & _).
  { vm_compute. apply list_elem_of_further, list_elem_of_here. }
  exists w'. exact Hrun.
Defined.

Lemma filter_no_match mid (l : list messages.row) :
  existsb (fun m => messages.id m =? mid) l = false ->
  filter (fun m => messages.id m <> mid) l = l.
Proof.
  induction l as [| m l IH]; simpl; [done |].
  intros [Hm Hl]%orb_false_elim. apply Z.eqb_neq in Hm.
  rewrite filter_cons_True by done. f_equal. by apply IH.
Qed.

(** X9. For a message id that no message carries, [pin_message],
    [move_message] and [delete_message] leave the world exactly as it
    was.  When the ids of the request fit in 64 bits they answer with
    their success status ([move_message] to any clipboard id, existing or
    not); when the message id, or the clipboard id of [move_message], does
    not fit in 64 bits, they fail with the driver's overflow error. *)
Theorem missing_message_id_is_no_op now w message_id :
  Sql.has_message message_id (db w) = false ->
  (Sql.int64 message_id = true ->
   (forall pinned,
       pin_message now message_id pinned w = (Return (JSON_status "ok"), w))
   /\ (forall clipboard_id,
          Sql.int64 clipboard_id = true ->
          move_message now message_id clipboard_id w
          = (Return (JSON_status "ok"), w))
   /\ delete_message message_id w = (Return (JSON_status "deleted"), w))
  /\ (Sql.int64 message_id = false ->
      (forall pinned,
          pin_message now message_id pinned w
          = (Raise (OverflowError
                      "Python int too large to convert to SQLite INTEGER"), w))
      /\ (forall clipboard_id,
             move_message now message_id clipboard_id w
             = (Raise (OverflowError
                         "Python int too large to convert to SQLite INTEGER"),
                w))
      /\ delete_message message_id w
         = (Raise (OverflowError
                     "Python int too large to convert to SQLite INTEGER"), w))
  /\ (forall clipboard_id,
         Sql.int64 clipboard_id = false ->
         move_message now message_id clipboard_id w
         = (Raise (OverflowError
                     "Python int too large to convert to SQLite INTEGER"), w)).
Proof.
  intros Hno. unfold Sql.has_message in Hno.
  split; [| split].
  - intros H64. split; [| split].
    + intros pinned.
      unfold pin_message, Sql.update_message_pinned, Sql.bind_ints. run_io.
      rewrite H64. replace (Sql.int64 (if pinned then 1 else 0)) with true
        by (by destruct pinned).
      simpl. rewrite fmap_no_match by done. by destruct w as [[] ?].
    + intros cid Hcid.
      unfold move_message, Sql.update_message_clipboard, Sql.bind_ints,
        Sql.has_message. run_io.
      rewrite H64, Hcid, Hno. simpl.
      rewrite fmap_no_match by done. by destruct w as [[] ?].
    + unfold delete_message, Sql.delete_message_row. run_io.
      rewrite bind_ints_1 by done. simpl.
      rewrite filter_no_match by done. by destruct w as [[] ?].
  - intros H64. split; [| split].
    + intros pinned.
      unfold pin_message, Sql.update_message_pinned, Sql.bind_ints. run_io.
      rewrite H64. by rewrite andb_false_r.
    + intros cid.
      unfold move_message, Sql.update_message_clipboard, Sql.bind_ints. run_io.
      rewrite H64. by rewrite andb_false_r.
    + unfold delete_message, Sql.delete_message_row, Sql.bind_ints. run_io.
      by rewrite H64.
  - intros cid Hcid.
    unfold move_message, Sql.update_message_clipboard, Sql.bind_ints. run_io.
    by rewrite Hcid.
Qed.

Lemma missing_message_id_is_no_op_witness :
  Sql.has_message 42 (db world_hello) = false
  /\ pin_message "t5" 42 true world_hello = (Return (JSON_status "ok"), world_hello)
  /\ move_message "t5" 42 99 world_hello = (Return (JSON_status "ok"), world_hello)
  /\ delete_message 42 world_hello = (Return (JSON_status "deleted"), world_hello)
  /\ move_message "t5" 42 (2 ^ 63) world_hello
     = (Raise (OverflowError "Python int too large to convert to SQLite INTEGER"),
        world_hello).
Proof.
  split; [reflexivity |].
  destruct (missing_message_id_is_no_op "t5" world_hello 42 eq_refl)
    as (Hin & _ & Hbig).
  destruct (Hin eq_refl) as (Hpin & Hmove & Hdel).
  split; [apply Hpin |]. split; [by apply Hmove |].
  split; [exact Hdel | by apply Hbig].
Defined.

(** ** Ordering and derived fields of a listing *)

#[local] Instance order_le_trans o : Transitive (Sql.order_le o).
Proof.
  intros a b c. unfold Sql.order_le, Sql.order_leb.
  rewrite !orb_true_iff, !andb_true_iff, !Z.ltb_lt, !Z.eqb_eq.
  intros [Hab | [Hab Sab]] [Hbc | [Hbc Sbc]]; try (left; lia).
  right. split; [lia |].
  destruct o; simpl in *; eauto using string_leb_trans.
Qed.

(** X10. Among the messages of a listing that have the same [pinned]
    value, the earlier item is the one with the later-or-equal
    [updated_at] for order "activity", the one with the earlier-or-equal
    [created_at] for "asc" and "oldest", and the one with the
    later-or-equal [created_at] for every other order string. *)
Theorem list_messages_secondary_order clipboard_id order w :
  (clipboard_id = None
   \/ exists c, clipboard_id = Some c /\ Sql.int64 c = true) ->
  exists l,
    list_messages clipboard_id order w = (Return (JSON_messages l), w)
    /\ forall i j mi mj,
        l !! i = Some mi -> l !! j = Some mj -> (i < j)%nat ->
        MessageOut.pinned mi = MessageOut.pinned mj ->
        (order = "activity" ->
         String.leb (MessageOut.updated_at mj) (MessageOut.updated_at mi) = true)
        /\ (order = "asc" \/ order = "oldest" ->
            String.leb (MessageOut.created_at mi) (MessageOut.created_at mj) = true)
        /\ (order <> "activity" -> order <> "asc" -> order <> "oldest" ->
            String.leb (MessageOut.created_at mj) (MessageOut.created_at mi) = true).
Proof.
  intros Hfilter. rewrite list_messages_run by done.
  eexists. split; [reflexivity |].
  intros i j mi mj Hi Hj Hij Hpin.
  rewrite list_lookup_fmap in Hi, Hj.
  apply fmap_Some in Hi as (a & Hi & ->).
  apply fmap_Some in Hj as (b & Hj & ->).
  simpl in *.
  assert (Hle : Sql.order_le (ordering_of order) a b).
  { eapply (StronglySorted_lookup (Sql.order_le (ordering_of order)));
      [| exact Hij | exact Hi | exact Hj].
    apply StronglySorted_merge_sort; apply _. }
  unfold Sql.order_le, Sql.order_leb in Hle.
  rewrite Hpin, Z.ltb_irrefl, Z.eqb_refl in Hle. simpl in Hle.
  unfold ordering_of in Hle.
  split; [| split].
  - intros ->. done.
  - intros [-> | ->]; done.
  - intros H1 H2 H3.
    apply String.eqb_neq in H1, H2, H3. by rewrite H1, H2, H3 in Hle.
Qed.

Lemma list_messages_secondary_order_witness :
  (@None Z = None \/ exists c, @None Z = Some c /\ Sql.int64 c = true)
  /\ exists l,
      list_messages None "recent" world_report
      = (Return (JSON_messages l), world_report)
      /\ MessageOut.created_at <$> l = ["t3"; "t2"].
Proof.
  split; [by left |].
  destruct (list_messages_secondary_order None "recent" world_report
              (or_introl eq_refl)) as (l & Hl & _).
  exists l. split; [exact Hl |].
  pose proof (eq_trans (eq_sym Hl)
                (list_messages_run None "recent" world_report (or_introl eq_refl)))
    as E.
  rewrite (JSON_messages_inj _ _ _ _ E). vm_compute. reflexivity.
Defined.

(** ** Stored names and display names *)

Lemma occurs_app c a b :
  Py.occurs c (a +:+ b) = Py.occurs c a || Py.occurs c b.
Proof.
  induction a as [| x a IH]; simpl; [done |]. by rewrite IH, orb_assoc.
Qed.

Lemma truthy_upload_filename unique_id original_name :
  Py.truthy (Some (upload_filename unique_id original_name)) = true.
Proof. unfold upload_filename. by destruct unique_id. Qed.

Lemma original_filename_of_upload urandom original_name :
  original_filename_of
    (Some (upload_filename (Py.uuid4_hex urandom) original_name))
  = Some original_name.
Proof.
  unfold original_filename_of. rewrite truthy_upload_filename.
  unfold Py.split1, upload_filename.
  change ("_" +:+ original_name) with (String "_" original_name).
  by rewrite split_first_at_separator by apply uuid4_hex_no_underscore.
Qed.

(** X11. Whatever the declared name of a multipart upload (underscores
    and directories included), when [create_message_file] returns, the
    message it returns carries the stored name "{token}_{bare name}", the
    bare name as [original_filename] and the length of the content as
    [file_size]; the content is on disk under the stored name; and every
    listing that covers the clipboard contains exactly that message, the
    display name being recovered from the stored name. *)
Theorem upload_round_trip now urandom content text clipboard_id x_filename
    file_filename name w m w' :
  (if Py.truthy x_filename then x_filename else file_filename) = Some name ->
  create_message_file now urandom file_filename content text clipboard_id
    x_filename w
  = (Return (JSON_message m), w') ->
  MessageOut.filename m
  = Some (Py.uuid4_hex urandom +:+ "_" +:+ Py.basename name)
  /\ MessageOut.original_filename m = Some (Py.basename name)
  /\ MessageOut.file_size m = Some (Z.of_nat (length content))
  /\ attachments w' !! (Py.uuid4_hex urandom +:+ "_" +:+ Py.basename name)
     = Some content
  /\ forall order filter,
      filter = None \/ filter = Some clipboard_id ->
      exists l,
        list_messages filter order w' = (Return (JSON_messages l), w')
        /\ m ∈ l.
Proof.
  intros Hsel.
  unfold create_message_file, upload_original_name. rewrite Hsel.
  step_io. unfold write_file.
  destruct (open_error _ _) as [eo |]; simpl; [done |].
  destruct (Sql.insert_message _ _ _ _ _) as [[conn msg_id] | e] eqn:Hins;
    simpl; [| done].
  unfold getsize. simpl. rewrite lookup_insert_eq. simpl.
  intros [= <- <-]. simpl.
  split; [done |]. split; [done |]. split; [done |].
  split; [by rewrite lookup_insert_eq |].
  apply insert_message_success in Hins as [H64 Hrows].
  intros order filter Hfilter.
  rewrite list_messages_run by (destruct Hfilter as [-> | ->]; eauto).
  eexists. split; [reflexivity |]. simpl.
  eapply (list_elem_of_fmap_2' _ _
            (messages.Row msg_id _ _ clipboard_id now now 0)).
  - rewrite merge_sort_Permutation, Hrows.
    destruct Hfilter as [-> | ->].
    + apply elem_of_app. right. apply list_elem_of_here.
    + apply list_elem_of_filter. split; [done |].
      apply elem_of_app. right. apply list_elem_of_here.
  - unfold list_item, file_size_of.
    cbn [messages.id messages.text messages.filename messages.clipboard_id
         messages.created_at messages.updated_at messages.pinned attachments].
    rewrite original_filename_of_upload, truthy_upload_filename.
    unfold upload_filename. by rewrite lookup_insert_eq.
Qed.

Lemma upload_round_trip_witness :
  exists m w',
    create_message_file "t5" 9 (Some "C:/tmp/my_notes_v2.txt") [x41; x42; x43]%byte
      (Some "draft") 2 None world_hello
    = (Return (JSON_message m), w')
    /\ MessageOut.original_filename m = Some "my_notes_v2.txt"
    /\ MessageOut.file_size m = Some 3
    /\ exists l,
        list_messages (Some 2) "desc" w' = (Return (JSON_messages l), w')
        /\ m ∈ l.
Proof.
  exists (MessageOut.Make 2 (Some "draft")
            (Some "00000000000040008000000000000009_my_notes_v2.txt") 2
            "t5" "t5" 0 (Some 3) (Some "my_notes_v2.txt")),
    (snd (create_message_file "t5" 9 (Some "C:/tmp/my_notes_v2.txt")
            [x41; x42; x43]%byte (Some "draft") 2 None world_hello)).
  split; [reflexivity |].
  destruct (upload_round_trip "t5" 9 [x41; x42; x43]%byte (Some "draft") 2 None
              (Some "C:/tmp/my_notes_v2.txt") "C:/tmp/my_notes_v2.txt"
              world_hello _ _ eq_refl eq_refl) as (_ & Ho & Hs & _ & Hlist).
  split; [exact Ho |]. split; [exact Hs |].
  exact (Hlist "desc" (Some 2) (or_intror eq_refl)).
Defined.

Lemma take_drop n : forall p, Py.take n p +:+ Py.drop n p = p.
Proof.
  induction n as [| n IH]; intros [| a p]; simpl; try done.
  change (String a (Py.take n p +:+ Py.drop n p) = String a p).
  by rewrite IH.
Qed.

Lemma splitext_concat p :
  fst (Py.splitext p) +:+ snd (Py.splitext p) = p.
Proof.
  unfold Py.splitext. destruct (_ && _); simpl.
  - apply take_drop.
  - induction p as [| a p IH]; [done |].
    change (String a (p +:+ "") = String a p). by rewrite IH.
Qed.

(** X12. The stored name chosen for a raw-body upload.  Without an
    [X-Filename] header (or with an empty one) it is the token followed by
    the extension looked up from the content type.  With a name that has
    an extension it is "{token}_{bare name}" and the content type plays no
    part.  In both cases with a name, the display name derived from the
    stored name is what follows the token: the bare name's base and the
    extension in use. *)
Theorem direct_filename_cases guess_extension urandom content_type :
  (forall x_filename,
      Py.truthy x_filename = false ->
      direct_filename guess_extension (Py.uuid4_hex urandom) x_filename
        content_type
      = Py.uuid4_hex urandom +:+ guessed_ext guess_extension content_type)
  /\ (forall name,
         name <> "" ->
         snd (Py.splitext (Py.basename name)) <> "" ->
         direct_filename guess_extension (Py.uuid4_hex urandom) (Some name)
           content_type
         = Py.uuid4_hex urandom +:+ "_" +:+ Py.basename name)
  /\ (forall name,
         name <> "" ->
         exists shown,
           direct_filename guess_extension (Py.uuid4_hex urandom) (Some name)
             content_type
           = Py.uuid4_hex urandom +:+ "_" +:+ shown
           /\ original_filename_of
                (Some (direct_filename guess_extension (Py.uuid4_hex urandom)
                         (Some name) content_type))
              = Some shown
           /\ (snd (Py.splitext (Py.basename name)) <> "" ->
               shown = Py.basename name)
           /\ (snd (Py.splitext (Py.basename name)) = "" ->
               shown = Py.basename name
                       +:+ guessed_ext guess_extension content_type)).
Proof.
  split; [| split].
  - intros xf Hxf. unfold direct_filename. by rewrite Hxf.
  - intros name Hname Hext. unfold direct_filename.
    rewrite truthy_Some by done.
    change (default "" (Some name)) with name.
    pose proof (splitext_concat (Py.basename name)) as Hcat.
    destruct (Py.splitext (Py.basename name)) as [base ext].
    simpl in Hext, Hcat. rewrite truthy_Some by done. simpl negb. cbv iota.
    by rewrite Hcat.
  - intros name Hname. unfold direct_filename.
    rewrite truthy_Some by done.
    change (default "" (Some name)) with name.
    pose proof (splitext_concat (Py.basename name)) as Hcat.
    pose proof (splitext_no_ext (Py.basename name)) as Hno.
    destruct (Py.splitext (Py.basename name)) as [base ext].
    simpl in Hcat, Hno.
    eexists. split; [reflexivity |]. split.
    + apply (original_filename_of_upload urandom).
    + split.
      * intros Hext. simpl in Hext. rewrite truthy_Some by done.
        simpl negb. cbv iota. exact Hcat.
      * intros Hext. simpl in Hext. subst ext. simpl.
        by rewrite (Hno eq_refl).
Qed.

(** X13. A raw-body upload with an empty body is refused with 400 "Empty
    file body" and changes nothing.  With a non-empty body, when no file
    of the chosen name can be created (a NUL byte, a "/", or more than 255
    bytes) the handler ends in the [OSError] or [ValueError] of [open] and
    changes nothing.  When the name can be created, the target clipboard
    exists and a rowid is left, the handler ends in [NameError], yet by
    then the file has been written under the chosen name and the message
    row (empty text, that filename, unpinned, created now) has been
    committed. *)
Theorem raw_body_upload_is_stored guess_extension now urandom body headers w c :
  (create_message_file_direct guess_extension now urandom (clipboards.id c) []
     headers w
   = (Raise (HTTPException 400 "Empty file body"), w))
  /\ (body <> [] ->
      writable (direct_filename guess_extension (Py.uuid4_hex urandom)
                  (headers !! "x-filename")
                  (default "" (headers !! "content-type"))) = false ->
      exists e msg,
        (e = OSError msg \/ e = ValueError msg)
        /\ create_message_file_direct guess_extension now urandom
             (clipboards.id c) body headers w
           = (Raise e, w))
  /\ (body <> [] ->
      writable (direct_filename guess_extension (Py.uuid4_hex urandom)
                  (headers !! "x-filename")
                  (default "" (headers !! "content-type"))) = true ->
      db_wf (db w) ->
      c ∈ tbl_clipboards (db w) ->
      seq_messages (db w) < 2 ^ 63 - 1 ->
      Forall (fun m => messages.id m < 2 ^ 63 - 1) (tbl_messages (db w)) ->
      exists new_id w',
        create_message_file_direct guess_extension now urandom (clipboards.id c)
          body headers w
        = (Raise (NameError "name 'text' is not defined"), w')
        /\ tbl_messages (db w')
           = tbl_messages (db w)
             ++ [messages.Row new_id (Some "")
                   (Some (direct_filename guess_extension (Py.uuid4_hex urandom)
                            (headers !! "x-filename")
                            (default "" (headers !! "content-type"))))
                   (clipboards.id c) now now 0]
        /\ (forall m, m ∈ tbl_messages (db w) -> messages.id m < new_id)
        /\ attachments w'
           = <[direct_filename guess_extension (Py.uuid4_hex urandom)
                 (headers !! "x-filename")
                 (default "" (headers !! "content-type")) := body]>
               (attachments w)).
Proof.
  split; [done |]. split.
  { intros Hbody Hbad.
    destruct (open_error_not_writable (attachments w) _ Hbad)
      as (e & msg & Hkind & Hopen).
    exists e, msg. split; [exact Hkind |].
    unfold create_message_file_direct. step_io.
    case_bool_decide; [done |].
    unfold write_file. by rewrite Hopen. }
  intros Hbody Hok Hwf Hc Hseq Hids.
  pose proof (int64_of_clipboard _ _ Hwf Hc) as H64.
  pose proof (existsb_has_clipboard _ _ Hc) as Hhas.
  unfold create_message_file_direct. step_io.
  case_bool_decide; [done |].
  unfold write_file. rewrite (open_error_writable _ _ Hok).
  unfold Sql.insert_message, Sql.next_rowid. simpl.
  rewrite bind_ints_1 by done.
  assert (Htop : foldr Z.max (seq_messages (db w))
                   (messages.id <$> tbl_messages (db w)) < 2 ^ 63 - 1).
  { apply foldr_max_lt; [done |]. by apply Forall_fmap. }
  apply Z.ltb_lt in Htop as Htop'. rewrite Htop'.
  unfold Sql.has_clipboard in *. simpl. rewrite Hhas. simpl.
  assert (Hload : forall w0,
             load_name
               ([("clipboard_id", PyInt (clipboards.id c));
                 ("request", PyObject "request"); ("content", PyBytes body);
                 ("now", PyStr now);
                 ("content_type", PyStr (default "" (headers !! "content-type")));
                 ("content_disposition",
                  PyStr (default "" (headers !! "content-disposition")));
                 ("original_filename",
                  PyStr (if Py.truthy (headers !! "x-filename")
                         then default "" (headers !! "x-filename")
                         else direct_filename guess_extension
                                (Py.uuid4_hex urandom) (headers !! "x-filename")
                                (default "" (headers !! "content-type"))));
                 ("filename",
                  PyStr (direct_filename guess_extension (Py.uuid4_hex urandom)
                           (headers !! "x-filename")
                           (default "" (headers !! "content-type"))));
                 ("save_path", PyObject "save_path"); ("f", PyObject "f");
                 ("conn", PyObject "conn"); ("cur", PyObject "cur");
                 ("msg_id",
                  PyInt (foldr Z.max (seq_messages (db w))
                           (messages.id <$> tbl_messages (db w)) + 1));
                 ("ext", PyObject "ext")]
                ++ (if Py.truthy (headers !! "x-filename")
                    then [("safe_name", PyObject "safe_name");
                          ("base", PyObject "base")]
                    else [])) "text" w0
             = (Raise (NameError "name 'text' is not defined"), w0)).
  { intros w0. unfold load_name.
    by destruct (Py.truthy (headers !! "x-filename")). }
  rewrite Hload.
  eexists _, _. split; [reflexivity |]. simpl.
  split; [reflexivity |]. split; [| reflexivity].
  intros m Hm.
  pose proof (foldr_max_ge_elem (seq_messages (db w))
                (messages.id <$> tbl_messages (db w)) (messages.id m)
                (list_elem_of_fmap_2 _ _ _ Hm)).
  lia.
Qed.

Lemma raw_body_upload_is_stored_witness :
  exists new_id w',
    create_message_file_direct mimetypes_excerpt "t5" 9 2 [x41]%byte
      {[ "x-filename" := "scan.tar.gz"; "content-type" := "image/png" ]}
      world_hello
    = (Raise (NameError "name 'text' is not defined"), w')
    /\ tbl_messages (db w')
       = tbl_messages (db world_hello)
         ++ [messages.Row new_id (Some "")
               (Some "00000000000040008000000000000009_scan.tar.gz") 2
               "t5" "t5" 0].
Proof.
  destruct (raw_body_upload_is_stored mimetypes_excerpt "t5" 9 [x41]%byte
              {[ "x-filename" := "scan.tar.gz"; "content-type" := "image/png" ]}
              world_hello (clipboards.Row 2 "work" "t1")) as (_ & _ & Hok).
  destruct Hok as (new_id & w' & Hrun & Hrows & _).
  - discriminate.
  - vm_compute. reflexivity.
  - split; repeat constructor.
  - vm_compute. apply list_elem_of_further, list_elem_of_here.
  - reflexivity.
  - repeat constructor.
  - exists new_id, w'. split; [exact Hrun | exact Hrows].
Defined.

Lemma rfind_from_last c s : forall i last,
  (Py.rfind_from c s i last = last /\ Py.occurs c s = false)
  \/ (i <= Py.rfind_from c s i last
      /\ Py.occurs c (Py.drop (Z.to_nat (Py.rfind_from c s i last - i + 1)) s)
         = false).
Proof.
  induction s as [| a s IH]; intros i last; simpl; [by left |].
  destruct (IH (i + 1) (if Ascii.eqb a c then i else last))
    as [[-> Hno] | (Hle & Hno)].
  - destruct (Ascii.eqb a c) eqn:E.
    + right. split; [lia |].
      replace (Z.to_nat (i - i + 1)) with 1%nat by lia. done.
    + left. by rewrite Hno.
  - right. split; [lia |].
    set (r := Py.rfind_from c s (i + 1) _) in *.
    replace (Z.to_nat (r - i + 1)) with (S (Z.to_nat (r - (i + 1) + 1))) by lia.
    done.
Qed.

Lemma basename_no_slash p : Py.occurs "/" (Py.basename p) = false.
Proof.
  unfold Py.basename, Py.rfind.
  destruct (rfind_from_last "/" p 0 (-1)) as [[-> Hno] | (_ & Hno)]; [done |].
  by rewrite Z.sub_0_r in Hno.
Qed.

Lemma hex_digit_not_slash d : Ascii.eqb (Py.hex_digit d) "/" = false.
Proof.
  unfold Py.hex_digit.
  repeat match goal with
         | |- context [match ?x with _ => _ end] => destruct x
         end; reflexivity.
Qed.

Lemma hex_digits_no_slash k : forall n acc,
  Py.occurs "/" (Py.hex_digits k n acc) = Py.occurs "/" acc.
Proof.
  induction k as [| k IH]; intros n acc; simpl; [done |].
  rewrite IH. simpl. by rewrite hex_digit_not_slash.
Qed.

(** X14. The name under which a multipart upload is written contains no
    "/", whatever directories the declared name carries, so the file is
    created directly inside the attachments directory.  When a file of
    that name can be created (no NUL byte, at most 255 bytes), that one
    file is the only change the handler makes to the directory; when it
    cannot, the handler ends in the [OSError] or [ValueError] of [open]
    and changes nothing. *)
Theorem upload_stays_in_attachments now urandom content text clipboard_id
    x_filename file_filename name w :
  (if Py.truthy x_filename then x_filename else file_filename) = Some name ->
  Py.occurs "/" (Py.uuid4_hex urandom +:+ "_" +:+ Py.basename name) = false
  /\ (writable (Py.uuid4_hex urandom +:+ "_" +:+ Py.basename name) = true ->
      attachments
        (snd (create_message_file now urandom file_filename content text
                clipboard_id x_filename w))
      = <[Py.uuid4_hex urandom +:+ "_" +:+ Py.basename name := content]>
          (attachments w))
  /\ (writable (Py.uuid4_hex urandom +:+ "_" +:+ Py.basename name) = false ->
      exists e msg,
        (e = OSError msg \/ e = ValueError msg)
        /\ create_message_file now urandom file_filename content text
             clipboard_id x_filename w
           = (Raise e, w)).
Proof.
  intros Hsel. split.
  { rewrite !occurs_app. unfold Py.uuid4_hex.
    by rewrite hex_digits_no_slash, basename_no_slash. }
  unfold create_message_file, upload_original_name. rewrite Hsel.
  step_io. unfold write_file, upload_filename. split.
  - intros Hok. rewrite (open_error_writable _ _ Hok). simpl.
    destruct (Sql.insert_message _ _ _ _ _) as [[conn msg_id] | e]; simpl;
      [| done].
    unfold getsize. simpl. by rewrite lookup_insert_eq.
  - intros Hbad.
    destruct (open_error_not_writable (attachments w) _ Hbad)
      as (e & msg & Hkind & ->).
    by exists e, msg.
Qed.

Lemma upload_stays_in_attachments_witness :
  Py.uuid4_hex 9 +:+ "_" +:+ Py.basename "../../etc/passwd"
  = "00000000000040008000000000000009_passwd"
  /\ Py.occurs "/" (Py.uuid4_hex 9 +:+ "_" +:+ Py.basename "../../etc/passwd")
     = false
  /\ attachments
       (snd (create_message_file "t5" 9 None [x41]%byte None 1
               (Some "../../etc/passwd") world_hello))
     = <[Py.uuid4_hex 9 +:+ "_" +:+ Py.basename "../../etc/passwd" := [x41]%byte]>
         (attachments world_hello).
Proof.
  destruct (upload_stays_in_attachments "t5" 9 [x41]%byte None 1
              (Some "../../etc/passwd") None "../../etc/passwd" world_hello
              eq_refl) as (Hname & Hok & _).
  split; [reflexivity |]. split; [exact Hname |].
  apply Hok. vm_compute. reflexivity.
Defined.

(** ** What requests never do *)

Lemma serve_attachments API_TOKEN guess_extension now urandom authorization r w :
  attachments (snd (serve API_TOKEN guess_extension now urandom authorization r w))
  = attachments w
  \/ (is_upload r = true
      /\ exists fn content,
          attachments (snd (serve API_TOKEN guess_extension now urandom
                              authorization r w))
          = <[fn := content]> (attachments w)).
Proof.
  destruct r; unfold serve; run_io;
    (destruct (verify_token API_TOKEN authorization); simpl; [| by left]) || idtac.
  - by left.
  - unfold create_clipboard. run_io.
    destruct (Sql.insert_clipboard _ _ _); simpl; auto.
  - unfold rename_clipboard. run_io.
    destruct (Sql.update_clipboard_name _ _ _); simpl; auto.
  - unfold delete_clipboard.
    destruct (clipboard_id =? 1); run_io; [by left |].
    destruct (Sql.delete_messages_of_clipboard _ _); simpl; [| by left].
    destruct (Sql.delete_clipboard_row _ _); simpl; auto.
  - unfold update_message. run_io.
    destruct (Sql.update_message_text _ _ _ _) as [d' |]; simpl; [| by left].
    left. destruct (Sql.select_message _ _) as [[r |] |]; done.
  - unfold list_messages. run_io.
    destruct (Sql.select_messages _ _ _); simpl; auto.
  - unfold create_message. run_io.
    destruct (Sql.insert_message _ _ _ _ _) as [[d' i] |]; simpl; auto.
  - unfold pin_message. run_io.
    destruct (Sql.update_message_pinned _ _ _ _); simpl; auto.
  - unfold delete_message. run_io.
    destruct (Sql.delete_message_row _ _); simpl; auto.
  - unfold move_message. run_io.
    destruct (Sql.update_message_clipboard _ _ _ _); simpl; auto.
  - unfold create_message_file. step_io.
    destruct (upload_original_name _ _); cbv beta iota zeta; [| by left].
    unfold write_file.
    destruct (open_error _ _) as [eo |]; simpl; [by left |].
    right. split; [done |]. eexists _, _.
    destruct (Sql.insert_message _ _ _ _ _) as [[d' i] |]; simpl; [| done].
    unfold getsize. simpl. by rewrite lookup_insert_eq.
  - unfold create_message_file_direct. step_io.
    case_bool_decide; [by left |].
    unfold write_file.
    destruct (open_error _ _) as [eo |]; simpl; [by left |].
    right. split; [done |]. eexists _, _.
    destruct (Sql.insert_message _ _ _ _ _) as [[d' i] |]; simpl; [| done].
    destruct (load_name _ _ _) as [o w'] eqn:E.
    apply (f_equal snd) in E. rewrite load_name_world in E. simpl in E.
    subst w'. by destruct o.
  - left. by rewrite get_file_world.
Qed.

(** X15. No request ever removes a file from the attachments directory:
    a file that exists before a request exists after it.  Only the two
    upload routes change the directory at all, and what they do is write
    one file; every other request (deleting a message or a clipboard
    included) leaves the directory exactly as it was. *)
Theorem requests_never_delete_files API_TOKEN guess_extension now urandom
    authorization r w :
  (forall f,
      is_Some (attachments w !! f) ->
      is_Some (attachments
                 (snd (serve API_TOKEN guess_extension now urandom
                         authorization r w)) !! f))
  /\ (is_upload r = false ->
      attachments (snd (serve API_TOKEN guess_extension now urandom
                          authorization r w))
      = attachments w)
  /\ (is_upload r = true ->
      attachments (snd (serve API_TOKEN guess_extension now urandom
                          authorization r w))
      = attachments w
      \/ exists fn content,
          attachments (snd (serve API_TOKEN guess_extension now urandom
                              authorization r w))
          = <[fn := content]> (attachments w)).
Proof.
  destruct (serve_attachments API_TOKEN guess_extension now urandom
              authorization r w) as [E | (Hup & fn & content & E)].
  - split; [| split].
    + intros f Hf. by rewrite E.
    + done.
    + by left.
  - split; [| split].
    + intros f Hf. rewrite E.
      destruct (decide (fn = f)) as [-> | Hne].
      * rewrite lookup_insert_eq. by eexists.
      * by rewrite lookup_insert_ne.
    + intros Hno. congruence.
    + intros _. right. by exists fn, content.
Qed.

Lemma bind_ints_error {A} params (k : outcome A) e :
  (forall e', k = Raise e' -> sql_error e') ->
  Sql.bind_ints params k = Raise e -> sql_error e.
Proof.
  unfold Sql.bind_ints. intros Hk.
  destruct (forallb _ _); [apply Hk | by intros [= <-]].
Qed.

Lemma next_rowid_error seq ids e :
  Sql.next_rowid seq ids = Raise e -> sql_error e.
Proof. unfold Sql.next_rowid. destruct (_ <? _); [done | by intros [= <-]]. Qed.

Lemma insert_message_error text filename cid now d e :
  Sql.insert_message text filename cid now d = Raise e -> sql_error e.
Proof.
  unfold Sql.insert_message. apply bind_ints_error. intros e'.
  destruct (Sql.next_rowid _ _) eqn:H; [| apply next_rowid_error in H].
  - destruct (Sql.has_clipboard _ _); [done | by intros [= <-]].
  - by intros [= <-].
Qed.

Lemma run_stmt_error s d e : run_stmt s d = Raise e -> sql_error e.
Proof.
  destruct s; simpl.
  7: { destruct (Sql.insert_message _ _ _ _ _) as [[] |] eqn:H; [done |].
       intros [= <-]. by eapply insert_message_error. }
  all: unfold Sql.insert_or_ignore_main, Sql.insert_clipboard,
      Sql.update_clipboard_name, Sql.delete_messages_of_clipboard,
      Sql.delete_clipboard_row, Sql.update_message_text,
      Sql.update_message_pinned, Sql.delete_message_row,
      Sql.update_message_clipboard;
    try (apply bind_ints_error; intros e');
    repeat match goal with
           | |- context [match Sql.next_rowid ?a ?b with _ => _ end] =>
               let H := fresh in
               destruct (Sql.next_rowid a b) eqn:H;
               [| apply next_rowid_error in H]
           | |- context [if ?b then _ else _] => destruct b
           end;
    try done; intros [= ?]; subst; simpl; auto.
Qed.

(** X16. How a failed request leaves the system.  When a request is
    answered with an [HTTPException] (authentication failure, the guard of
    clipboard 1, an empty upload body, a file that is not there), nothing
    at all has changed.  When it fails with an error of the store (a
    constraint violation, an id out of range, no rowid left), the database
    is as it was: no statement of the request has been committed. *)
Theorem errors_leave_store API_TOKEN guess_extension now urandom authorization
    r w e :
  fst (serve API_TOKEN guess_extension now urandom authorization r w) = Raise e ->
  (forall status_code detail,
      e = HTTPException status_code detail ->
      snd (serve API_TOKEN guess_extension now urandom authorization r w) = w)
  /\ (sql_error e ->
      db (snd (serve API_TOKEN guess_extension now urandom authorization r w))
      = db w).
Proof.
  assert (Hauth : forall e0, verify_token API_TOKEN authorization = Raise e0 ->
                             ~ sql_error e0).
  { intros e0. unfold verify_token.
    repeat case_match; intros [= <-]; simpl; tauto. }
  destruct r; unfold serve; run_io;
    try (destruct (verify_token API_TOKEN authorization) as [[] | e0] eqn:Hv;
         simpl;
         [| intros [= <-]; split;
            [intros; reflexivity | intros He; exfalso; exact (Hauth _ eq_refl He)]]).
  - unfold list_clipboards. run_io. done.
  - unfold create_clipboard. run_io.
    destruct (Sql.insert_clipboard _ _ _); simpl; [done | by intros [= <-]].
  - unfold rename_clipboard. run_io.
    destruct (Sql.update_clipboard_name _ _ _); simpl; [done | by intros [= <-]].
  - unfold delete_clipboard.
    destruct (clipboard_id =? 1); run_io; [by intros [= <-] |].
    destruct (Sql.delete_messages_of_clipboard _ _); simpl;
      [| by intros [= <-]].
    destruct (Sql.delete_clipboard_row _ _); simpl; [done | by intros [= <-]].
  - unfold update_message. run_io.
    destruct (Sql.update_message_text _ _ _ _) as [d' |] eqn:Hu; simpl;
      [| by intros [= <-]].
    unfold Sql.update_message_text, Sql.select_message, Sql.bind_ints in *.
    destruct (forallb _ _); [| done]. simpl.
    destruct (List.find _ _); simpl; [done |].
    intros [= <-]. split; [done | by intros []].
  - unfold list_messages. run_io.
    destruct (Sql.select_messages _ _ _); simpl; [done | by intros [= <-]].
  - unfold create_message. run_io.
    destruct (Sql.insert_message _ _ _ _ _) as [[d' i] |]; simpl;
      [done | by intros [= <-]].
  - unfold pin_message. run_io.
    destruct (Sql.update_message_pinned _ _ _ _); simpl;
      [done | by intros [= <-]].
  - unfold delete_message. run_io.
    destruct (Sql.delete_message_row _ _); simpl; [done | by intros [= <-]].
  - unfold move_message. run_io.
    destruct (Sql.update_message_clipboard _ _ _ _); simpl;
      [done | by intros [= <-]].
  - unfold create_message_file. step_io.
    destruct (upload_original_name _ _); cbv beta iota zeta;
      [| by intros [= <-]].
    unfold write_file.
    destruct (open_error _ _) as [eo |]; simpl;
      [intros [= <-]; split; [intros; reflexivity | intros _; reflexivity] |].
    destruct (Sql.insert_message _ _ _ _ _) as [[d' i] |] eqn:Hins; simpl.
    + unfold getsize. simpl. by rewrite lookup_insert_eq.
    + intros [= <-]. apply insert_message_error in Hins.
      split; [| done]. intros sc dt ->. done.
  - unfold create_message_file_direct. step_io.
    case_bool_decide; [by intros [= <-] |].
    unfold write_file.
    destruct (open_error _ _) as [eo |]; simpl;
      [intros [= <-]; split; [intros; reflexivity | intros _; reflexivity] |].
    destruct (Sql.insert_message _ _ _ _ _) as [[d' i] |] eqn:Hins; simpl.
    + unfold load_name.
      destruct (Py.truthy (headers !! "x-filename")); simpl;
        intros [= <-]; (split; [done | by intros []]).
    + intros [= <-]. apply insert_message_error in Hins.
      split; [| done]. intros sc dt ->. done.
  - intros He. rewrite get_file_world. split; [done |].
    intros _. done.
Qed.

Lemma errors_leave_store_witness :
  fst (serve "secret" mimetypes_excerpt "t5" 9 (Some "Bearer secret")
         (POST_messages_file (Some "a.txt") [x41]%byte None 99 None) world_hello)
  = Raise (IntegrityError "FOREIGN KEY constraint failed")
  /\ db (snd (serve "secret" mimetypes_excerpt "t5" 9 (Some "Bearer secret")
                (POST_messages_file (Some "a.txt") [x41]%byte None 99 None)
                world_hello))
     = db world_hello.
Proof.
  assert (H : fst (serve "secret" mimetypes_excerpt "t5" 9 (Some "Bearer secret")
                     (POST_messages_file (Some "a.txt") [x41]%byte None 99 None)
                     world_hello)
              = Raise (IntegrityError "FOREIGN KEY constraint failed"))
    by reflexivity.
  split; [exact H |].
  destruct (errors_leave_store _ _ _ _ _ _ _ _ H) as [_ Hdb].
  apply Hdb. exact I.
Defined.

(** ** Consistency of reachable stores *)

(** X17. In every state the system can reach, the store satisfies its
    schema: clipboard ids are unique, clipboard names are unique, message
    ids are unique, every message references a clipboard that exists, and
    every id fits SQLite's 64-bit INTEGER. *)
Theorem reachable_store_is_consistent API_TOKEN guess_extension w :
  reachable API_TOKEN guess_extension w ->
  NoDup (clipboards.id <$> tbl_clipboards (db w))
  /\ NoDup (clipboards.name <$> tbl_clipboards (db w))
  /\ NoDup (messages.id <$> tbl_messages (db w))
  /\ (forall m, m ∈ tbl_messages (db w) ->
        exists c, c ∈ tbl_clipboards (db w)
                  /\ clipboards.id c = messages.clipboard_id m)
  /\ (forall c, c ∈ tbl_clipboards (db w) ->
                - 2 ^ 63 <= clipboards.id c < 2 ^ 63)
  /\ (forall m, m ∈ tbl_messages (db w) ->
                - 2 ^ 63 <= messages.id m < 2 ^ 63).
Proof.
  intros Hreach.
  pose proof (reachable_schema_ok _ _ _ Hreach) as (H1 & H2 & H3 & H4).
  pose proof (reachable_db_wf _ _ _ Hreach) as Hwf.
  unfold db_wf in Hwf. destruct Hwf as [H5 H6].
  rewrite Forall_forall in H4. rewrite Forall_forall in H5.
  rewrite Forall_forall in H6.
  split; [done |]. split; [done |]. split; [done |].
  assert (Hrange : forall z, Sql.int64 z = true -> - 2 ^ 63 <= z < 2 ^ 63).
  { intros z [?%Z.leb_le ?%Z.ltb_lt]%andb_true_iff. lia. }
  split; [| split].
  - intros m Hm. specialize (H4 m Hm).
    apply list_elem_of_fmap in H4 as (c & E & Hc). by exists c.
  - intros c Hc. by apply Hrange, H5.
  - intros m Hm. by apply Hrange, H6.
Qed.

Lemma reachable_store_is_consistent_witness :
  reachable "secret" mimetypes_excerpt world_renamed
  /\ NoDup (clipboards.name <$> tbl_clipboards (db world_renamed)).
Proof.
  assert (Hreach : reachable "secret" mimetypes_excerpt world_renamed).
  { apply reach_request, reach_start. }
  split; [exact Hreach |].
  by destruct (reachable_store_is_consistent _ _ _ Hreach) as (_ & H & _).
Defined.

Lemma foldr_max_covered seq (ids : list Z) :
  Forall (fun i => i <= seq) ids -> foldr Z.max seq ids = seq.
Proof. induction 1; simpl; lia. Qed.

Lemma next_rowid_covered seq ids new_id :
  Forall (fun i => i <= seq) ids ->
  Sql.next_rowid seq ids = Return new_id -> new_id = seq + 1.
Proof.
  intros Hcov. unfold Sql.next_rowid. rewrite foldr_max_covered by done.
  destruct (_ <? _); [| done]. by intros [= <-].
Qed.

Lemma Forall_if_updated {A} (P : A -> Prop) (c : A -> bool) (f : A -> A)
    (l : list A) :
  (forall r, P r -> P (f r)) ->
  Forall P l -> Forall P ((fun r => if c r then f r else r) <$> l).
Proof.
  intros Hf Hl. apply Forall_fmap. eapply Forall_impl; [exact Hl |].
  intros r Hr. simpl. destruct (c r); auto.
Qed.

Lemma elem_of_if_updated_id {A} (g : A -> Z) (c : A -> bool) (f : A -> A)
    (l : list A) x :
  (forall r, g (f r) = g r) ->
  x ∈ ((fun r => if c r then f r else r) <$> l) -> g x ∈ g <$> l.
Proof.
  intros Hg (r & -> & Hr)%list_elem_of_fmap.
  replace (g (if c r then f r else r)) with (g r)
    by (destruct (c r); by rewrite ?Hg).
  by apply list_elem_of_fmap_2.
Qed.

Lemma run_stmt_no_id_reuse s d d' :
  run_stmt s d = Return d' ->
  seq_covers d ->
  (exists c, c ∈ tbl_clipboards d /\ clipboards.id c = 1) ->
  seq_covers d' /\ no_id_reuse d d'.
Proof.
  intros Hrun [Hc Hm] (c1 & Hc1 & Hid1).
  assert (Hself : no_id_reuse d d).
  { repeat split; try lia; intros x Hx; left; by apply list_elem_of_fmap_2. }
  destruct s; simpl in Hrun.
  - unfold Sql.insert_or_ignore_main in Hrun.
    destruct (existsb _ _) eqn:E; injection Hrun as <-; [done |].
    exfalso. apply not_true_iff_false in E. apply E.
    apply existsb_exists. exists c1. split; [by apply list_elem_of_In |].
    by rewrite Hid1.
  - unfold Sql.insert_clipboard in Hrun.
    destruct (existsb _ _); [done |].
    destruct (Sql.next_rowid _ _) as [new_id |] eqn:Hnext; [| done].
    injection Hrun as <-.
    apply next_rowid_covered in Hnext; [| by apply Forall_fmap].
    subst new_id. split; [split | repeat split]; simpl; try lia; try done.
    + apply Forall_app. split; [| repeat constructor; simpl; lia].
      eapply Forall_impl; [exact Hc |]. simpl. intros; lia.
    + intros c [Hin | ->%list_elem_of_singleton]%elem_of_app.
      * left. by apply list_elem_of_fmap_2.
      * right. simpl. lia.
    + intros m Hin. left. by apply list_elem_of_fmap_2.
  - unfold Sql.update_clipboard_name, Sql.bind_ints in Hrun.
    destruct (forallb _ _); [| done].
    destruct (_ && _); [done |]. injection Hrun as <-.
    split; [split | repeat split]; simpl; try lia; try done.
    + by apply (Forall_if_updated _ (fun c => clipboards.id c =? cid)).
    + intros c Hin. left.
      by apply (elem_of_if_updated_id clipboards.id
                  (fun c => clipboards.id c =? cid)) in Hin.
    + intros m Hin. left. by apply list_elem_of_fmap_2.
  - unfold Sql.delete_messages_of_clipboard, Sql.bind_ints in Hrun.
    destruct (forallb _ _); [| done]. injection Hrun as <-.
    split; [split | repeat split]; simpl; try lia; try done.
    + by apply Forall_filtered.
    + intros c Hin. left. by apply list_elem_of_fmap_2.
    + intros m [_ Hin]%list_elem_of_filter. left. by apply list_elem_of_fmap_2.
  - unfold Sql.delete_clipboard_row, Sql.bind_ints in Hrun.
    destruct (forallb _ _); [| done].
    destruct (_ && _); [done |]. injection Hrun as <-.
    split; [split | repeat split]; simpl; try lia; try done.
    + by apply Forall_filtered.
    + intros c [_ Hin]%list_elem_of_filter. left. by apply list_elem_of_fmap_2.
    + intros m Hin. left. by apply list_elem_of_fmap_2.
  - unfold Sql.update_message_text, Sql.bind_ints in Hrun.
    destruct (forallb _ _); [| done]. injection Hrun as <-.
    split; [split | repeat split]; simpl; try lia; try done.
    + by apply (Forall_if_updated _ (fun m => messages.id m =? mid)).
    + intros c Hin. left. by apply list_elem_of_fmap_2.
    + intros m Hin. left.
      by apply (elem_of_if_updated_id messages.id
                  (fun m => messages.id m =? mid)) in Hin.
  - destruct (Sql.insert_message _ _ _ _ _) as [[d1 i] |] eqn:Hins; [| done].
    injection Hrun as ->.
    unfold Sql.insert_message, Sql.bind_ints in Hins.
    destruct (forallb _ _); [| done].
    destruct (Sql.next_rowid _ _) as [new_id |] eqn:Hnext; [| done].
    destruct (Sql.has_clipboard _ _); [| done].
    injection Hins as <- <-.
    apply next_rowid_covered in Hnext; [| by apply Forall_fmap].
    subst new_id. split; [split | repeat split]; simpl; try lia; try done.
    + apply Forall_app. split; [| repeat constructor; simpl; lia].
      eapply Forall_impl; [exact Hm |]. simpl. intros; lia.
    + intros c Hin. left. by apply list_elem_of_fmap_2.
    + intros m [Hin | ->%list_elem_of_singleton]%elem_of_app.
      * left. by apply list_elem_of_fmap_2.
      * right. simpl. lia.
  - unfold Sql.update_message_pinned, Sql.bind_ints in Hrun.
    destruct (forallb _ _); [| done]. injection Hrun as <-.
    split; [split | repeat split]; simpl; try lia; try done.
    + by apply (Forall_if_updated _ (fun m => messages.id m =? mid)).
    + intros c Hin. left. by apply list_elem_of_fmap_2.
    + intros m Hin. left.
      by apply (elem_of_if_updated_id messages.id
                  (fun m => messages.id m =? mid)) in Hin.
  - unfold Sql.delete_message_row, Sql.bind_ints in Hrun.
    destruct (forallb _ _); [| done]. injection Hrun as <-.
    split; [split | repeat split]; simpl; try lia; try done.
    + by apply Forall_filtered.
    + intros c Hin. left. by apply list_elem_of_fmap_2.
    + intros m [_ Hin]%list_elem_of_filter. left. by apply list_elem_of_fmap_2.
  - unfold Sql.update_message_clipboard, Sql.bind_ints in Hrun.
    destruct (forallb _ _); [| done].
    destruct (_ && _); [done |]. injection Hrun as <-.
    split; [split | repeat split]; simpl; try lia; try done.
    + by apply (Forall_if_updated _ (fun m => messages.id m =? mid)).
    + intros c Hin. left. by apply list_elem_of_fmap_2.
    + intros m Hin. left.
      by apply (elem_of_if_updated_id messages.id
                  (fun m => messages.id m =? mid)) in Hin.
Qed.

Lemma no_id_reuse_refl d : no_id_reuse d d.
Proof.
  repeat split; try lia; intros x Hx; left; by apply list_elem_of_fmap_2.
Qed.

Lemma no_id_reuse_trans d1 d2 d3 :
  no_id_reuse d1 d2 -> no_id_reuse d2 d3 -> no_id_reuse d1 d3.
Proof.
  intros (Hc12 & Hm12 & Hcl12 & Hms12) (Hc23 & Hm23 & Hcl23 & Hms23).
  repeat split; try lia.
  - intros c Hc. destruct (Hcl23 c Hc) as [Hin | Hlt]; [| right; lia].
    apply list_elem_of_fmap in Hin as (c' & -> & Hc'). by apply Hcl12.
  - intros m Hm. destruct (Hms23 m Hm) as [Hin | Hlt]; [| right; lia].
    apply list_elem_of_fmap in Hin as (m' & -> & Hm'). by apply Hms12.
Qed.

Lemma run_stmts_no_id_reuse l : forall d d',
  run_stmts l d = Return d' ->
  Forall (fun s => s <> DeleteClipboardRow 1) l ->
  seq_covers d ->
  (exists c, c ∈ tbl_clipboards d /\ clipboards.id c = 1) ->
  seq_covers d' /\ no_id_reuse d d'.
Proof.
  induction l as [| s l IH]; simpl; intros d d' Hrun Hok Hcov H1.
  - injection Hrun as <-. split; [done | apply no_id_reuse_refl].
  - apply Forall_cons in Hok as [Hs Hl].
    destruct (run_stmt s d) as [d1 |] eqn:E; [| done].
    destruct (run_stmt_no_id_reuse s d d1 E Hcov H1) as [Hcov1 Hstep1].
    pose proof (run_stmt_keeps_clipboard_1 s d d1 E Hs H1) as H11.
    destruct (IH d1 d' Hrun Hl Hcov1 H11) as [Hcov' Hstep].
    split; [done |]. by eapply no_id_reuse_trans.
Qed.

Lemma reachable_seq_covers API_TOKEN guess_extension w :
  reachable API_TOKEN guess_extension w -> seq_covers (db w).
Proof.
  induction 1 as [now | now w Hw IH | now urandom authorization r w Hw IH].
  - split; repeat constructor. simpl. lia.
  - destruct (startup_commits now w) as [Hrun _].
    apply (run_stmt_no_id_reuse (InsertOrIgnoreMain now) _ _ Hrun IH).
    by apply (reachable_has_clipboard_1 API_TOKEN guess_extension).
  - destruct (serve_commits API_TOKEN guess_extension now urandom
                authorization r w) as [-> | Hrun]; [done |].
    eapply run_stmts_no_id_reuse;
      [exact Hrun | apply writes_of_never_delete_main | exact IH |].
    by apply (reachable_has_clipboard_1 API_TOKEN guess_extension).
Qed.

(** X18. Ids are never reused.  In a reachable state every clipboard id
    and message id is at most its table's AUTOINCREMENT counter; a request
    never lowers a counter; and every row present after a request carries
    either an id that was present before it or an id above the counter.
    So the id of a deleted clipboard or message is never given to a later
    one. *)
Theorem ids_are_never_reused API_TOKEN guess_extension now urandom
    authorization r w :
  reachable API_TOKEN guess_extension w ->
  (forall c, c ∈ tbl_clipboards (db w) ->
             clipboards.id c <= seq_clipboards (db w))
  /\ (forall m, m ∈ tbl_messages (db w) ->
                messages.id m <= seq_messages (db w))
  /\ seq_clipboards (db w)
     <= seq_clipboards
          (db (snd (serve API_TOKEN guess_extension now urandom authorization
                      r w)))
  /\ seq_messages (db w)
     <= seq_messages
          (db (snd (serve API_TOKEN guess_extension now urandom authorization
                      r w)))
  /\ (forall c,
         c ∈ tbl_clipboards
               (db (snd (serve API_TOKEN guess_extension now urandom
                           authorization r w))) ->
         clipboards.id c ∈ clipboards.id <$> tbl_clipboards (db w)
         \/ seq_clipboards (db w) < clipboards.id c)
  /\ (forall m,
         m ∈ tbl_messages
               (db (snd (serve API_TOKEN guess_extension now urandom
                           authorization r w))) ->
         messages.id m ∈ messages.id <$> tbl_messages (db w)
         \/ seq_messages (db w) < messages.id m).
Proof.
  intros Hreach.
  pose proof (reachable_seq_covers _ _ _ Hreach) as Hcov.
  pose proof (reachable_has_clipboard_1 _ _ _ Hreach) as H1.
  pose proof Hcov as [Hc Hm].
  rewrite Forall_forall in Hc. rewrite Forall_forall in Hm.
  split; [exact Hc |]. split; [exact Hm |].
  assert (Hstep : no_id_reuse (db w)
                    (db (snd (serve API_TOKEN guess_extension now urandom
                                authorization r w)))).
  { destruct (serve_commits API_TOKEN guess_extension now urandom
                authorization r w) as [-> | Hrun]; [apply no_id_reuse_refl |].
    eapply run_stmts_no_id_reuse;
      [exact Hrun | apply writes_of_never_delete_main | exact Hcov | exact H1]. }
  exact Hstep.
Qed.

Lemma ids_are_never_reused_witness :
  reachable "secret" mimetypes_excerpt world_renamed
  /\ seq_clipboards (db world_renamed)
     <= seq_clipboards
          (db (snd (serve "secret" mimetypes_excerpt "t2" 0 (Some "Bearer secret")
                      (POST_clipboards "work") world_renamed)))
  /\ tbl_clipboards
       (db (snd (serve "secret" mimetypes_excerpt "t2" 0 (Some "Bearer secret")
                   (POST_clipboards "work") world_renamed)))
     = [clipboards.Row 1 "inbox" "t0"; clipboards.Row 2 "work" "t2"].
Proof.
  assert (Hreach : reachable "secret" mimetypes_excerpt world_renamed).
  { apply reach_request, reach_start. }
  split; [exact Hreach |].
  destruct (ids_are_never_reused "secret" mimetypes_excerpt "t2" 0
              (Some "Bearer secret") (POST_clipboards "work") world_renamed
              Hreach) as (_ & _ & Hseq & _).
  split; [exact Hseq | reflexivity].
Defined.

(** X19. Restarting the process leaves a store that has clipboard 1
    exactly as it is: [startup] neither adds nor alters a row, and the
    files are untouched.  In particular every reachable state survives a
    restart unchanged. *)
Theorem restart_changes_nothing API_TOKEN guess_extension now w :
  (has_clipboard_1 w -> startup now w = (Return tt, w))
  /\ (reachable API_TOKEN guess_extension w -> startup now w = (Return tt, w)).
Proof.
  assert (H : has_clipboard_1 w -> startup now w = (Return tt, w)).
  { intros (c & Hin & Hid).
    unfold startup, Sql.insert_or_ignore_main. run_io.
    assert (E : existsb (fun c => (clipboards.id c =? 1)
                                  || String.eqb (clipboards.name c) "main")
                        (tbl_clipboards (db w)) = true).
    { apply existsb_exists. exists c. split; [by apply list_elem_of_In |].
      by rewrite Hid. }
    rewrite E. by destruct w. }
  split; [exact H |].
  intros Hreach. apply H. by eapply reachable_has_clipboard_1.
Qed.

Lemma restart_changes_nothing_witness :
  has_clipboard_1 world_report
  /\ startup "t9" world_report = (Return tt, world_report).
Proof.
  assert (H1 : has_clipboard_1 world_report).
  { exists (clipboards.Row 1 "main" "t0"). split; [| reflexivity].
    vm_compute. apply list_elem_of_here. }
  split; [exact H1 |].
  destruct (restart_changes_nothing "secret" mimetypes_excerpt "t9" world_report)
    as [H _].
  exact (H H1).
Defined.

(** ** Downloads and failed uploads *)

Lemma verify_token_bearer API_TOKEN :
  verify_token API_TOKEN (Some ("Bearer " +:+ API_TOKEN)) = Return tt.
Proof.
  unfold verify_token. rewrite prefix_bearer.
  change (Py.truthy (Some ("Bearer " +:+ API_TOKEN))) with true.
  change (Py.split1 " " ("Bearer " +:+ API_TOKEN) !! 1%nat) with (Some API_TOKEN).
  cbn [negb orb]. by rewrite String.eqb_refl.
Qed.

(** X20. With the secret presented on either channel (as the [token]
    query parameter, or as a bearer header when the parameter is absent or
    empty), and a name that is one path segment (no "/", as the route
    parameter always is), [get_file] answers 404 "File not found" for a
    name that is not in the attachments directory, unless the name is "."
    or "..": these name the directory and its parent, which exist, so the
    handler returns a [FileResponse] for that path.  For a name that is in
    the directory it returns the [FileResponse] of the file under
    /data/attachments.  It changes nothing. *)
Theorem get_file_serves_existing_files API_TOKEN filename token authorization w :
  API_TOKEN <> "" ->
  token = Some API_TOKEN
  \/ (Py.truthy token = false
      /\ authorization = Some ("Bearer " +:+ API_TOKEN)) ->
  Py.occurs "/" filename = false ->
  (attachments w !! filename = None ->
   filename <> "" -> filename <> "." -> filename <> ".." ->
   get_file API_TOKEN filename token authorization w
   = (Raise (HTTPException 404 "File not found"), w))
  /\ (forall content,
         attachments w !! filename = Some content ->
         get_file API_TOKEN filename token authorization w
         = (Return (FileResponse ("/data/attachments/" +:+ filename)), w))
  /\ (filename = "." \/ filename = ".." ->
      get_file API_TOKEN filename token authorization w
      = (Return (FileResponse ("/data/attachments/" +:+ filename)), w)).
Proof.
  intros Hsecret Hauth _.
  assert (Hpass : get_file API_TOKEN filename token authorization w
                  = (if negb (String.eqb filename "" || String.eqb filename "."
                              || String.eqb filename ".."
                              || bool_decide (is_Some (attachments w !! filename)))
                     then (Raise (HTTPException 404 "File not found"), w)
                     else (Return (FileResponse ("/data/attachments/" +:+ filename)),
                           w))).
  { unfold get_file, path_exists, mbind, io_bind, mret, io_ret, raise, lift.
    rewrite (truthy_Some API_TOKEN) by done. cbn [negb].
    destruct Hauth as [-> | [Hfalsy ->]].
    - rewrite (truthy_Some API_TOKEN) by done.
      change (default "" (Some API_TOKEN)) with API_TOKEN.
      rewrite String.eqb_refl. cbn [negb].
      by destruct (negb (_ || _)).
    - rewrite Hfalsy, verify_token_bearer.
      by destruct (negb (_ || _)). }
  rewrite Hpass. split; [| split].
  - intros -> H0 H1 H2.
    apply String.eqb_neq in H0, H1, H2. rewrite H0, H1, H2.
    rewrite bool_decide_eq_false_2; [done |]. by intros [? ?].
  - intros content ->. rewrite bool_decide_eq_true_2 by eauto.
    by rewrite !orb_true_r.
  - by intros [-> | ->].
Qed.

Lemma get_file_serves_existing_files_witness :
  "secret" <> ""
  /\ get_file "secret" "0000000000004000800000000000004d_report.pdf" None
       (Some "Bearer secret") world_report
     = (Return (FileResponse
                  "/data/attachments/0000000000004000800000000000004d_report.pdf"),
        world_report)
  /\ get_file "secret" "missing.pdf" (Some "secret") None world_report
     = (Raise (HTTPException 404 "File not found"), world_report)
  /\ get_file "secret" ".." (Some "secret") None world_report
     = (Return (FileResponse "/data/attachments/.."), world_report).
Proof.
  assert (H : "secret" <> "") by done.
  split; [exact H |].
  destruct (get_file_serves_existing_files "secret"
              "0000000000004000800000000000004d_report.pdf" None
              (Some "Bearer secret") world_report H
              (or_intror (conj eq_refl eq_refl)) eq_refl) as (_ & Hyes & _).
  destruct (get_file_serves_existing_files "secret" "missing.pdf"
              (Some "secret") None world_report H (or_introl eq_refl) eq_refl)
    as (Hno & _ & _).
  destruct (get_file_serves_existing_files "secret" ".."
              (Some "secret") None world_report H (or_introl eq_refl) eq_refl)
    as (_ & _ & Hdir).
  split; [apply (Hyes [x00; x01]%byte); reflexivity |].
  split; [apply Hno; [reflexivity | done | done | done] |].
  apply Hdir. by right.
Defined.

(** X21. A multipart upload into a clipboard that does not exist, under
    a stored name of which a file can be created (no NUL byte, at most 255
    bytes), fails with an error of the store and commits nothing, but the
    file has already been written: it stays in the attachments directory
    with no message row for this upload. *)
Theorem failed_upload_leaves_file now urandom content text clipboard_id
    x_filename file_filename name w :
  (if Py.truthy x_filename then x_filename else file_filename) = Some name ->
  writable (Py.uuid4_hex urandom +:+ "_" +:+ Py.basename name) = true ->
  Sql.has_clipboard clipboard_id (db w) = false ->
  exists e w',
    create_message_file now urandom file_filename content text clipboard_id
      x_filename w
    = (Raise e, w')
    /\ sql_error e
    /\ db w' = db w
    /\ attachments w'
       = <[Py.uuid4_hex urandom +:+ "_" +:+ Py.basename name := content]>
           (attachments w).
Proof.
  intros Hsel Hok Hno.
  unfold create_message_file, upload_original_name. rewrite Hsel.
  step_io. unfold write_file, upload_filename.
  rewrite (open_error_writable _ _ Hok). simpl.
  destruct (Sql.insert_message _ _ _ _ _) as [[conn msg_id] | e] eqn:Hins;
    simpl.
  - unfold Sql.insert_message, Sql.bind_ints in Hins.
    destruct (forallb _ _); [| done].
    destruct (Sql.next_rowid _ _); [| done].
    by rewrite Hno in Hins.
  - eexists _, _. split; [reflexivity |].
    split; [by eapply insert_message_error | done].
Qed.

Lemma failed_upload_leaves_file_witness :
  Sql.has_clipboard 99 (db world_hello) = false
  /\ exists w',
      create_message_file "t5" 9 (Some "a.txt") [x41]%byte None 99 None world_hello
      = (Raise (IntegrityError "FOREIGN KEY constraint failed"), w')
      /\ db w' = db world_hello
      /\ attachments w' !! "00000000000040008000000000000009_a.txt"
         = Some [x41]%byte.
Proof.
  split; [reflexivity |].
  destruct (failed_upload_leaves_file "t5" 9 [x41]%byte None 99 None
              (Some "a.txt") "a.txt" world_hello eq_refl eq_refl eq_refl)
    as (e & w' & Hrun & _ & Hdb & Hfiles).
  exists w'.
  assert (E : @Raise response (IntegrityError "FOREIGN KEY constraint failed")
              = Raise e).
  { change (fst (create_message_file "t5" 9 (Some "a.txt") [x41]%byte None 99
                   None world_hello)
            = fst (@Raise response e, w')).
    by rewrite Hrun. }
  injection E as <-.
  split; [exact Hrun |]. split; [exact Hdb |].
  rewrite Hfiles. apply lookup_insert_eq.
Defined.

Lemma split_first_no_separator sep s :
  Py.occurs sep s = false -> Py.split_first sep s = (s, None).
Proof.
  induction s as [| a s IH]; simpl; [done |].
  intros [Ha Hs]%orb_false_elim. by rewrite Ha, IH.
Qed.

(** X22. The derived fields of a listing.  Every listed item repeats the
    stored columns of a message row.  A row without a filename (NULL or
    empty) is listed with neither [file_size] nor [original_filename].
    For a row with a filename, [file_size] is the length of the file of
    that name and is missing when no such file exists (a file removed
    behind the service's back), and [original_filename] is the stored
    name itself when it contains no underscore and what follows its first
    underscore otherwise. *)
Theorem list_messages_derived_fields clipboard_id order w :
  (clipboard_id = None
   \/ exists c, clipboard_id = Some c /\ Sql.int64 c = true) ->
  exists l,
    list_messages clipboard_id order w = (Return (JSON_messages l), w)
    /\ forall item, item ∈ l ->
        exists row,
          row ∈ tbl_messages (db w)
          /\ dict_row row
             = MessageOut.Make (MessageOut.id item) (MessageOut.text item)
                 (MessageOut.filename item) (MessageOut.clipboard_id item)
                 (MessageOut.created_at item) (MessageOut.updated_at item)
                 (MessageOut.pinned item) None None
          /\ (Py.truthy (MessageOut.filename item) = false ->
              MessageOut.file_size item = None
              /\ MessageOut.original_filename item = None)
          /\ (forall fn,
                 MessageOut.filename item = Some fn -> fn <> "" ->
                 (attachments w !! fn = None ->
                  MessageOut.file_size item = None)
                 /\ (forall content,
                        attachments w !! fn = Some content ->
                        MessageOut.file_size item
                        = Some (Z.of_nat (length content)))
                 /\ (Py.occurs "_" fn = false ->
                     MessageOut.original_filename item = Some fn)
                 /\ (forall token rest,
                        Py.occurs "_" token = false ->
                        fn = token +:+ "_" +:+ rest ->
                        MessageOut.original_filename item = Some rest)).
Proof.
  intros Hfilter. rewrite list_messages_run by done.
  eexists. split; [reflexivity |].
  intros item (row & -> & Hrow)%list_elem_of_fmap.
  rewrite merge_sort_Permutation in Hrow.
  exists row. split.
  { destruct clipboard_id; [| done].
    by apply list_elem_of_filter in Hrow as [_ ?]. }
  split; [done |]. unfold list_item, file_size_of, original_filename_of.
  cbn [MessageOut.filename MessageOut.file_size MessageOut.original_filename].
  split.
  - by intros ->.
  - intros fn -> Hfn. rewrite (truthy_Some fn) by done.
    split; [by intros -> |]. split; [by intros content -> |]. split.
    + intros Hno. unfold Py.split1.
      by rewrite split_first_no_separator.
    + intros token rest Hno ->. unfold Py.split1.
      change ("_" +:+ rest) with (String "_" rest).
      by rewrite split_first_at_separator.
Qed.

Lemma list_messages_derived_fields_witness :
  (@None Z = None \/ exists c, @None Z = Some c /\ Sql.int64 c = true)
  /\ exists l,
      list_messages None "asc" (World (db world_report) ∅)
      = (Return (JSON_messages l), World (db world_report) ∅)
      /\ MessageOut.filename <$> l
         = [None; Some "0000000000004000800000000000004d_report.pdf"]
      /\ MessageOut.file_size <$> l = [None; None]
      /\ MessageOut.original_filename <$> l = [None; Some "report.pdf"].
Proof.
  split; [by left |].
  destruct (list_messages_derived_fields None "asc"
              (World (db world_report) ∅) (or_introl eq_refl)) as (l & Hl & _).
  exists l. split; [exact Hl |].
  pose proof (eq_trans (eq_sym Hl)
                (list_messages_run None "asc" (World (db world_report) ∅)
                   (or_introl eq_refl))) as E.
  rewrite (JSON_messages_inj _ _ _ _ E).
  repeat split; vm_compute; reflexivity.
Defined.
